(** * SeriCare backend: accounts and the authenticated upload pipeline

    A shallow embedding of the Express application of this repository:
    [models/User.js], [models/Upload.js], both versions of
    [middleware/authMiddleware.js], [routes/auth.js] (signup, login and
    [/me]), [routes/upload.js] (upload and history) and the routing and
    error handling of [server.js].

    Handlers are functions from a world (files on disk, the two MongoDB
    collections) and a request to a response and a new world.  What the
    code obtains from outside (the clock, [Math.random], the classifier's
    answer, storage failures) is read from an explicit environment, and the
    library functions it calls (jsonwebtoken, bcrypt, [path.extname],
    Mongoose's cast to ObjectId) are parameters.  Strings are sequences of
    characters below 128. *)

From Stdlib Require Import ZArith QArith Qcanon Qround String Ascii List Lia.
From Stdlib Require Import Sorted.
From stdpp Require Import base decidable option list gmap sets strings pretty.
Import ListNotations.

Local Open Scope string_scope.
Local Open Scope list_scope.

(** ** JavaScript values used by the handlers *)

Module Js.

(** The value handed to [res.json]. *)
#[warnings="-register-all"]
Inductive Json : Type :=
| JNull
| JBool (b : bool)
| JNum (q : Qc)
| JStr (s : string)
| JArr (l : list Json)
| JObj (fields : list (string * Json)).

(** An [Error] object: the [code] and [status] properties some libraries
    set, and the message. *)
Record JsError : Type := mkError {
  code : option string;
  estatus : option Z;
  message : string
}.

(** The result of an awaited call that may throw. *)
Inductive Result (A : Type) : Type :=
| Ok (a : A)
| Throw (e : JsError).
Arguments Ok {A} a.
Arguments Throw {A} e.

Definition num_of_Z (z : Z) : Json := JNum (Q2Qc (inject_Z z)).

(** [obj[k]] on an object given by its properties, in insertion order. *)
Fixpoint assoc {A : Type} (k : string) (fields : list (string * A))
  : option A :=
  match fields with
  | [] => None
  | (k', v) :: rest => if String.eqb k' k then Some v else assoc k rest
  end.

Definition get (k : string) (j : Json) : option Json :=
  match j with
  | JObj fields => assoc k fields
  | _ => None
  end.

(** [delete obj[k]]. *)
Fixpoint delete_key (k : string) (fields : list (string * Json))
  : list (string * Json) :=
  match fields with
  | [] => []
  | (k', v) :: rest =>
      if String.eqb k' k then delete_key k rest
      else (k', v) :: delete_key k rest
  end.

(** Does the key [k] occur anywhere in the value? *)
Fixpoint has_key (k : string) (j : Json) : bool :=
  match j with
  | JArr l => existsb (has_key k) l
  | JObj fields =>
      existsb (fun kv => match kv with
                         | (k', v) => String.eqb k' k || has_key k v
                         end) fields
  | _ => false
  end.

(** [String.prototype.toLowerCase] on the characters [A-Z]; the labels
    and paths compared in this program are ASCII. *)
Definition lower_ascii (c : ascii) : ascii :=
  let n := nat_of_ascii c in
  if (65 <=? n)%nat && (n <=? 90)%nat then ascii_of_nat (n + 32) else c.

Fixpoint toLowerCase (s : string) : string :=
  match s with
  | EmptyString => EmptyString
  | String c s' => String (lower_ascii c) (toLowerCase s')
  end.

(** [s.split(sep)] for a one-character separator: every occurrence of
    the separator ends a piece, pieces may be empty. *)
Fixpoint split (sep : ascii) (s : string) : list string :=
  match s with
  | EmptyString => [EmptyString]
  | String c s' =>
      if Ascii.eqb c sep then EmptyString :: split sep s'
      else match split sep s' with
           | [] => [String c EmptyString]
           | piece :: rest => String c piece :: rest
           end
  end.

(** [s.startsWith(p)]. *)
Definition startsWith (p s : string) : bool := String.prefix p s.

(** Truthiness of an optional string: [undefined] and [""] are falsy. *)
Definition truthy (o : option string) : bool :=
  match o with
  | Some s => negb (String.eqb s "")
  | None => false
  end.

(** [a || b] on optional strings. *)
Definition or_else (o : option string) (d : string) : string :=
  match o with
  | Some s => if String.eqb s "" then d else s
  | None => d
  end.

(** Truthiness of a value that came out of [JSON.parse]; [None] is
    [undefined]. *)
Definition truthy_json (o : option Json) : bool :=
  match o with
  | None => false
  | Some JNull => false
  | Some (JBool b) => b
  | Some (JNum q) => negb (bool_decide (q = 0%Qc))
  | Some (JStr s) => negb (String.eqb s "")
  | Some (JArr _) => true
  | Some (JObj _) => true
  end.

(** [typeof v] *)
Definition typeof (v : Json) : string :=
  match v with
  | JBool _ => "boolean"
  | JNum _ => "number"
  | JStr _ => "string"
  | JNull | JArr _ | JObj _ => "object"
  end.

(** [Math.floor] and [Math.round] on rationals. *)
Definition Math_floor (q : Qc) : Z := Qfloor q.
Definition Math_round (q : Qc) : Z := Qfloor (q + Q2Qc (1 # 2))%Qc.

End Js.
Import Js.

(** An HTTP response: [res.status(c).json(body)]. *)
Record Response : Type := mkResponse {
  status : Z;
  body : Json
}.

(** ** models/User.js *)

Module User.

Record t : Type := mk {
  _id : string;
  name : string;
  role : string;
  email : string;
  phone : string;
  passwordHash : string;
  village : option string;
  language : string;
  createdAt : Z;
  lastLogin : option Z;
  updatedAt : Z;
  __v : Z
}.

Definition opt_field (k : string) (o : option Json) : list (string * Json) :=
  match o with
  | Some v => [(k, v)]
  | None => []
  end.

(** [this.toObject()]: the document's paths as a plain object; a path
    that was never set is absent. *)
Definition toObject (u : t) : list (string * Json) :=
  [ ("_id", JStr (_id u));
    ("name", JStr (name u));
    ("role", JStr (role u));
    ("email", JStr (email u));
    ("phone", JStr (phone u));
    ("passwordHash", JStr (passwordHash u)) ]
  ++ opt_field "village" (JStr <$> village u)
  ++ [ ("language", JStr (language u));
       ("createdAt", num_of_Z (createdAt u)) ]
  ++ opt_field "lastLogin" (num_of_Z <$> lastLogin u)
  ++ [ ("updatedAt", num_of_Z (updatedAt u));
       ("__v", num_of_Z (__v u)) ].

(** [userSchema.methods.toJSON] *)
Definition toJSON (u : t) : Json :=
  let obj := toObject u in
  let obj := delete_key "passwordHash" obj in
  let obj := delete_key "__v" obj in
  JObj obj.

(** The same document with another stored hash. *)
Definition with_passwordHash (h : string) (u : t) : t :=
  mk (_id u) (name u) (role u) (email u) (phone u) h (village u)
     (language u) (createdAt u) (lastLogin u) (updatedAt u) (__v u).

(** The document stored under the ObjectId with hexadecimal form [key];
    the collection is keyed by that form of [_id]. *)
Definition findById (users : gmap string t) (key : string) : option t :=
  users !! key.

End User.

(** ** models/Upload.js (the schema with [max: 1] and the four labels) *)

Module Upload.

Record DiseaseInfo : Type := mkDisease {
  dname : string;
  preventiveMeasures : list string
}.

(** The paths the route sets on a new document. *)
Record t : Type := mk {
  _id : string;
  userId : string;
  imageURL : string;
  filename : string;
  label : string;
  confidence : option Qc;
  probabilities : option Json;
  diseaseInfo : option DiseaseInfo;
  imageSize : Z;
  mimeType : string;
  timestamp : Z
}.

(** [enum: ['healthy', 'diseased', 'Healthy', 'Diseased']] *)
Definition label_enum : list string :=
  ["healthy"; "diseased"; "Healthy"; "Diseased"].

Definition in_enum (s : string) (values : list string) : bool :=
  existsb (String.eqb s) values.

(** [required: true] on a string path: present and not empty. *)
Definition required_string (s : string) : bool := negb (String.eqb s "").

(** [confidence: { required: true, min: 0, max: 1 }] *)
Definition confidence_valid (c : option Qc) : bool :=
  match c with
  | Some q => bool_decide (0 <= q)%Qc && bool_decide (q <= 1)%Qc
  | None => false
  end.

(** Schema validation, run by [save] before anything is written.  The
    required [userId] is always present in a document of type [t]. *)
Definition validate (d : t) : bool :=
  required_string (imageURL d)
  && required_string (filename d)
  && required_string (label d) && in_enum (label d) label_enum
  && confidence_valid (confidence d).

Definition ValidationError : JsError :=
  mkError None None "Upload validation failed".

(** [doc.save()]: validation, then the insert, which the storage layer
    may refuse ([insert_error]). *)
Definition save (insert_error : option JsError) (uploads : list t) (d : t)
  : Result (list t) :=
  if validate d then
    match insert_error with
    | Some e => Throw e
    | None => Ok (uploads ++ [d])
    end
  else Throw ValidationError.

(** One row of the [$group] stage. *)
Record Stat : Type := mkStat {
  s_id : string;
  count : nat;
  avgConfidence : Qc
}.

Definition conf (d : t) : Qc := default 0%Qc (confidence d).

Definition sum_conf (l : list t) : Qc :=
  fold_right (fun d acc => (conf d + acc)%Qc) 0%Qc l.

Fixpoint distinct (l : list string) : list string :=
  match l with
  | [] => []
  | x :: rest => x :: filter (fun y => negb (String.eqb x y)) (distinct rest)
  end.

(** [uploadSchema.statics.getUserStats]: [$match] on the owner, then
    [$group] by label with [$sum: 1] and [$avg: '$confidence']. *)
Definition getUserStats (uploads : list t) (uid : string) : list Stat :=
  let matched := filter (fun d => String.eqb (userId d) uid) uploads in
  map (fun l =>
         let group := filter (fun d => String.eqb (label d) l) matched in
         mkStat l (length group)
                (sum_conf group / Q2Qc (inject_Z (Z.of_nat (length group))))%Qc)
      (distinct (map label matched)).

End Upload.

(** ** The world the handlers act on *)

(** Durable state: the paths that exist on disk and the two collections. *)
Record World : Type := mkWorld {
  fs : gset string;
  uploads : list Upload.t;
  users : gmap string User.t
}.

Definition set_fs (f : gset string) (w : World) : World :=
  mkWorld f (uploads w) (users w).

Definition set_uploads (u : list Upload.t) (w : World) : World :=
  mkWorld (fs w) u (users w).

Definition set_users (u : gmap string User.t) (w : World) : World :=
  mkWorld (fs w) (uploads w) u.

(** [fs.existsSync] and [fs.unlinkSync]. *)
Definition existsSync (w : World) (path : string) : bool :=
  bool_decide (path ∈ fs w).

Definition unlinkSync (w : World) (path : string) : World :=
  set_fs (fs w ∖ {[path]}) w.

(** The payload [jwt.sign] puts in a token. *)
Record JwtPayload : Type := mkPayload {
  p_userId : string;
  p_email : string;
  p_role : string
}.

(** The classifier's answer, [aiResponse.data].  [p_label] is [None] when
    the answer carries no string under [label] (calling [toLowerCase] on it
    throws); [p_confidence] is the number the schema casts [confidence] to,
    [None] when there is none; [p_probabilities] is [None] when the field is
    absent or falsy. *)
Record Prediction : Type := mkPrediction {
  p_label : option string;
  p_confidence : option Qc;
  p_probabilities : option Json
}.

(** The part of a multipart body sent under the field [image]. *)
Record FilePart : Type := mkPart {
  originalname : string;
  mimetype : string;
  size : Z
}.

(** [req.file] as multer's disk storage fills it. *)
Record StoredFile : Type := mkStored {
  f_originalname : string;
  f_mimetype : string;
  f_filename : string;
  f_path : string;
  f_size : Z
}.

(** The method of a request that reaches the routers.  [cors()] answers
    every OPTIONS request itself, before any route is tried. *)
Inductive Method : Type := GET | HEAD | POST | PUT | PATCH | DELETE.

Record Request : Type := mkRequest {
  method : Method;
  url : string;
  authorization : option string;
  file_part : option FilePart
}.

(** What one request reads from outside the program. *)
Record Env : Type := mkEnv {
  process_env : gmap string string;   (* process.env, read by the handler *)
  load_env : gmap string string;      (* process.env when server.js required
                                         the routers, before dotenv.config() *)
  find_error : option JsError;        (* the users collection is down *)
  date_now : Z;                       (* Date.now() in the file name *)
  random_name : Qc;                   (* Math.random() in the file name *)
  classifier : Result Prediction;     (* axios.post(FASTAPI_URL, ...) *)
  random_disease : Qc;                (* Math.random() in the enrichment *)
  new_id : string;                    (* the _id of the new document *)
  new_date : Z;                       (* new Date() *)
  insert_error : option JsError       (* the uploads collection is down *)
}.

(** The range the schema allows for [confidence]. *)
Definition unit_interval (c : Qc) : Prop := (0 <= c)%Qc /\ (c <= 1)%Qc.

(** [Math.random()] returns a number in [[0, 1)]. *)
Definition random_range (r : Qc) : Prop := (0 <= r)%Qc /\ (r < 1)%Qc.

(** ** The request handlers *)

Section Handlers.

(** Library functions the code calls: [jwt.verify(token, secret)], which
    returns the decoded payload or throws; Mongoose's cast of a string to an
    ObjectId, which returns the hexadecimal form of the id or throws a
    CastError (every version casts 24 hexadecimal digits; which other strings
    it casts depends on the version of bson); and Node's [path.extname]. *)
Variable jwt_verify : string -> string -> Result JwtPayload.
Variable castObjectId : string -> Result string.
Variable path_extname : string -> string.

Definition fail_body (msg : string) : Json :=
  JObj [("success", JBool false); ("message", JStr msg)].

Definition fail_body_error (msg : string) (e : JsError) : Json :=
  JObj [("success", JBool false); ("message", JStr msg);
        ("error", JStr (message e))].

(** [await User.findById(id)]: the id is cast first, then the collection
    is asked. *)
Definition findById (env : Env) (w : World) (id : string)
  : Result (option User.t) :=
  match castObjectId id with
  | Throw e => Throw e
  | Ok key =>
      match find_error env with
      | Some e => Throw e
      | None => Ok (User.findById (users w) key)
      end
  end.

(** The token both verifiers read: [header.split(" ")[1]]. *)
Definition header_token (req : Request) : option string :=
  authorization req ≫= fun h => split " " h !! 1%nat.

(** *** middleware/authMiddleware.js (the version that loads the user) *)

Inductive AuthResult : Type :=
| AuthRespond (r : Response)
| AuthNext (user : User.t).

Definition authMiddleware (env : Env) (w : World) (req : Request)
  : AuthResult :=
  match authorization req with
  | None => AuthRespond (mkResponse 401 (fail_body "No token provided"))
  | Some authHeader =>
      if String.eqb authHeader "" then
        AuthRespond (mkResponse 401 (fail_body "No token provided"))
      else
        let token := split " " authHeader !! 1%nat in
        if negb (truthy token) then
          AuthRespond (mkResponse 401 (fail_body "Invalid token format"))
        else
          let secret := or_else (process_env env !! "JWT_SECRET")
                                "your-secret-key-change-this" in
          match jwt_verify (default "" token) secret with
          | Throw _ =>
              AuthRespond
                (mkResponse 403 (fail_body "Token invalid or expired"))
          | Ok decoded =>
              match findById env w (p_userId decoded) with
              | Throw _ =>
                  AuthRespond
                    (mkResponse 403 (fail_body "Token invalid or expired"))
              | Ok None =>
                  AuthRespond (mkResponse 404 (fail_body "User not found"))
              | Ok (Some user) => AuthNext user
              end
          end
  end.

(** *** routes/auth.js: GET /auth/me *)

(** The constant [JWT_SECRET] of routes/auth.js, computed once when the
    module is loaded. *)
Definition auth_JWT_SECRET (env : Env) : string :=
  or_else (load_env env !! "JWT_SECRET") "your-secret-key-change-this".

(** The secret the middleware reads from [process.env] on each request. *)
Definition request_secret (env : Env) : string :=
  or_else (process_env env !! "JWT_SECRET") "your-secret-key-change-this".

Definition get_me (env : Env) (w : World) (req : Request) : Response :=
  let token := header_token req in
  if negb (truthy token) then
    mkResponse 401 (fail_body "No token provided")
  else
    let JWT_SECRET := auth_JWT_SECRET env in
    match jwt_verify (default "" token) JWT_SECRET with
    | Throw e => mkResponse 401 (fail_body_error "Invalid token" e)
    | Ok decoded =>
        match findById env w (p_userId decoded) with
        | Throw e => mkResponse 401 (fail_body_error "Invalid token" e)
        | Ok None => mkResponse 404 (fail_body "User not found")
        | Ok (Some user) =>
            mkResponse 200
              (JObj [("success", JBool true);
                     ("data", JObj [("user", User.toJSON user)])])
        end
    end.

(** *** routes/upload.js: multer configuration *)

Definition uploadDir : string := "uploads".

(** [storage.filename] *)
Definition storage_filename (env : Env) (file : FilePart) : string :=
  let uniqueSuffix :=
    (pretty (date_now env) +:+ "-" +:+
     pretty (Math_round (random_name env * Q2Qc (inject_Z 1000000000))%Qc)) in
  "silkworm-" +:+ uniqueSuffix +:+ path_extname (originalname file).

(** [fileFilter]: [Ok] accepts the file, [Throw] is [cb(new Error(...))]. *)
Definition fileFilter (file : FilePart) : Result bool :=
  if startsWith "image/" (mimetype file) then Ok true
  else Throw (mkError None None "Only image files allowed").

(** [limits.fileSize] *)
Definition fileSize : Z := 10 * 1024 * 1024.

(** multer's error for a file over [limits.fileSize]. *)
Definition LIMIT_FILE_SIZE : JsError :=
  mkError (Some "LIMIT_FILE_SIZE") None "File too large".

Inductive MulterResult : Type :=
| MulterError (e : JsError) (w : World)
| MulterNext (file : option StoredFile) (w : World).

(** [upload.single("image")]: the filter runs first; the file is then
    written under [uploadDir]; a file that turns out to exceed the limit is
    removed again and the error is passed on. *)
Definition upload_single (env : Env) (w : World) (req : Request)
  : MulterResult :=
  match file_part req with
  | None => MulterNext None w
  | Some part =>
      match fileFilter part with
      | Throw e => MulterError e w
      | Ok false => MulterNext None w
      | Ok true =>
          let filename := storage_filename env part in
          let path := uploadDir +:+ "/" +:+ filename in
          let written := set_fs (fs w ∪ {[path]}) w in
          if (fileSize <? size part)%Z then
            MulterError LIMIT_FILE_SIZE (unlinkSync written path)
          else
            MulterNext
              (Some (mkStored (originalname part) (mimetype part)
                              filename path (size part)))
              written
      end
  end.

(** *** routes/upload.js: disease profiles *)

Definition diseaseInfoMap : list (string * Upload.DiseaseInfo) :=
  [ ("grasserie",
     Upload.mkDisease "Grasserie"
       [ "Maintain hygiene in rearing house.";
         "Avoid overcrowding of silkworms.";
         "Disinfect rearing equipment regularly.";
         "Remove and destroy infected larvae immediately." ]);
    ("flacherie",
     Upload.mkDisease "Flacherie"
       [ "Avoid feeding wet or contaminated mulberry leaves.";
         "Control temperature and humidity.";
         "Do not disturb worms during feeding.";
         "Destroy infected worms promptly." ]);
    ("muscardine",
     Upload.mkDisease "Muscardine"
       [ "Dust larvae with slaked lime or fungal spore killers.";
         "Maintain dry and clean rearing environment.";
         "Dispose of dead larvae quickly." ]);
    ("pebrine",
     Upload.mkDisease "Pebrine"
       [ "Use only disease-free silkworm eggs.";
         "Examine mother moths before egg laying.";
         "Destroy infected batches immediately." ]) ].

(** [arr[i]] for a number [i]: [undefined] outside the array. *)
Definition index {A : Type} (l : list A) (i : Z) : option A :=
  if (i <? 0)%Z then None else l !! Z.to_nat i.

(** The enrichment step: [null] unless the lower-cased label is
    ["diseased"], else the profile under a randomly drawn key. *)
Definition enrich (env : Env) (label : string) : option Upload.DiseaseInfo :=
  if String.eqb (toLowerCase label) "diseased" then
    let diseases := map fst diseaseInfoMap in
    let randomDisease :=
      index diseases
            (Math_floor (random_disease env
                         * Q2Qc (inject_Z (Z.of_nat (length diseases))))%Qc) in
    match randomDisease with
    | Some key => assoc key diseaseInfoMap
    | None => None
    end
  else None.

(** *** routes/upload.js: POST /upload *)

Definition TypeError : JsError :=
  mkError None None
    "Cannot read properties of undefined (reading 'toLowerCase')".

Definition json_opt (o : option Json) : Json := default JNull o.

Definition success_body (env : Env) (file : StoredFile) (p : Prediction)
    (label : string) (diseaseInfo : option Upload.DiseaseInfo)
    (uploadRecord : Upload.t) : Json :=
  JObj
    [ ("success", JBool true);
      ("message", JStr "Image uploaded & analyzed");
      ("data",
       JObj
         [ ("uploadId", JStr (Upload._id uploadRecord));
           ("prediction",
            JObj
              [ ("label", JStr label);
                ("confidence", json_opt (JNum <$> p_confidence p));
                ("probabilities", json_opt (p_probabilities p));
                ("disease",
                 json_opt (JStr <$> (Upload.dname <$> diseaseInfo)));
                ("preventiveMeasures",
                 JArr (map JStr
                         (default [] (Upload.preventiveMeasures
                                        <$> diseaseInfo)))) ]);
           ("image",
            JObj
              [ ("url", JStr (Upload.imageURL uploadRecord));
                ("filename", JStr (f_filename file));
                ("size", num_of_Z (f_size file)) ]);
           ("timestamp", num_of_Z (Upload.timestamp uploadRecord)) ]) ].

(** [response.data.prediction[k]] as a client reads it. *)
Definition prediction_field (k : string) (r : Response) : option Json :=
  (get "data" (body r) ≫= get "prediction") ≫= get k.

(** The [catch] block: remove the stored file, then map the error. *)
Definition on_error (w : World) (file : option StoredFile) (error : JsError)
  : Response * World :=
  let w' :=
    match file with
    | Some f => if existsSync w (f_path f) then unlinkSync w (f_path f) else w
    | None => w
    end in
  if bool_decide (code error = Some "ECONNREFUSED") then
    (mkResponse 503
       (fail_body "AI service unavailable. Ensure FastAPI is running."), w')
  else
    (mkResponse 500 (fail_body_error "Error processing upload" error), w').

(** [new Upload({...})] as the handler fills it. *)
Definition uploadRecord (env : Env) (user : User.t) (f : StoredFile)
    (prediction : Prediction) (label : string)
    (diseaseInfo : option Upload.DiseaseInfo) : Upload.t :=
  Upload.mk (new_id env) (User._id user)
            ("/uploads/" +:+ f_filename f) (f_filename f)
            label (p_confidence prediction)
            (p_probabilities prediction) diseaseInfo
            (f_size f) (f_mimetype f) (new_date env).

(** The route's handler, run after [authMiddleware] and
    [upload.single("image")] with [req.user] and [req.file]. *)
Definition post_upload_handler (env : Env) (w : World) (user : User.t)
    (file : option StoredFile) : Response * World :=
  match file with
  | None => (mkResponse 400 (fail_body "No image file provided"), w)
  | Some f =>
      match classifier env with
      | Throw error => on_error w file error
      | Ok prediction =>
          match p_label prediction with
          | None => on_error w file TypeError
          | Some label =>
              let diseaseInfo := enrich env label in
              let record :=
                uploadRecord env user f prediction label diseaseInfo in
              match Upload.save (insert_error env) (uploads w) record with
              | Throw error => on_error w file error
              | Ok stored =>
                  (mkResponse 200
                     (success_body env f prediction label diseaseInfo record),
                   set_uploads stored w)
              end
          end
      end
  end.

(** The whole route: [router.post("/", authMiddleware,
    upload.single("image"), handler)].  An error passed on by multer
    reaches the application's error handler, given as [error_handler]. *)
Definition post_upload (error_handler : JsError -> Response)
    (env : Env) (w : World) (req : Request) : Response * World :=
  match authMiddleware env w req with
  | AuthRespond r => (r, w)
  | AuthNext user =>
      match upload_single env w req with
      | MulterError e w1 => (error_handler e, w1)
      | MulterNext file w1 => post_upload_handler env w1 user file
      end
  end.

(** *** server.js *)

(** The error-handling middleware. *)
Definition error_handler (env : Env) (err : JsError) : Response :=
  let st :=
    match estatus err with
    | Some s => if (s =? 0)%Z then 500%Z else s
    | None => 500%Z
    end in
  let msg :=
    if String.eqb (message err) "" then "Internal server error"
    else message err in
  let detail :=
    if bool_decide (process_env env !! "NODE_ENV" = Some "development")
    then JObj (User.opt_field "code" (JStr <$> code err))
    else JObj [] in
  mkResponse st
    (JObj [("success", JBool false); ("message", JStr msg);
           ("error", detail)]).

(** The 404 handler. *)
Definition not_found : Response :=
  mkResponse 404 (fail_body "Route not found").

(** The handlers registered by the application and its two routers. *)
Inductive Route : Type :=
| Static          (* express.static under /uploads *)
| AuthSignup      (* POST /auth/signup *)
| AuthLogin       (* POST /auth/login *)
| AuthMe          (* GET /auth/me *)
| UploadPredict   (* POST /upload *)
| UploadHistory   (* GET /upload/history *)
| Root            (* GET / *)
| Health          (* GET /health *)
| NotFound.       (* the final app.use *)

(** Express matches paths without regard to case and lets one trailing
    slash pass. *)
Definition path_matches (route path : string) : bool :=
  let p := toLowerCase path in
  if String.eqb route "/" then String.eqb p "/" || String.eqb p ""
  else String.eqb p route || String.eqb p (route +:+ "/").

(** [app.use(prefix, ...)]: the rest of the path when it lies under the
    mount point. *)
Definition mounted (prefix path : string) : option string :=
  let p := toLowerCase path in
  if String.prefix prefix p then
    let rest := String.substring (String.length prefix)
                  (String.length p - String.length prefix) p in
    if String.eqb rest "" then Some "/"
    else if String.prefix "/" rest then Some rest
    else None
  else None.

(** The routes of routes/auth.js. *)
Definition auth_router (m : Method) (sub : string) : option Route :=
  match m with
  | POST =>
      if path_matches "/signup" sub then Some AuthSignup
      else if path_matches "/login" sub then Some AuthLogin
      else None
  | GET | HEAD => if path_matches "/me" sub then Some AuthMe else None
  | _ => None
  end.

(** The routes of routes/upload.js. *)
Definition upload_router (m : Method) (sub : string) : option Route :=
  match m with
  | POST => if path_matches "/" sub then Some UploadPredict else None
  | GET | HEAD =>
      if path_matches "/history" sub then Some UploadHistory else None
  | _ => None
  end.

(** [router.get] and [app.get] handlers, and [express.static], also run
    for HEAD. *)
Definition reads (m : Method) : bool :=
  match m with
  | GET | HEAD => true
  | _ => false
  end.

(** The middleware stack of server.js, in registration order. *)
Definition dispatch (m : Method) (path : string) : Route :=
  match (if reads m then mounted "/uploads" path else None) with
  | Some _ => Static
  | None =>
      match mounted "/auth" path ≫= auth_router m with
      | Some r => r
      | None =>
          match mounted "/upload" path ≫= upload_router m with
          | Some r => r
          | None =>
              match m with
              | GET | HEAD =>
                  if path_matches "/" path then Root
                  else if path_matches "/health" path then Health
                  else NotFound
              | _ => NotFound
              end
          end
      end
  end.

(** The application on the routes modelled here; [None] for a route whose
    handler is not part of this development. *)
Definition app (env : Env) (w : World) (req : Request)
  : option (Response * World) :=
  match dispatch (method req) (url req) with
  | AuthMe => Some (get_me env w req, w)
  | UploadPredict => Some (post_upload (error_handler env) env w req)
  | NotFound => Some (not_found, w)
  | _ => None
  end.

(** *** Observations on one POST /upload flow *)

(** The file that intake stored during the flow, if it got that far. *)
Definition stored_file (env : Env) (w : World) (req : Request)
  : option StoredFile :=
  match authMiddleware env w req with
  | AuthRespond _ => None
  | AuthNext _ =>
      match upload_single env w req with
      | MulterNext file _ => file
      | MulterError _ _ => None
      end
  end.

(** The flow reached [Persisted]: one document was added to the uploads
    collection. *)
Definition persisted (w w' : World) : Prop :=
  exists d, uploads w' = uploads w ++ [d].

(** The two ways the handler can end once a file is stored: the record
    is saved and the answer is 200, or an error [e] reached the [catch]
    block. *)
Inductive HandlerOutcome (env : Env) (w : World) (user : User.t)
    (f : StoredFile) (r : Response * World) : Prop :=
| Accepted (p : Prediction) (label : string)
    (Hclass : classifier env = Ok p)
    (Hlabel : p_label p = Some label)
    (Hinsert : insert_error env = None)
    (Hvalid :
       Upload.validate
         (uploadRecord env user f p label (enrich env label)) = true)
    (Hres :
       r = (mkResponse 200
              (success_body env f p label (enrich env label)
                 (uploadRecord env user f p label (enrich env label))),
            set_uploads
              (uploads w
                 ++ [uploadRecord env user f p label (enrich env label)]) w))
| Failed (e : JsError)
    (Hres : r = on_error w (Some f) e)
    (Hwhy :
       classifier env = Throw e \/
       (exists p, classifier env = Ok p /\
          (p_label p = None \/
           exists label, p_label p = Some label /\
             (Upload.validate
                (uploadRecord env user f p label (enrich env label)) = false
              \/ insert_error env = Some e)))).

End Handlers.

(** ** Concrete requests used to exercise the handlers *)

Module Sample.

Definition ravi_id : string := "64b7f0c2a1d3e4f5a6b7c8d1".

Definition ravi : User.t :=
  User.mk ravi_id "Ravi Kumar" "farmer" "ravi.test@example.com" "9876543210"
          "$2a$10$hash" (Some "Ramanagara") "kannada" 1700000000000
          None 1700000000000 0.

Definition world : World := mkWorld ∅ [] {[ ravi_id := ravi ]}.

(** A verifier that accepts the one token ["good"], issued to [ravi]. *)
Definition verify (token secret : string) : Result JwtPayload :=
  if String.eqb token "good"
  then Ok (mkPayload ravi_id "ravi.test@example.com" "farmer")
  else Throw (mkError None None "jwt malformed").

Definition is_hex (c : ascii) : bool :=
  let n := nat_of_ascii c in
  ((48 <=? n)%nat && (n <=? 57)%nat)
  || ((65 <=? n)%nat && (n <=? 70)%nat)
  || ((97 <=? n)%nat && (n <=? 102)%nat).

Fixpoint all_hex (s : string) : bool :=
  match s with
  | EmptyString => true
  | String c s' => is_hex c && all_hex s'
  end.

(** The cast on which all versions agree: 24 hexadecimal digits are an
    ObjectId, named by their lower-case form; here every other string is
    refused. *)
Definition cast (id : string) : Result string :=
  if (String.length id =? 24)%nat && all_hex id then Ok (toLowerCase id)
  else Throw (mkError None None "Cast to ObjectId failed").

(** [path.extname] on the names used below. *)
Definition extname (name : string) : string :=
  if String.eqb name "worm.jpg" then ".jpg"
  else if String.eqb name "notes.txt" then ".txt"
  else "".

Definition env_with (c : Result Prediction) (ins : option JsError) : Env :=
  mkEnv ∅ ∅ None 1730000000000 (Q2Qc (1 # 4)) c (Q2Qc (3 # 4))
        "65f0c0ffee" 1730000000500 ins.

Definition healthy : Prediction :=
  mkPrediction (Some "healthy") (Some (Q2Qc (92 # 100))) None.

Definition diseased : Prediction :=
  mkPrediction (Some "Diseased") (Some (Q2Qc (81 # 100))) None.

Definition shouting : Prediction :=
  mkPrediction (Some "DISEASED") (Some (Q2Qc (81 # 100))) None.

Definition refused : JsError :=
  mkError (Some "ECONNREFUSED") None "connect ECONNREFUSED 127.0.0.1:8000".

Definition jpeg : FilePart := mkPart "worm.jpg" "image/jpeg" 204800.
Definition text : FilePart := mkPart "notes.txt" "text/plain" 12.
Definition huge : FilePart := mkPart "worm.jpg" "image/jpeg" 10485761.

Definition post (auth : option string) (part : option FilePart) : Request :=
  mkRequest POST "/upload" auth part.

(** POST /upload with the given classifier answer, storage outcome,
    Authorization header and file part, on the sample world. *)
Definition upload (c : Result Prediction) (ins : option JsError)
    (auth : option string) (part : option FilePart) : Response * World :=
  post_upload verify cast extname (error_handler (env_with c ins))
              (env_with c ins) world (post auth part).

Definition stored_jpeg : StoredFile :=
  mkStored "worm.jpg" "image/jpeg" "silkworm-1730000000000-250000000.jpg"
           "uploads/silkworm-1730000000000-250000000.jpg" 204800.

End Sample.

(** ** Retrieval, the first middleware, and the state of disk and store *)

Section Retrieval.

Variable jwt_verify : string -> string -> Result JwtPayload.
Variable castObjectId : string -> Result string.
Variable path_extname : string -> string.

(** *** routes/upload.js: GET /upload/history *)

(** [.sort({ timestamp: -1 })]: most recent first.  MongoDB leaves the
    order among equal timestamps open; here they keep the order of the
    collection. *)
Fixpoint insert_desc (d : Upload.t) (l : list Upload.t) : list Upload.t :=
  match l with
  | [] => [d]
  | x :: rest =>
      if (Upload.timestamp x <=? Upload.timestamp d)%Z then d :: l
      else x :: insert_desc d rest
  end.

Definition sort_desc (l : list Upload.t) : list Upload.t :=
  fold_right insert_desc [] l.

(** The order of the answer: [a] may precede [b]. *)
Definition newer_first (a b : Upload.t) : Prop :=
  (Upload.timestamp b <= Upload.timestamp a)%Z.

(** [Upload.find({ userId })] *)
Definition find_by_user (uploads : list Upload.t) (uid : string)
  : list Upload.t :=
  filter (fun d => String.eqb (Upload.userId d) uid) uploads.

(** What the handler hands to [res]: an error response, or
    [{ success: true, uploads }] with the documents found. *)
Inductive HistoryResult : Type :=
| HistoryRespond (r : Response)
| HistoryOk (found : list Upload.t).

(** [router.get("/history", authMiddleware, handler)]; [query_error] is
    the error the query throws when the uploads collection is down. *)
Definition get_history (query_error : option JsError) (env : Env) (w : World)
    (req : Request) : HistoryResult :=
  match authMiddleware jwt_verify castObjectId env w req with
  | AuthRespond r => HistoryRespond r
  | AuthNext user =>
      match query_error with
      | Some err =>
          HistoryRespond
            (mkResponse 500 (fail_body_error "Failed to fetch history" err))
      | None =>
          HistoryOk (sort_desc (find_by_user (uploads w) (User._id user)))
      end
  end.

(** *** middleware/authMiddleware.js (the first version, which keeps the
    decoded payload) *)

Inductive AuthResult1 : Type :=
| Auth1Respond (r : Response)
| Auth1Next (decoded : JwtPayload).

Definition message_body (msg : string) : Json := JObj [("message", JStr msg)].

Definition authMiddleware_v1 (env : Env) (req : Request) : AuthResult1 :=
  match authorization req with
  | None => Auth1Respond (mkResponse 401 (message_body "No token provided"))
  | Some authHeader =>
      if String.eqb authHeader "" then
        Auth1Respond (mkResponse 401 (message_body "No token provided"))
      else
        let token := split " " authHeader !! 1%nat in
        if negb (truthy token) then
          Auth1Respond (mkResponse 401 (message_body "Invalid token format"))
        else
          match jwt_verify (default "" token)
                  (or_else (process_env env !! "JWT_SECRET") "secret123") with
          | Throw _ =>
              Auth1Respond
                (mkResponse 403 (message_body "Token invalid or expired"))
          | Ok decoded => Auth1Next decoded
          end
  end.

(** The number of documents with label [l], the [$sum: 1] of a group. *)
Definition label_count (docs : list Upload.t) (l : string) : nat :=
  length (filter (fun d => String.eqb (Upload.label d) l) docs).

(** The divisor of [$avg]. *)
Definition Qc_of_nat (n : nat) : Qc := Q2Qc (inject_Z (Z.of_nat n)).

(** The body of a successful GET /auth/me. *)
Definition me_body (user : User.t) : Json :=
  JObj [("success", JBool true); ("data", JObj [("user", User.toJSON user)])].

(** *** Disk and store *)

(** The path under which a record's image is kept. *)
Definition record_path (d : Upload.t) : string :=
  uploadDir +:+ "/" +:+ Upload.filename d.

(** The path multer writes to during this flow, when a file part is sent. *)
Definition flow_path (env : Env) (req : Request) : option string :=
  (fun part => uploadDir +:+ "/" +:+ storage_filename path_extname env part)
    <$> file_part req.

(** A file on disk that no record refers to. *)
Definition orphan (w : World) (path : string) : Prop :=
  path ∈ fs w /\ ~ exists d, d ∈ uploads w /\ record_path d = path.

(** Every record's image is on disk. *)
Definition images_present (w : World) : Prop :=
  forall d, d ∈ uploads w -> record_path d ∈ fs w.

(** Every stored record passes the schema. *)
Definition all_valid (w : World) : Prop :=
  forall d, d ∈ uploads w -> Upload.validate d = true.

(** The same request with another Authorization header. *)
Definition with_authorization (h : string) (req : Request) : Request :=
  mkRequest (method req) (url req) (Some h) (file_part req).

(** No space occurs in the string. *)
Fixpoint no_space (s : string) : bool :=
  match s with
  | EmptyString => true
  | String c s' => negb (Ascii.eqb c " ") && no_space s'
  end.

End Retrieval.

(** ** More concrete inputs *)

Module Fixture.

Definition asha_id : string := "64b7f0c2a1d3e4f5a6b7c8d2".

Definition asha : User.t :=
  User.mk asha_id "Asha" "farmer" "asha@example.com" "9123456780"
          "$2a$10$other" None "english" 1700000001000 None 1700000001000 0.

Definition record (id uid file label : string) (c : Qc) (t : Z) : Upload.t :=
  Upload.mk id uid ("/uploads/" +:+ file) file label (Some c) None None
            1000 "image/jpeg" t.

Definition r1 : Upload.t :=
  record "a1" Sample.ravi_id "silkworm-1-1.jpg" "healthy" (Q2Qc (9 # 10)) 100.
Definition r2 : Upload.t :=
  record "a2" asha_id "silkworm-2-2.jpg" "Diseased" (Q2Qc (8 # 10)) 200.
Definition r3 : Upload.t :=
  record "a3" Sample.ravi_id "silkworm-3-3.jpg" "healthy" (Q2Qc (7 # 10)) 300.

(** Two users, three records, each with its image on disk. *)
Definition world : World :=
  mkWorld {[ "uploads/silkworm-1-1.jpg"; "uploads/silkworm-2-2.jpg";
             "uploads/silkworm-3-3.jpg" ]}
          [r1; r2; r3]
          {[ Sample.ravi_id := Sample.ravi; asha_id := asha ]}.

(** A verifier that knows one token per user, one whose subject is the
    first user's id in capital letters, and one whose subject is no
    ObjectId. *)
Definition verify (token secret : string) : Result JwtPayload :=
  if String.eqb token "good"
  then Ok (mkPayload Sample.ravi_id "ravi.test@example.com" "farmer")
  else if String.eqb token "asha"
  then Ok (mkPayload asha_id "asha@example.com" "farmer")
  else if String.eqb token "capitals"
  then Ok (mkPayload "64B7F0C2A1D3E4F5A6B7C8D1" "ravi.test@example.com"
                     "farmer")
  else if String.eqb token "legacy"
  then Ok (mkPayload "42" "old@example.com" "farmer")
  else Throw (mkError None None "jwt malformed").

(** A world with one file that no record refers to. *)
Definition stray_world : World :=
  mkWorld {[ "uploads/stray.jpg" ]} [] {[ Sample.ravi_id := Sample.ravi ]}.

(** An environment in which JWT_SECRET is set before the server starts. *)
Definition env_secret : Env :=
  mkEnv {[ "JWT_SECRET" := "s3cret" ]} {[ "JWT_SECRET" := "s3cret" ]} None
        1730000000000 (Q2Qc (1 # 4))
        (Ok Sample.healthy) (Q2Qc (3 # 4)) "65f0c0ffee" 1730000000500 None.

(** An environment in which JWT_SECRET is set only in the file .env,
    which is read after the routers are loaded. *)
Definition env_dotenv : Env :=
  mkEnv {[ "JWT_SECRET" := "s3cret" ]} ∅ None 1730000000000 (Q2Qc (1 # 4))
        (Ok Sample.healthy) (Q2Qc (3 # 4)) "65f0c0ffee" 1730000000500 None.

Definition get (auth : string) : Request :=
  mkRequest GET "/upload/history" (Some auth) None.

End Fixture.

(** ** Patterns of the user schema *)

Module Re.

(** The regular expressions the schema's [match] validators use.  A
    character class is given by its membership test. *)
Inductive re : Type :=
| Void
| Eps
| Chr (p : ascii -> bool)
| Cat (r1 r2 : re)
| Alt (r1 r2 : re)
| Star (r : re).

Fixpoint nullable (r : re) : bool :=
  match r with
  | Void => false
  | Eps => true
  | Chr _ => false
  | Cat r1 r2 => nullable r1 && nullable r2
  | Alt r1 r2 => nullable r1 || nullable r2
  | Star _ => true
  end.

(** The derivative of [r] by the character [c]. *)
Fixpoint deriv (c : ascii) (r : re) : re :=
  match r with
  | Void => Void
  | Eps => Void
  | Chr p => if p c then Eps else Void
  | Cat r1 r2 =>
      if nullable r1 then Alt (Cat (deriv c r1) r2) (deriv c r2)
      else Cat (deriv c r1) r2
  | Alt r1 r2 => Alt (deriv c r1) (deriv c r2)
  | Star r0 => Cat (deriv c r0) (Star r0)
  end.

(** [/^r$/.test(s)] *)
Fixpoint test (r : re) (s : string) : bool :=
  match s with
  | EmptyString => nullable r
  | String c s' => test (deriv c r) s'
  end.

(** The strings a pattern stands for. *)
Inductive lang : re -> string -> Prop :=
| lang_eps : lang Eps ""
| lang_chr p c : p c = true -> lang (Chr p) (String c "")
| lang_cat r1 r2 s1 s2 : lang r1 s1 -> lang r2 s2 -> lang (Cat r1 r2) (s1 +:+ s2)
| lang_alt_l r1 r2 s : lang r1 s -> lang (Alt r1 r2) s
| lang_alt_r r1 r2 s : lang r2 s -> lang (Alt r1 r2) s
| lang_star_nil r : lang (Star r) ""
| lang_star_cons r s1 s2 :
    lang r s1 -> lang (Star r) s2 -> lang (Star r) (s1 +:+ s2).

Definition plus (r : re) : re := Cat r (Star r).
Definition opt (r : re) : re := Alt Eps r.

Fixpoint times (n : nat) (r : re) : re :=
  match n with
  | O => Eps
  | S n' => Cat r (times n' r)
  end.

Definition is_digit (c : ascii) : bool :=
  let n := nat_of_ascii c in (48 <=? n)%nat && (n <=? 57)%nat.

(** [\w]: a letter, a digit or the underscore. *)
Definition is_word (c : ascii) : bool :=
  let n := nat_of_ascii c in
  is_digit c
  || ((65 <=? n)%nat && (n <=? 90)%nat)
  || ((97 <=? n)%nat && (n <=? 122)%nat)
  || (n =? 95)%nat.

Definition is_char (x c : ascii) : bool := Ascii.eqb c x.

Definition is_dot_or_dash (c : ascii) : bool :=
  Ascii.eqb c "." || Ascii.eqb c "-".

Definition word : re := Chr is_word.

(** [([.-]?\w+)*] *)
Definition segments : re := Star (Cat (opt (Chr is_dot_or_dash)) (plus word)).

(** [(\.\w{2,3})+] *)
Definition suffixes : re :=
  plus (Cat (Chr (is_char ".")) (Cat word (Cat word (opt word)))).

(** [/^\w+([.-]?\w+)*@\w+([.-]?\w+)*(\.\w{2,3})+$/] *)
Definition email : re :=
  Cat (plus word)
    (Cat segments
       (Cat (Chr (is_char "@"))
          (Cat (plus word) (Cat segments suffixes)))).

(** [/^[0-9]{10}$/] *)
Definition phone : re := times 10 (Chr is_digit).

(** Every character of the string passes the test. *)
Fixpoint all_chars (p : ascii -> bool) (s : string) : bool :=
  match s with
  | EmptyString => true
  | String c s' => p c && all_chars p s'
  end.

(** The characters a pattern can consume. *)
Fixpoint alphabet (r : re) (c : ascii) : bool :=
  match r with
  | Void | Eps => false
  | Chr p => p c
  | Cat r1 r2 | Alt r1 r2 => alphabet r1 c || alphabet r2 c
  | Star r0 => alphabet r0 c
  end.

(** The characters of the parts of an address around the [@]. *)
Definition is_address_char (c : ascii) : bool := is_word c || is_dot_or_dash c.

End Re.

(** ** models/User.js: setters, validators and hooks *)

Module UserSchema.

(** White space removed by [trim], among the characters below 128. *)
Definition is_space (c : ascii) : bool :=
  let n := nat_of_ascii c in ((9 <=? n)%nat && (n <=? 13)%nat) || (n =? 32)%nat.

Fixpoint trim_start (s : string) : string :=
  match s with
  | EmptyString => EmptyString
  | String c s' => if is_space c then trim_start s' else s
  end.

(** The string without trailing white space. *)
Fixpoint trim_end (s : string) : string :=
  match s with
  | EmptyString => EmptyString
  | String c s' =>
      match trim_end s' with
      | EmptyString => if is_space c then EmptyString else String c EmptyString
      | rest => String c rest
      end
  end.

(** [String.prototype.trim] *)
Definition trim (s : string) : string := trim_end (trim_start s).

(** The setters of the [email] path: [lowercase: true, trim: true]. *)
Definition set_email (s : string) : string := trim (toLowerCase s).

Definition in_list (s : string) (values : list string) : bool :=
  existsb (String.eqb s) values.

Definition role_enum : list string := ["farmer"; "admin"].

Definition language_enum : list string :=
  ["english"; "hindi"; "kannada"; "tamil"; "telugu"; "malayalam"].

Definition required (s : string) : bool := negb (String.eqb s "").

(** A [match] validator: it lets the empty string pass. *)
Definition matches (r : Re.re) (s : string) : bool :=
  String.eqb s "" || Re.test r s.

(** The validators of the schema, path by path. *)
Definition name_valid (u : User.t) : bool :=
  required (User.name u)
  && (2 <=? String.length (User.name u))%nat
  && (String.length (User.name u) <=? 100)%nat.

Definition role_valid (u : User.t) : bool :=
  required (User.role u) && in_list (User.role u) role_enum.

Definition email_valid (u : User.t) : bool :=
  required (User.email u) && matches Re.email (User.email u).

Definition phone_valid (u : User.t) : bool :=
  required (User.phone u) && matches Re.phone (User.phone u).

Definition password_valid (u : User.t) : bool :=
  required (User.passwordHash u)
  && (6 <=? String.length (User.passwordHash u))%nat.

Definition village_valid (u : User.t) : bool :=
  match User.village u with
  | Some v => (String.length v <=? 100)%nat
  | None => true
  end.

Definition language_valid (u : User.t) : bool :=
  in_list (User.language u) language_enum.

Definition validate (u : User.t) : bool :=
  name_valid u && role_valid u && email_valid u && phone_valid u
  && password_valid u && village_valid u && language_valid u.

Definition ValidationError : JsError :=
  mkError None None "User validation failed".

End UserSchema.

(** ** routes/auth.js: POST /auth/signup and POST /auth/login *)

(** The fields of [req.body] the signup handler reads, for a request
    that sends them as strings; [None] is a field that was not sent. *)
Record SignupBody : Type := mkSignup {
  b_name : option string;
  b_email : option string;
  b_phone : option string;
  b_password : option string;
  b_role : option string;
  b_village : option string;
  b_language : option string
}.

(** The fields of [req.body] the login handler reads, as [express.json()]
    parsed them: any JSON value, [None] for a field that was not sent. *)
Record LoginBody : Type := mkLogin {
  l_mobile : option Json;
  l_password : option Json
}.

(** What one request to an account route reads from outside the program.
    [a_cast_filter] is how Mongoose and MongoDB read a filter value that is
    not a string (a number, an array, an object of query operators): the
    test on documents it stands for, or the error thrown for it. *)
Record AuthEnv : Type := mkAuthEnv {
  a_load_env : gmap string string;     (* process.env when server.js required
                                          routes/auth.js, before
                                          dotenv.config() *)
  a_query_error : option JsError;      (* User.findOne throws *)
  a_cast_filter : Json -> Result (User.t -> bool);
  a_new_id : string;                   (* the _id of a new document *)
  a_now : Z;                           (* the clock *)
  a_salt : string;                     (* bcrypt.genSalt(10) *)
  a_write_error : option JsError       (* the insert or update throws *)
}.

Section Accounts.

(** Library functions: [bcrypt.hash(password, salt)],
    [bcrypt.compare(candidate, hash)] and [jwt.sign(payload, secret,
    { expiresIn: '7d' })] at a given time. *)
Variable bcrypt_hash : string -> string -> string.
Variable bcrypt_compare : string -> string -> bool.
Variable jwt_sign : Z -> JwtPayload -> string -> string.

(** [JWT_SECRET] of routes/auth.js: a constant computed when the module
    is loaded. *)
Definition JWT_SECRET (env : AuthEnv) : string :=
  or_else (a_load_env env !! "JWT_SECRET") "your-secret-key-change-this".

(** [User.findOne(filter)]: a stored document that passes the filter,
    with the key it is stored under. *)
Definition findOne (env : AuthEnv) (w : World) (filter : User.t -> bool)
  : Result (option (string * User.t)) :=
  match a_query_error env with
  | Some e => Throw e
  | None => Ok (List.find (fun kv => filter kv.2) (map_to_list (users w)))
  end.

(** [{ email }] and [{ phone }] as filters.  Mongoose casts the value
    of a filter with the setters of its path, so the email is compared
    trimmed and lower-cased and the phone number trimmed. *)
Definition by_email (email : string) (u : User.t) : bool :=
  String.eqb (User.email u) (UserSchema.set_email email).

Definition by_phone (phone : string) (u : User.t) : bool :=
  String.eqb (User.phone u) (UserSchema.trim phone).

(** [{ phone: mobile }] in the login handler, where [mobile] is whatever
    the body carried. *)
Definition phone_filter (env : AuthEnv) (mobile : Json)
  : Result (User.t -> bool) :=
  match mobile with
  | JStr s => Ok (by_phone s)
  | _ => a_cast_filter env mobile
  end.

(** [new User({...})] as the signup handler fills it: setters and
    defaults applied. *)
Definition new_user (env : AuthEnv) (name email phone password : string)
    (body : SignupBody) : User.t :=
  User.mk (a_new_id env)
          (UserSchema.trim name)
          (or_else (b_role body) "farmer")
          (UserSchema.set_email email)
          (UserSchema.trim phone)
          password
          (Some (UserSchema.trim (or_else (b_village body) "")))
          (or_else (b_language body) "english")
          (a_now env) None (a_now env) 0.

Definition with_hash (h : string) (u : User.t) : User.t :=
  User.with_passwordHash h u.

(** The error of an insert that violates a unique index (its [code] is
    the number 11000). *)
Definition DuplicateKey : JsError :=
  mkError (Some "11000") None "E11000 duplicate key error".

(** The unique indexes of the users collection: the one on [_id] and the
    one [unique: true] declares on [email]. *)
Definition index_conflict (w : World) (u : User.t) : bool :=
  bool_decide (is_Some (users w !! User._id u))
  || existsb (fun kv => String.eqb (User.email kv.2) (User.email u))
             (map_to_list (users w)).

(** [user.save()] on a new document: validation, then the [pre('save')]
    hook that hashes the password, then the insert, which the database
    refuses when it violates a unique index. *)
Definition save_new (env : AuthEnv) (w : World) (u : User.t)
  : Result (User.t * World) :=
  if UserSchema.validate u then
    let hashed := with_hash (bcrypt_hash (User.passwordHash u) (a_salt env)) u in
    match a_write_error env with
    | Some e => Throw e
    | None =>
        if index_conflict w hashed then Throw DuplicateKey
        else Ok (hashed, set_users (<[User._id u := hashed]> (users w)) w)
    end
  else Throw UserSchema.ValidationError.

(** [user.lastLogin = new Date(); await user.save()] on a stored
    document: [passwordHash] is not modified, so the hook leaves it. *)
Definition with_lastLogin (t : Z) (u : User.t) : User.t :=
  User.mk (User._id u) (User.name u) (User.role u) (User.email u)
          (User.phone u) (User.passwordHash u) (User.village u)
          (User.language u) (User.createdAt u) (Some t) t (User.__v u).

Definition save_login (env : AuthEnv) (w : World) (key : string) (u : User.t)
  : Result (User.t * World) :=
  let u' := with_lastLogin (a_now env) u in
  if UserSchema.validate u' then
    match a_write_error env with
    | Some e => Throw e
    | None => Ok (u', set_users (<[key := u']> (users w)) w)
    end
  else Throw UserSchema.ValidationError.

Definition token_for (env : AuthEnv) (u : User.t) : string :=
  jwt_sign (a_now env)
           (mkPayload (User._id u) (User.email u) (User.role u))
           (JWT_SECRET env).

Definition ok_body (msg token : string) (user : list (string * Json)) : Json :=
  JObj [("success", JBool true); ("message", JStr msg);
        ("data", JObj [("token", JStr token); ("user", JObj user)])].

Definition signup_user_json (u : User.t) : list (string * Json) :=
  [ ("id", JStr (User._id u)); ("name", JStr (User.name u));
    ("email", JStr (User.email u)); ("phone", JStr (User.phone u));
    ("role", JStr (User.role u)) ]
  ++ User.opt_field "village" (JStr <$> User.village u)
  ++ [ ("language", JStr (User.language u)) ].

Definition login_user_json (u : User.t) : list (string * Json) :=
  signup_user_json u
  ++ User.opt_field "lastLogin" (num_of_Z <$> User.lastLogin u).

(** [router.post('/signup', ...)] *)
Definition signup (env : AuthEnv) (w : World) (body : SignupBody)
  : Response * World :=
  if negb (truthy (b_name body)) || negb (truthy (b_email body))
     || negb (truthy (b_phone body)) || negb (truthy (b_password body))
  then
    (mkResponse 400
       (fail_body
          "Please provide all required fields: name, email, phone, password"),
     w)
  else
    let name := default "" (b_name body) in
    let email := default "" (b_email body) in
    let phone := default "" (b_phone body) in
    let password := default "" (b_password body) in
    let on_throw e :=
      (mkResponse 500 (fail_body_error "Error creating user" e), w) in
    match findOne env w (by_email email) with
    | Throw e => on_throw e
    | Ok (Some _) =>
        (mkResponse 400 (fail_body "User with this email already exists"), w)
    | Ok None =>
        match findOne env w (by_phone phone) with
        | Throw e => on_throw e
        | Ok (Some _) =>
            (mkResponse 400
               (fail_body "User with this phone number already exists"), w)
        | Ok None =>
            match save_new env w (new_user env name email phone password body)
            with
            | Throw e => on_throw e
            | Ok (user, w') =>
                (mkResponse 201
                   (ok_body "User registered successfully"
                            (token_for env user) (signup_user_json user)),
                 w')
            end
        end
    end.

(** [user.comparePassword(candidate)]: bcryptjs refuses a candidate that
    is not a string. *)
Definition comparePassword (candidate : Json) (u : User.t) : Result bool :=
  match candidate with
  | JStr s => Ok (bcrypt_compare s (User.passwordHash u))
  | _ =>
      Throw (mkError None None
               ("Illegal arguments: " +:+ typeof candidate +:+ ", string"))
  end.

(** [router.post('/login', ...)] *)
Definition login (env : AuthEnv) (w : World) (body : LoginBody)
  : Response * World :=
  if negb (truthy_json (l_mobile body)) || negb (truthy_json (l_password body))
  then
    (mkResponse 400 (fail_body "Please provide mobile number and password"), w)
  else
    let mobile := default JNull (l_mobile body) in
    let password := default JNull (l_password body) in
    let on_throw e :=
      (mkResponse 500 (fail_body_error "Error logging in" e), w) in
    match phone_filter env mobile with
    | Throw e => on_throw e
    | Ok filter =>
        match findOne env w filter with
        | Throw e => on_throw e
        | Ok None =>
            (mkResponse 401 (fail_body "Invalid phone number or password"), w)
        | Ok (Some (key, user)) =>
            match comparePassword password user with
            | Throw e => on_throw e
            | Ok false =>
                (mkResponse 401 (fail_body "Invalid phone number or password"),
                 w)
            | Ok true =>
                match save_login env w key user with
                | Throw e => on_throw e
                | Ok (user', w') =>
                    (mkResponse 200
                       (ok_body "Login successful" (token_for env user')
                                (login_user_json user')),
                     w')
                end
            end
        end
    end.

(** The ways a signup can end. *)
Inductive SignupOutcome (env : AuthEnv) (w : World) (body : SignupBody)
    (r : Response * World) : Prop :=
| SignupCreated (name email phone password : string)
    (Hname : b_name body = Some name) (Hname' : name <> "")
    (Hemail : b_email body = Some email) (Hemail' : email <> "")
    (Hphone : b_phone body = Some phone) (Hphone' : phone <> "")
    (Hpassword : b_password body = Some password) (Hpassword' : password <> "")
    (Hquery : a_query_error env = None)
    (Hwrite : a_write_error env = None)
    (Hfresh : users w !! a_new_id env = None)
    (Hno_email : forall key u, users w !! key = Some u ->
                               by_email email u = false)
    (Hno_phone : forall key u, users w !! key = Some u ->
                               by_phone phone u = false)
    (Hvalid :
       UserSchema.validate (new_user env name email phone password body) = true)
    (Hres :
       let u := new_user env name email phone password body in
       let stored := with_hash (bcrypt_hash password (a_salt env)) u in
       r = (mkResponse 201
              (ok_body "User registered successfully" (token_for env stored)
                       (signup_user_json stored)),
            set_users (<[a_new_id env := stored]> (users w)) w))
| SignupRefused (Hstatus : status r.1 = 400%Z \/ status r.1 = 500%Z)
    (Hworld : r.2 = w).

(** The ways a login can end. *)
Inductive LoginOutcome (env : AuthEnv) (w : World) (body : LoginBody)
    (r : Response * World) : Prop :=
| LoginOk (mobile : Json) (filter : User.t -> bool) (password key : string)
    (user : User.t)
    (Hmobile : l_mobile body = Some mobile)
    (Hpassword : l_password body = Some (JStr password))
    (Hpassword' : password <> "")
    (Hfilter : phone_filter env mobile = Ok filter)
    (Hfound : users w !! key = Some user)
    (Hmatch : filter user = true)
    (Hcompare : bcrypt_compare password (User.passwordHash user) = true)
    (Hvalid : UserSchema.validate (with_lastLogin (a_now env) user) = true)
    (Hwrite : a_write_error env = None)
    (Hres :
       let user' := with_lastLogin (a_now env) user in
       r = (mkResponse 200
              (ok_body "Login successful" (token_for env user')
                       (login_user_json user')),
            set_users (<[key := user']> (users w)) w))
| LoginDenied (mobile password : Json) (filter : User.t -> bool)
    (Hmobile : l_mobile body = Some mobile)
    (Hpassword : l_password body = Some password)
    (Hfilter : phone_filter env mobile = Ok filter)
    (Hwhy :
       (forall key u, users w !! key = Some u -> filter u = false) \/
       (exists key u s,
          users w !! key = Some u /\ filter u = true /\ password = JStr s /\
          bcrypt_compare s (User.passwordHash u) = false))
    (Hres :
       r = (mkResponse 401 (fail_body "Invalid phone number or password"), w))
| LoginIncomplete
    (Hmissing : truthy_json (l_mobile body) = false \/
                truthy_json (l_password body) = false)
    (Hres :
       r = (mkResponse 400
              (fail_body "Please provide mobile number and password"), w))
| LoginFailed (e : JsError)
    (Hwhy :
       (exists mobile,
          l_mobile body = Some mobile /\ phone_filter env mobile = Throw e) \/
       a_query_error env = Some e \/
       (exists password,
          l_password body = Some password /\ forall s, password <> JStr s) \/
       a_write_error env = Some e \/
       (exists mobile filter key u,
          l_mobile body = Some mobile /\ phone_filter env mobile = Ok filter /\
          users w !! key = Some u /\ filter u = true /\
          UserSchema.validate (with_lastLogin (a_now env) u) = false))
    (Hres : r = (mkResponse 500 (fail_body_error "Error logging in" e), w)).

End Accounts.

(** [response.data.data.token] as a client reads it. *)
Definition response_token (r : Response) : option string :=
  match get "data" (body r) ≫= get "token" with
  | Some (JStr t) => Some t
  | _ => None
  end.

(** The same signup request asking for another role. *)
Definition with_role (role : string) (body : SignupBody) : SignupBody :=
  mkSignup (b_name body) (b_email body) (b_phone body) (b_password body)
           (Some role) (b_village body) (b_language body).


(** Concrete account requests. *)
Module Accounts.

(** Stand-ins for bcrypt and jsonwebtoken that can be run. *)
Definition hash (password salt : string) : string :=
  "$2a$10$" +:+ salt +:+ password.

Definition compare (candidate h : string) : bool :=
  String.eqb h ("$2a$10$" +:+ "salt" +:+ candidate).

Definition sign (now : Z) (p : JwtPayload) (secret : string) : string :=
  secret +:+ "." +:+ p_userId p.

Definition meena_id : string := "64b7f0c2a1d3e4f5a6b7c8d9".

Definition verify (token secret : string) : Result JwtPayload :=
  if String.eqb token (secret +:+ "." +:+ meena_id)
  then Ok (mkPayload meena_id "meena@example.com" "farmer")
  else Throw (mkError None None "invalid signature").

(** A store that knows the one operator [$ne] on strings. *)
Definition cast_filter (v : Json) : Result (User.t -> bool) :=
  match v with
  | JObj [(op, JStr s)] =>
      if String.eqb op "$ne"
      then Ok (fun u => negb (String.eqb (User.phone u) s))
      else Throw (mkError None None "Cast to string failed")
  | _ => Throw (mkError None None "Cast to string failed")
  end.

Definition env : AuthEnv :=
  mkAuthEnv ∅ None cast_filter meena_id 1730000000000 "salt" None.

Definition meena : SignupBody :=
  mkSignup (Some " Meena ") (Some "Meena@Example.com") (Some "9000000001")
           (Some "secret1") None None (Some "tamil").

(** A request that reuses the email of a stored user, in other case. *)
Definition copycat : SignupBody :=
  mkSignup (Some "Copy") (Some " RAVI.test@example.com") (Some "9000000002")
           (Some "secret2") None None None.

(** The world after [meena] has signed up, and the user stored for her. *)
Definition world1 : World := (signup hash sign env Sample.world meena).2.

Definition meena_stored : User.t :=
  User.mk meena_id "Meena" "farmer" "meena@example.com" "9000000001"
          "$2a$10$saltsecret1" (Some "") "tamil" 1730000000000 None
          1730000000000 0.

Definition env_later : AuthEnv :=
  mkAuthEnv ∅ None cast_filter "64b7f0c2a1d3e4f5a6b7c8da" 1730000600000 "salt"
            None.

Definition right_login : LoginBody :=
  mkLogin (Some (JStr "9000000001")) (Some (JStr "secret1")).

(** A login that names no phone number: the filter matches every user
    whose phone is not that of the first sample user. *)
Definition operator_login : LoginBody :=
  mkLogin (Some (JObj [("$ne", JStr "9876543210")])) (Some (JStr "secret1")).

(** A signup for which the driver generates an id that is in use. *)
Definition env_clash : AuthEnv :=
  mkAuthEnv ∅ None cast_filter Sample.ravi_id 1730000000000 "salt" None.

End Accounts.

(** ** Properties *)

Section Properties.

Variable jwt_verify : string -> string -> Result JwtPayload.
Variable castObjectId : string -> Result string.
Variable path_extname : string -> string.

Local Abbreviation findById := (findById castObjectId).
Local Abbreviation authMiddleware := (authMiddleware jwt_verify castObjectId).
Local Abbreviation upload_single := (upload_single path_extname).
Local Abbreviation stored_file :=
  (stored_file jwt_verify castObjectId path_extname).
Local Abbreviation post_upload :=
  (post_upload jwt_verify castObjectId path_extname).
Local Abbreviation app :=
  (app jwt_verify castObjectId path_extname).
Local Abbreviation get_me := (get_me jwt_verify castObjectId).

(** *** Intake *)

Lemma upload_single_stored env w req f w1 :
  upload_single env w req = MulterNext (Some f) w1 ->
  uploads w1 = uploads w /\ users w1 = users w /\ f_path f ∈ fs w1 /\
  exists part, file_part req = Some part /\
    startsWith "image/" (mimetype part) = true /\ (size part <= fileSize)%Z.
Proof.
  unfold upload_single, fileFilter.
  destruct (file_part req) as [part|]; [|discriminate].
  destruct (startsWith "image/" (mimetype part)) eqn:Hmime; [|discriminate].
  destruct (fileSize <? size part)%Z eqn:Hsize; [discriminate|].
  intros [= <- <-]. cbn.
  split; [reflexivity|]. split; [reflexivity|]. split.
  - rewrite elem_of_union, elem_of_singleton. by right.
  - exists part. split; [reflexivity|]. split; [exact Hmime|lia].
Qed.

Lemma upload_single_skipped env w req w1 :
  upload_single env w req = MulterNext None w1 ->
  w1 = w /\ file_part req = None.
Proof.
  unfold upload_single, fileFilter.
  destruct (file_part req) as [part|].
  - destruct (startsWith "image/" (mimetype part)); [|discriminate].
    destruct (fileSize <? size part)%Z; discriminate.
  - intros [= <-]. split; reflexivity.
Qed.

Lemma upload_single_rejected env w req e w1 :
  upload_single env w req = MulterError e w1 ->
  uploads w1 = uploads w /\ estatus e = None /\
  exists part, file_part req = Some part /\
    let path := uploadDir +:+ "/" +:+ storage_filename path_extname env part in
    (startsWith "image/" (mimetype part) = false /\ w1 = w \/
     (fileSize < size part)%Z /\ path ∉ fs w1).
Proof.
  unfold upload_single, fileFilter.
  destruct (file_part req) as [part|]; [|discriminate].
  destruct (startsWith "image/" (mimetype part)) eqn:Hmime.
  - destruct (fileSize <? size part)%Z eqn:Hsize; [|discriminate].
    intros [= <- <-]. cbn. repeat split.
    exists part. split; [done|]. right. split; [lia|].
    rewrite elem_of_difference, elem_of_singleton. tauto.
  - intros [= <- <-]. cbn. repeat split.
    exists part. split; [done|]. by left.
Qed.

(** *** The [catch] block *)

Lemma on_error_world w f e :
  uploads (on_error w (Some f) e).2 = uploads w /\
  f_path f ∉ fs (on_error w (Some f) e).2.
Proof.
  unfold on_error, existsSync, unlinkSync.
  destruct (bool_decide (code e = Some "ECONNREFUSED"));
    case_bool_decide; cbn; (split; [reflexivity|]); try assumption;
    rewrite elem_of_difference, elem_of_singleton; tauto.
Qed.

Lemma on_error_status w file e :
  (code e = Some "ECONNREFUSED" -> status (on_error w file e).1 = 503%Z) /\
  (code e <> Some "ECONNREFUSED" -> status (on_error w file e).1 = 500%Z).
Proof.
  unfold on_error. case_bool_decide; cbn; split; congruence.
Qed.

Lemma on_error_not_200 w file e : status (on_error w file e).1 <> 200%Z.
Proof. unfold on_error. case_bool_decide; cbn; lia. Qed.

(** *** The handler: either the record is saved or the catch block ran *)

Lemma post_upload_handler_outcome env w user f :
  HandlerOutcome env w user f (post_upload_handler env w user (Some f)).
Proof.
  unfold post_upload_handler, Upload.save.
  destruct (classifier env) as [p|e] eqn:Hclass.
  - destruct (p_label p) as [label|] eqn:Hlabel.
    + destruct (Upload.validate _) eqn:Hvalid.
      * destruct (insert_error env) as [e|] eqn:Hins.
        -- eapply Failed; [reflexivity|]. right. exists p. split; [done|].
           right. exists label. eauto.
        -- by eapply Accepted.
      * eapply Failed; [reflexivity|]. right. exists p. split; [done|].
        right. exists label. eauto.
    + eapply Failed; [reflexivity|]. right. exists p. eauto.
  - eapply Failed; [reflexivity|]. by left.
Qed.

Lemma not_persisted w w' : uploads w' = uploads w -> ~ persisted w w'.
Proof.
  intros Heq [d Hd]. rewrite Heq in Hd.
  apply (f_equal length) in Hd. rewrite length_app in Hd. cbn in Hd. lia.
Qed.

(** C1. When the file was stored and the classifier call or the insert
    fails, the response is an error (500 or 503) and the stored file is gone
    from disk in the world returned with it; after any non-200 answer the
    stored file is gone; and over all flows, the file stored by the flow
    exists at the end exactly when the flow added its record to the uploads
    collection (reached Persisted). *)
Theorem stored_file_kept_iff_persisted env w req :
  let r := post_upload (error_handler env) env w req in
  (forall f e, stored_file env w req = Some f ->
     classifier env = Throw e \/ insert_error env = Some e ->
     (status r.1 = 500%Z \/ status r.1 = 503%Z) /\ f_path f ∉ fs r.2) /\
  (forall f, stored_file env w req = Some f ->
     status r.1 <> 200%Z -> f_path f ∉ fs r.2) /\
  ((exists f, stored_file env w req = Some f /\ f_path f ∈ fs r.2)
   <-> persisted w r.2).
Proof.
  unfold post_upload, stored_file. cbn zeta.
  destruct (authMiddleware env w req) as [resp|user].
  { cbn. split; [|split; [|split]]; try discriminate.
    - intros (f & Hf & _). discriminate.
    - intros Hp. by apply not_persisted in Hp. }
  destruct (upload_single env w req) as [err w1|[f|] w1] eqn:Hup.
  - apply upload_single_rejected in Hup as (Hu & _). cbn.
    split; [|split; [|split]]; try discriminate.
    + intros (f & Hf & _). discriminate.
    + intros Hp. by apply not_persisted in Hp.
  - apply upload_single_stored in Hup as (Hu & _ & Hin & _).
    destruct (post_upload_handler_outcome env w1 user f)
      as [p label Hclass Hlabel Hins Hvalid ->|e -> Hwhy].
    + cbn. split; [|split; [|split]].
      * intros f' e _ [He|He]; congruence.
      * intros f' _ Hne. congruence.
      * intros _. eexists. by rewrite Hu.
      * intros _. exists f. split; [reflexivity|exact Hin].
    + destruct (on_error_world w1 f e) as [Hsame Hgone].
      split; [|split; [|split]].
      * intros f' e' [= <-] _. split; [|exact Hgone].
        destruct (on_error_status w1 (Some f) e) as [H503 H500].
        destruct (decide (code e = Some "ECONNREFUSED")); auto.
      * intros f' [= <-] _. exact Hgone.
      * intros (f' & [= <-] & Hin'). contradiction.
      * intros Hp. apply not_persisted in Hp; [done|]. congruence.
  - apply upload_single_skipped in Hup as [-> _]. cbn.
    split; [|split; [|split]]; try discriminate.
    + intros (f & Hf & _). discriminate.
    + intros Hp. by apply not_persisted in Hp.
Qed.

(** *** Credential verification *)

Lemma authMiddleware_failure_status env w req r :
  authMiddleware env w req = AuthRespond r ->
  status r = 401%Z \/ status r = 403%Z \/ status r = 404%Z.
Proof.
  unfold authMiddleware.
  destruct (authorization req) as [h|]; [|intros [= <-]; auto].
  destruct (String.eqb h ""); [intros [= <-]; auto|].
  destruct (negb _); [intros [= <-]; auto|].
  destruct (jwt_verify _ _) as [decoded|err]; [|intros [= <-]; auto].
  destruct (findById env w _) as [[user|]|err]; intros [= <-]; auto.
Qed.

Lemma authMiddleware_no_token env w req :
  truthy (header_token req) = false ->
  exists msg,
    authMiddleware env w req = AuthRespond (mkResponse 401 (fail_body msg)).
Proof.
  unfold authMiddleware, header_token.
  destruct (authorization req) as [h|]; cbn; [|eauto].
  destruct (String.eqb h ""); [eauto|].
  intros ->. cbn. eauto.
Qed.

Lemma authMiddleware_token env w req tok :
  header_token req = Some tok -> tok <> "" ->
  authMiddleware env w req =
    match jwt_verify tok (or_else (process_env env !! "JWT_SECRET")
                                  "your-secret-key-change-this") with
    | Throw _ =>
        AuthRespond (mkResponse 403 (fail_body "Token invalid or expired"))
    | Ok decoded =>
        match findById env w (p_userId decoded) with
        | Throw _ =>
            AuthRespond (mkResponse 403 (fail_body "Token invalid or expired"))
        | Ok None => AuthRespond (mkResponse 404 (fail_body "User not found"))
        | Ok (Some user) => AuthNext user
        end
    end.
Proof.
  unfold authMiddleware, header_token.
  destruct (authorization req) as [h|]; cbn; [|discriminate].
  intros Htok Hne.
  destruct (String.eqb_spec h "") as [->|_]; [discriminate|].
  rewrite Htok. cbn.
  destruct (String.eqb_spec tok ""); [contradiction|]. reflexivity.
Qed.

(** *** The route as a whole *)

Lemma post_upload_stored eh env w req f :
  stored_file env w req = Some f ->
  exists user w1,
    authMiddleware env w req = AuthNext user /\
    upload_single env w req = MulterNext (Some f) w1 /\
    post_upload eh env w req = post_upload_handler env w1 user (Some f).
Proof.
  unfold stored_file, post_upload.
  destruct (authMiddleware env w req) as [r|user]; [discriminate|].
  destruct (upload_single env w req) as [e w1|file w1]; [discriminate|].
  intros ->. eauto.
Qed.

Lemma error_handler_multer env w req e w1 :
  upload_single env w req = MulterError e w1 ->
  status (error_handler env e) = 500%Z.
Proof.
  intros Hup. apply upload_single_rejected in Hup as (_ & He & _).
  unfold error_handler. rewrite He. reflexivity.
Qed.

(** Every flow either saves the record and answers 200, or answers with
    another status and leaves the uploads collection as it was. *)
Lemma post_upload_cases env w req :
  let r := post_upload (error_handler env) env w req in
  (exists user f w1 p label,
    stored_file env w req = Some f /\
    uploads w1 = uploads w /\
    classifier env = Ok p /\ p_label p = Some label /\
    insert_error env = None /\
    let d := uploadRecord env user f p label (enrich env label) in
    Upload.validate d = true /\
    r = (mkResponse 200 (success_body env f p label (enrich env label) d),
         set_uploads (uploads w1 ++ [d]) w1)) \/
  (status r.1 <> 200%Z /\ uploads r.2 = uploads w).
Proof.
  unfold post_upload, stored_file. cbn zeta.
  destruct (authMiddleware env w req) as [resp|user] eqn:Hauth.
  { right. cbn. split; [|reflexivity].
    apply authMiddleware_failure_status in Hauth.
    destruct Hauth as [H|[H|H]]; rewrite H; discriminate. }
  destruct (upload_single env w req) as [err w1|[f|] w1] eqn:Hup.
  - right. pose proof (error_handler_multer _ _ _ _ _ Hup) as H500.
    apply upload_single_rejected in Hup as (Hu & _).
    cbn [fst snd]. rewrite H500. split; [discriminate|exact Hu].
  - apply upload_single_stored in Hup as (Hu & _).
    destruct (post_upload_handler_outcome env w1 user f)
      as [p label Hclass Hlabel Hins Hvalid ->|e -> Hwhy].
    + left. exists user, f, w1, p, label. auto 10.
    + right. destruct (on_error_world w1 f e) as [Hsame _].
      split; [apply on_error_not_200|congruence].
  - right. apply upload_single_skipped in Hup as [-> _]. cbn.
    split; [discriminate|reflexivity].
Qed.

Lemma accepted_upload env w req :
  let r := post_upload (error_handler env) env w req in
  status r.1 = 200%Z ->
  exists user f w1 p label,
    stored_file env w req = Some f /\
    uploads w1 = uploads w /\
    classifier env = Ok p /\ p_label p = Some label /\
    insert_error env = None /\
    let d := uploadRecord env user f p label (enrich env label) in
    Upload.validate d = true /\
    r = (mkResponse 200 (success_body env f p label (enrich env label) d),
         set_uploads (uploads w1 ++ [d]) w1).
Proof.
  intros r H200. destruct (post_upload_cases env w req) as [Hacc|[Hne _]].
  - exact Hacc.
  - contradiction.
Qed.

(** *** Enrichment *)

Lemma floor_of_random (r : Qc) :
  random_range r ->
  (0 <= Math_floor (r * Q2Qc (inject_Z 4))%Qc < 4)%Z.
Proof.
  intros [Hlo Hhi]. unfold Math_floor.
  set (q := (r * Q2Qc (inject_Z 4))%Qc).
  assert (Hq0 : (0 <= q)%Qc).
  { apply Qcmult_nonneg_nonneg; [exact Hlo|]. by vm_compute. }
  assert (Hq4 : (q < Q2Qc (inject_Z 4))%Qc).
  { unfold q. rewrite <- (Qcmult_1_l (Q2Qc (inject_Z 4))) at 2.
    apply Qcmult_lt_compat_r; [reflexivity|exact Hhi]. }
  split.
  - change 0%Z with (Qfloor (inject_Z 0)). apply Qfloor_resp_le. exact Hq0.
  - rewrite Zlt_Qlt. eapply Qle_lt_trans; [apply Qfloor_le|]. exact Hq4.
Qed.

Lemma enrich_diseased env label :
  random_range (random_disease env) ->
  toLowerCase label = "diseased" ->
  exists key info,
    assoc key diseaseInfoMap = Some info /\ enrich env label = Some info.
Proof.
  intros Hr Hlabel. unfold enrich. rewrite Hlabel. cbn [String.eqb].
  change (String.eqb "diseased" "diseased") with true. cbn iota.
  change (Z.of_nat (length (map fst diseaseInfoMap))) with 4%Z.
  pose proof (floor_of_random _ Hr) as Hi.
  set (i := Math_floor _) in *.
  assert (Hcases : i = 0%Z \/ i = 1%Z \/ i = 2%Z \/ i = 3%Z) by lia.
  destruct Hcases as [-> | [-> | [-> | ->]]];
    [exists "grasserie" | exists "flacherie"
    | exists "muscardine" | exists "pebrine"];
    eexists; (split; [vm_compute; reflexivity|reflexivity]).
Qed.

Lemma enrich_other env label :
  toLowerCase label <> "diseased" -> enrich env label = None.
Proof.
  intros Hne. unfold enrich.
  destruct (String.eqb_spec (toLowerCase label) "diseased"); [done|reflexivity].
Qed.

Lemma in_label_enum label :
  Upload.in_enum label Upload.label_enum = true ->
  label = "healthy" \/ label = "diseased" \/
  label = "Healthy" \/ label = "Diseased".
Proof.
  unfold Upload.in_enum, Upload.label_enum. cbn [existsb].
  rewrite !orb_true_iff.
  intros [H|[H|[H|[H|H]]]]; try discriminate;
    apply String.eqb_eq in H; auto.
Qed.

Lemma validate_inv d :
  Upload.validate d = true ->
  Upload.in_enum (Upload.label d) Upload.label_enum = true /\
  exists c, Upload.confidence d = Some c /\ (0 <= c)%Qc /\ (c <= 1)%Qc.
Proof.
  unfold Upload.validate, Upload.confidence_valid.
  rewrite !andb_true_iff. intros ((((_ & _) & _) & Henum) & Hconf).
  split; [exact Henum|].
  destruct (Upload.confidence d) as [c|]; [|discriminate].
  apply andb_true_iff in Hconf as [H0 H1].
  apply bool_decide_eq_true in H0, H1. eauto.
Qed.

Lemma prediction_field_disease env f p label di d :
  prediction_field "disease" (mkResponse 200 (success_body env f p label di d))
  = Some (json_opt (JStr <$> (Upload.dname <$> di))).
Proof. reflexivity. Qed.

Lemma prediction_field_measures env f p label di d :
  prediction_field "preventiveMeasures"
    (mkResponse 200 (success_body env f p label di d))
  = Some (JArr (map JStr (default [] (Upload.preventiveMeasures <$> di)))).
Proof. reflexivity. Qed.

(** *** Claims about accepted uploads *)

(** C2. For an accepted upload (answer 200), the saved record carries a
    disease profile exactly when the lower-cased label of the prediction is
    "diseased"; for a label that lower-cases to "healthy" the response has
    [disease = null] and [preventiveMeasures = []]; for one that lower-cases
    to "diseased" the response names one of the profiles of
    [diseaseInfoMap] and carries that profile's measures. *)
Theorem diseaseInfo_iff_diseased env w req :
  random_range (random_disease env) ->
  status (post_upload (error_handler env) env w req).1 = 200%Z ->
  let r := post_upload (error_handler env) env w req in
  exists p label d,
    classifier env = Ok p /\ p_label p = Some label /\
    uploads r.2 = uploads w ++ [d] /\
    (Upload.diseaseInfo d <> None <-> toLowerCase label = "diseased") /\
    (toLowerCase label = "healthy" ->
       Upload.diseaseInfo d = None /\
       prediction_field "disease" r.1 = Some JNull /\
       prediction_field "preventiveMeasures" r.1 = Some (JArr [])) /\
    (toLowerCase label = "diseased" ->
       exists key info,
         assoc key diseaseInfoMap = Some info /\
         Upload.diseaseInfo d = Some info /\
         prediction_field "disease" r.1 = Some (JStr (Upload.dname info)) /\
         prediction_field "preventiveMeasures" r.1
         = Some (JArr (map JStr (Upload.preventiveMeasures info)))).
Proof.
  intros Hr H200 r.
  destruct (accepted_upload env w req H200)
    as (user & f & w1 & p & label & _ & Hu & Hclass & Hlabel & _ & _ & Hres).
  subst r. rewrite Hres. cbn [fst snd uploads set_uploads].
  rewrite prediction_field_disease, prediction_field_measures.
  exists p, label,
    (uploadRecord env user f p label (enrich env label)).
  split; [exact Hclass|]. split; [exact Hlabel|].
  split; [by rewrite Hu|]. cbn [uploadRecord Upload.diseaseInfo].
  split; [|split].
  - split.
    + intros Hsome.
      destruct (decide (toLowerCase label = "diseased")) as [|Hne]; [done|].
      by rewrite (enrich_other env label Hne) in Hsome.
    + intros Hd. destruct (enrich_diseased env label Hr Hd) as (k & i & _ & ->).
      discriminate.
  - intros Hh. rewrite enrich_other; [done|]. rewrite Hh. discriminate.
  - intros Hd. destruct (enrich_diseased env label Hr Hd) as (k & i & Hk & ->).
    exists k, i. done.
Qed.

(** C7. The record saved by an accepted upload has a confidence in
    [0, 1]; when the classifier's confidence is missing or outside [0, 1]
    the request is answered with an error and no record is written; so a
    flow never adds a record whose confidence is outside [0, 1]. *)
Theorem confidence_in_unit_interval env w req :
  let r := post_upload (error_handler env) env w req in
  (status r.1 = 200%Z ->
     exists d c, uploads r.2 = uploads w ++ [d] /\
       Upload.confidence d = Some c /\ unit_interval c) /\
  (forall p, classifier env = Ok p ->
     (forall c, p_confidence p = Some c -> ~ unit_interval c) ->
     status r.1 <> 200%Z /\ uploads r.2 = uploads w) /\
  (forall d, d ∈ uploads r.2 ->
     d ∈ uploads w \/
     exists c, Upload.confidence d = Some c /\ unit_interval c).
Proof.
  cbv zeta.
  destruct (post_upload_cases env w req)
    as [(user & f & w1 & p & label & _ & Hu & Hclass & Hlabel & _ & Hv & Hres)
       |[Hne Hsame]].
  - apply validate_inv in Hv as (_ & c & Hc & Hrange).
    rewrite Hres. cbn [fst snd uploads set_uploads]. rewrite Hu.
    split; [|split].
    + intros _. eauto.
    + intros p' Hclass' Hout. exfalso.
      assert (p' = p) as -> by congruence.
      by apply (Hout c).
    + intros d [Hin|Hin%list_elem_of_singleton]%elem_of_app; [by left|].
      right. subst d. eauto.
  - split; [|split].
    + intros H200. contradiction.
    + intros p _ _. done.
    + intros d Hin. left. by rewrite <- Hsame.
Qed.

(** C8 (as the code has it). The record saved by an accepted upload
    carries the label exactly as the classifier sent it, in one of the four
    spellings the schema lists (healthy, diseased, Healthy, Diseased), so
    its lower-case form is healthy or diseased; a label in any other
    spelling is answered with an error and nothing is saved. *)
Theorem label_stored_as_received env w req :
  let r := post_upload (error_handler env) env w req in
  (status r.1 = 200%Z ->
     exists p label d,
       classifier env = Ok p /\ p_label p = Some label /\
       uploads r.2 = uploads w ++ [d] /\ Upload.label d = label /\
       In label Upload.label_enum /\
       (toLowerCase label = "healthy" \/ toLowerCase label = "diseased")) /\
  (forall p label, classifier env = Ok p -> p_label p = Some label ->
     ~ In label Upload.label_enum ->
     status r.1 <> 200%Z /\ uploads r.2 = uploads w).
Proof.
  cbv zeta.
  destruct (post_upload_cases env w req)
    as [(user & f & w1 & p & label & _ & Hu & Hclass & Hlabel & _ & Hv & Hres)
       |[Hne Hsame]].
  - apply validate_inv in Hv as (Henum%in_label_enum & _).
    cbn [uploadRecord Upload.label] in Henum.
    rewrite Hres. cbn [fst snd uploads set_uploads]. rewrite Hu.
    assert (Hin : In label Upload.label_enum).
    { unfold Upload.label_enum. cbn [In].
      destruct Henum as [-> | [-> | [-> | ->]]]; tauto. }
    split.
    + intros _. exists p, label, (uploadRecord env user f p label
                                   (enrich env label)).
      repeat (split; [done|]).
      destruct Henum as [-> | [-> | [-> | ->]]]; auto.
    + intros p' label' Hclass' Hlabel' Hout. exfalso.
      assert (label' = label) as -> by congruence. contradiction.
  - split; [intros H200; contradiction|]. intros p label _ _ _. done.
Qed.

(** *** Claims about failures *)

(** C3. When the file was stored and the classifier call throws, the
    answer is 503 exactly when the error's code is ECONNREFUSED, and 500
    for every other error. *)
Theorem classifier_failure_status env w req f e :
  stored_file env w req = Some f ->
  classifier env = Throw e ->
  let r := post_upload (error_handler env) env w req in
  (status r.1 = 503%Z <-> code e = Some "ECONNREFUSED") /\
  (status r.1 = 500%Z <-> code e <> Some "ECONNREFUSED").
Proof.
  intros Hstored Hthrow r.
  destruct (post_upload_stored (error_handler env) env w req f Hstored)
    as (user & w1 & _ & _ & Hrun).
  subst r. rewrite Hrun. unfold post_upload_handler. rewrite Hthrow.
  destruct (on_error_status w1 (Some f) e) as [H503 H500].
  destruct (decide (code e = Some "ECONNREFUSED")) as [Heq|Hne].
  - rewrite (H503 Heq). split; split; try done.
  - rewrite (H500 Hne). split; split; try done.
Qed.

(** C9. A POST /upload without a bearer token is answered 401 and the
    world (disk and collections) is returned unchanged; more generally,
    whenever the credential check answers, its answer is the route's answer
    and the world is unchanged, since intake runs after it. *)
Theorem no_credential_no_write env w req :
  method req = POST -> url req = "/upload" ->
  (truthy (header_token req) = false ->
     exists msg, app env w req = Some (mkResponse 401 (fail_body msg), w)) /\
  (forall r, authMiddleware env w req = AuthRespond r ->
     app env w req = Some (r, w)).
Proof.
  intros Hm Hurl. unfold app. rewrite Hm, Hurl.
  change (dispatch POST "/upload") with UploadPredict. cbn iota.
  unfold post_upload. split.
  - intros Hno. destruct (authMiddleware_no_token env w req Hno) as [msg ->].
    by exists msg.
  - intros r ->. reflexivity.
Qed.

(** C5 (as the code has it). The credential check answers 401 when the
    header is missing or its second space-separated part is missing or
    empty; 403 when [jwt.verify] throws, and also when looking up the
    token's subject throws (the subject cannot be cast to an ObjectId, or
    the store fails); 404 when the subject is cast to an id that is not in
    the users collection; and otherwise passes the stored user record on as
    [req.user]. *)
Theorem authMiddleware_outcomes env w req :
  let secret := or_else (process_env env !! "JWT_SECRET")
                        "your-secret-key-change-this" in
  (truthy (header_token req) = false ->
     exists msg,
       authMiddleware env w req = AuthRespond (mkResponse 401 (fail_body msg)))
  /\
  (forall tok e, header_token req = Some tok -> tok <> "" ->
     jwt_verify tok secret = Throw e ->
     authMiddleware env w req
     = AuthRespond (mkResponse 403 (fail_body "Token invalid or expired")))
  /\
  (forall tok decoded e, header_token req = Some tok -> tok <> "" ->
     jwt_verify tok secret = Ok decoded ->
     castObjectId (p_userId decoded) = Throw e \/ find_error env = Some e ->
     authMiddleware env w req
     = AuthRespond (mkResponse 403 (fail_body "Token invalid or expired")))
  /\
  (forall tok decoded key, header_token req = Some tok -> tok <> "" ->
     jwt_verify tok secret = Ok decoded ->
     castObjectId (p_userId decoded) = Ok key -> find_error env = None ->
     match users w !! key with
     | None =>
         authMiddleware env w req
         = AuthRespond (mkResponse 404 (fail_body "User not found"))
     | Some user => authMiddleware env w req = AuthNext user
     end).
Proof.
  intros secret. split; [apply authMiddleware_no_token|]. split; [|split].
  - intros tok e Htok Hne Hv.
    rewrite (authMiddleware_token env w req tok Htok Hne).
    fold secret. by rewrite Hv.
  - intros tok decoded e Htok Hne Hv Hthrow.
    rewrite (authMiddleware_token env w req tok Htok Hne).
    fold secret. rewrite Hv. unfold findById.
    destruct Hthrow as [Hcast|Hfind].
    + by rewrite Hcast.
    + destruct (castObjectId (p_userId decoded)); [by rewrite Hfind|done].
  - intros tok decoded key Htok Hne Hv Hcast Hfind.
    rewrite (authMiddleware_token env w req tok Htok Hne).
    fold secret. rewrite Hv. unfold findById, User.findById.
    rewrite Hcast, Hfind. by destruct (users w !! key).
Qed.

(** *** Intake failures *)

Lemma missing_file_status env w req user :
  authMiddleware env w req = AuthNext user ->
  file_part req = None ->
  post_upload (error_handler env) env w req
  = (mkResponse 400 (fail_body "No image file provided"), w).
Proof.
  intros Hauth Hpart. unfold post_upload, upload_single.
  by rewrite Hauth, Hpart.
Qed.

Lemma filtered_file_status env w req user part :
  authMiddleware env w req = AuthNext user ->
  file_part req = Some part ->
  startsWith "image/" (mimetype part) = false ->
  exists b,
    post_upload (error_handler env) env w req = (mkResponse 500 b, w).
Proof.
  intros Hauth Hpart Hmime. unfold post_upload, upload_single, fileFilter.
  rewrite Hauth, Hpart, Hmime. unfold error_handler.
  cbn [estatus]. eauto.
Qed.

Lemma oversized_file_status env w req user part :
  authMiddleware env w req = AuthNext user ->
  file_part req = Some part ->
  startsWith "image/" (mimetype part) = true ->
  (fileSize < size part)%Z ->
  let r := post_upload (error_handler env) env w req in
  status r.1 = 500%Z /\ uploads r.2 = uploads w /\
  uploadDir +:+ "/" +:+ storage_filename path_extname env part ∉ fs r.2.
Proof.
  intros Hauth Hpart Hmime Hsize.
  unfold post_upload, upload_single, fileFilter.
  rewrite Hauth, Hpart, Hmime.
  destruct (Z.ltb_spec fileSize (size part)) as [_|Hle]; [|lia].
  cbn. split; [reflexivity|]. split; [reflexivity|].
  rewrite elem_of_difference, elem_of_singleton. tauto.
Qed.

(** *** Routing *)

(** C6 (what the code does). No handler is registered for
    /upload/stats: for every method the request falls through both routers
    to the final handler, which answers 404 and changes nothing. *)
Theorem stats_route_not_registered (m : Method) env w auth part :
  dispatch m "/upload/stats" = NotFound /\
  app env w (mkRequest m "/upload/stats" auth part) = Some (not_found, w) /\
  status not_found = 404%Z.
Proof.
  split; [by destruct m|]. split; [|reflexivity].
  unfold app. cbn [method url]. by destruct m.
Qed.

(** The aggregation behind the missing route: one row per label of the
    caller's records, with their number and mean confidence. *)
Lemma getUserStats_row uploads uid row :
  In row (Upload.getUserStats uploads uid) ->
  let mine := filter (fun d => String.eqb (Upload.userId d) uid) uploads in
  let group :=
    filter (fun d => String.eqb (Upload.label d) (Upload.s_id row)) mine in
  In (Upload.s_id row) (map Upload.label mine) /\
  Upload.count row = length group /\
  Upload.avgConfidence row
  = (Upload.sum_conf group / Q2Qc (inject_Z (Z.of_nat (length group))))%Qc.
Proof.
  unfold Upload.getUserStats. rewrite in_map_iff.
  intros (l & <- & Hl). cbn. split; [|done].
  revert Hl. generalize (map Upload.label
    (filter (fun d => String.eqb (Upload.userId d) uid) uploads)).
  intros labels. revert l. induction labels as [|x rest IH]; cbn; [done|].
  intros l [->|Hin]; [by left|].
  right. apply IH.
  apply list_elem_of_In, list_elem_of_filter in Hin as [_ Hin].
  by apply list_elem_of_In.
Qed.

(** *** Serialization of users *)

Lemma toJSON_no_passwordHash (u : User.t) :
  has_key "passwordHash" (User.toJSON u) = false.
Proof. destruct u as [? ? ? ? ? ? [?|] ? ? [?|] ? ?]; reflexivity. Qed.

Lemma toJSON_with_passwordHash (u : User.t) (h : string) :
  User.toJSON (User.with_passwordHash h u) = User.toJSON u.
Proof. destruct u as [? ? ? ? ? ? [?|] ? ? [?|] ? ?]; reflexivity. Qed.

Lemma get_me_no_passwordHash env w req :
  has_key "passwordHash" (body (get_me env w req)) = false.
Proof.
  unfold get_me. destruct (negb _); [reflexivity|].
  destruct (jwt_verify _ _) as [decoded|e]; [|reflexivity].
  destruct (findById env w _) as [[user|]|e]; try reflexivity.
  cbn [body]. pose proof (toJSON_no_passwordHash user) as Hu.
  cbn [has_key existsb String.eqb Ascii.eqb Bool.eqb orb] in *.
  by rewrite Hu.
Qed.

(** C10. Replacing the stored hash of a user changes neither the
    user's JSON form nor the answer of GET /auth/me, and neither contains a
    key [passwordHash]. *)
Theorem passwordHash_not_in_responses (u : User.t) (h : string) :
  User.toJSON (User.with_passwordHash h u) = User.toJSON u /\
  has_key "passwordHash" (User.toJSON u) = false /\
  forall env w req id,
    users w !! id = Some u ->
    let w' := set_users (<[id := User.with_passwordHash h u]> (users w)) w in
    get_me env w' req = get_me env w req /\
    has_key "passwordHash" (body (get_me env w req)) = false.
Proof.
  split; [apply toJSON_with_passwordHash|].
  split; [apply toJSON_no_passwordHash|].
  intros env w req id Hu w'. split; [|apply get_me_no_passwordHash].
  unfold get_me. destruct (negb _); [reflexivity|].
  destruct (jwt_verify _ _) as [decoded|e]; [|reflexivity].
  unfold findById, User.findById, w'. cbn [users set_users].
  destruct (castObjectId (p_userId decoded)) as [key|e]; [|reflexivity].
  destruct (find_error env); [reflexivity|].
  destruct (decide (id = key)) as [<-|Hne].
  - rewrite lookup_insert_eq, Hu. by rewrite toJSON_with_passwordHash.
  - by rewrite lookup_insert_ne.
Qed.

End Properties.

(** ** The handlers on concrete requests *)

(** Scenario A: a healthy verdict. *)
Example scenario_healthy :
  let r := Sample.upload (Ok Sample.healthy) None (Some "Bearer good")
                      (Some Sample.jpeg) in
  status r.1 = 200%Z /\
  prediction_field "disease" r.1 = Some JNull /\
  prediction_field "preventiveMeasures" r.1 = Some (JArr []) /\
  map Upload.diseaseInfo (uploads r.2) = [None] /\
  elements (fs r.2) = [f_path Sample.stored_jpeg].
Proof. vm_compute. repeat split. Qed.

(** Scenario D: the classifier refuses the connection. *)
Example scenario_refused :
  let r := Sample.upload (Throw Sample.refused) None (Some "Bearer good")
                      (Some Sample.jpeg) in
  status r.1 = 503%Z /\ uploads r.2 = [] /\ elements (fs r.2) = [].
Proof. vm_compute. repeat split. Qed.

(** C4 (what the code does). A text file sent by an authenticated
    caller is refused by [fileFilter], but the answer comes from the
    application's error handler with status 500, not 400; the same holds
    for an image one byte over the limit.  Nothing is left on disk and
    nothing is saved. *)
Theorem rejected_file_answered_500 :
  let r1 := Sample.upload (Ok Sample.healthy) None (Some "Bearer good")
                       (Some Sample.text) in
  let r2 := Sample.upload (Ok Sample.healthy) None (Some "Bearer good")
                       (Some Sample.huge) in
  r1.1 = mkResponse 500
           (JObj [("success", JBool false);
                  ("message", JStr "Only image files allowed");
                  ("error", JObj [])]) /\
  r2.1 = mkResponse 500
           (JObj [("success", JBool false);
                  ("message", JStr "File too large");
                  ("error", JObj [])]) /\
  elements (fs r1.2) = [] /\ elements (fs r2.2) = [] /\
  uploads r1.2 = [] /\ uploads r2.2 = [].
Proof. vm_compute. repeat split. Qed.

(** C5, against the claim: a token that fails verification is answered
    403, not 401. *)
Lemma invalid_token_answered_403 :
  let req := Sample.post (Some "Bearer forged") (Some Sample.jpeg) in
  let env := Sample.env_with (Ok Sample.healthy) None in
  header_token req = Some "forged" /\
  (exists e, Sample.verify "forged" "your-secret-key-change-this" = Throw e) /\
  exists r,
    authMiddleware Sample.verify Sample.cast env Sample.world req
    = AuthRespond r
    /\ status r = 403%Z /\ status r <> 401%Z.
Proof.
  split; [reflexivity|]. split; [eexists; reflexivity|].
  eexists. split; [reflexivity|]. split; [reflexivity|discriminate].
Qed.

(** The lookup behind the 403 and the 404: a subject that is no ObjectId
    makes the lookup throw, which the middleware answers 403 and GET
    /auth/me 401; a subject in capital hexadecimal digits names the user
    stored under the same id. *)
Example subject_is_cast :
  let env := Sample.env_with (Ok Sample.healthy) None in
  let legacy := Fixture.get "Bearer legacy" in
  let capitals := Fixture.get "Bearer capitals" in
  authMiddleware Fixture.verify Sample.cast env Fixture.world legacy
  = AuthRespond (mkResponse 403 (fail_body "Token invalid or expired")) /\
  status (get_me Fixture.verify Sample.cast env Fixture.world legacy)
  = 401%Z /\
  authMiddleware Fixture.verify Sample.cast env Fixture.world capitals
  = AuthNext Sample.ravi.
Proof. vm_compute. repeat split. Qed.

(** HEAD requests reach the handlers registered for GET. *)
Example head_is_routed_like_get :
  dispatch HEAD "/auth/me" = AuthMe /\
  dispatch HEAD "/uploads/silkworm-1-1.jpg" = Static /\
  dispatch HEAD "/upload/history" = UploadHistory /\
  dispatch HEAD "/upload" = NotFound /\
  dispatch PATCH "/auth/me" = NotFound.
Proof. vm_compute. repeat split. Qed.

(** C8, against the claim: the label "Diseased" is stored with its
    capital letter, and the label "DISEASED" is not accepted at all. *)
Lemma label_not_normalized :
  let r1 := Sample.upload (Ok Sample.diseased) None (Some "Bearer good")
                       (Some Sample.jpeg) in
  let r2 := Sample.upload (Ok Sample.shouting) None (Some "Bearer good")
                       (Some Sample.jpeg) in
  status r1.1 = 200%Z /\
  (exists d, uploads r1.2 = [d] /\ Upload.label d = "Diseased" /\
             ~ (Upload.label d = "healthy" \/ Upload.label d = "diseased")) /\
  status r2.1 = 500%Z /\ uploads r2.2 = [].
Proof.
  split; [by vm_compute|]. split.
  - eexists. split; [by vm_compute|]. split; [reflexivity|].
    cbn. intros [H|H]; discriminate.
  - split; by vm_compute.
Qed.

(** ** The theorems with hypotheses, applied to concrete flows *)

(** Scenario B: C2 at a flow whose classifier answers "Diseased". *)
Lemma diseaseInfo_iff_diseased_witness :
  let env := Sample.env_with (Ok Sample.diseased) None in
  let req := Sample.post (Some "Bearer good") (Some Sample.jpeg) in
  let r := post_upload Sample.verify Sample.cast Sample.extname
             (error_handler env) env Sample.world req in
  random_range (random_disease env) /\
  status r.1 = 200%Z /\
  exists p label d,
    classifier env = Ok p /\ p_label p = Some label /\
    uploads r.2 = uploads Sample.world ++ [d] /\
    (Upload.diseaseInfo d <> None <-> toLowerCase label = "diseased") /\
    (toLowerCase label = "healthy" ->
       Upload.diseaseInfo d = None /\
       prediction_field "disease" r.1 = Some JNull /\
       prediction_field "preventiveMeasures" r.1 = Some (JArr [])) /\
    (toLowerCase label = "diseased" ->
       exists key info,
         assoc key diseaseInfoMap = Some info /\
         Upload.diseaseInfo d = Some info /\
         prediction_field "disease" r.1 = Some (JStr (Upload.dname info)) /\
         prediction_field "preventiveMeasures" r.1
         = Some (JArr (map JStr (Upload.preventiveMeasures info)))).
Proof.
  intros env req r.
  assert (Hr : random_range (random_disease env)).
  { split; by vm_compute. }
  assert (H200 : status r.1 = 200%Z) by (vm_compute; reflexivity).
  split; [exact Hr|]. split; [exact H200|].
  exact (diseaseInfo_iff_diseased Sample.verify Sample.cast Sample.extname env
           Sample.world req Hr H200).
Defined.

(** Scenario D: C3 at a flow whose classifier refuses the connection. *)
Lemma classifier_failure_status_witness :
  let env := Sample.env_with (Throw Sample.refused) None in
  let req := Sample.post (Some "Bearer good") (Some Sample.jpeg) in
  let r := post_upload Sample.verify Sample.cast Sample.extname
             (error_handler env) env Sample.world req in
  stored_file Sample.verify Sample.cast Sample.extname env Sample.world req
  = Some Sample.stored_jpeg /\
  classifier env = Throw Sample.refused /\
  (status r.1 = 503%Z <-> code Sample.refused = Some "ECONNREFUSED") /\
  (status r.1 = 500%Z <-> code Sample.refused <> Some "ECONNREFUSED").
Proof.
  intros env req r.
  assert (Hs : stored_file Sample.verify Sample.cast Sample.extname env
                 Sample.world req
               = Some Sample.stored_jpeg) by (vm_compute; reflexivity).
  assert (Hc : classifier env = Throw Sample.refused) by reflexivity.
  split; [exact Hs|]. split; [exact Hc|].
  exact (classifier_failure_status Sample.verify Sample.cast Sample.extname env
           Sample.world req Sample.stored_jpeg Sample.refused Hs Hc).
Defined.

(** Scenario E: C9 at a request without an Authorization header. *)
Lemma no_credential_no_write_witness :
  let env := Sample.env_with (Ok Sample.healthy) None in
  let req := Sample.post None (Some Sample.jpeg) in
  method req = POST /\ url req = "/upload" /\
  (truthy (header_token req) = false ->
     exists msg,
       app Sample.verify Sample.cast Sample.extname env Sample.world req
       = Some (mkResponse 401 (fail_body msg), Sample.world)) /\
  (forall r,
     authMiddleware Sample.verify Sample.cast env Sample.world req
     = AuthRespond r ->
     app Sample.verify Sample.cast Sample.extname env Sample.world req
     = Some (r, Sample.world)).
Proof.
  intros env req.
  split; [reflexivity|]. split; [reflexivity|].
  exact (no_credential_no_write Sample.verify Sample.cast Sample.extname env
           Sample.world req eq_refl eq_refl).
Defined.

(** ** Further properties of the handlers *)

(** *** Sorting, grouping and splitting *)


Lemma insert_desc_perm d l : insert_desc d l ≡ₚ d :: l.
Proof.
  induction l as [|x rest IH]; cbn; [reflexivity|].
  destruct (Upload.timestamp x <=? Upload.timestamp d)%Z; [reflexivity|].
  rewrite IH. apply perm_swap.
Qed.

Lemma sort_desc_perm l : sort_desc l ≡ₚ l.
Proof.
  induction l as [|x rest IH]; cbn; [reflexivity|].
  by rewrite insert_desc_perm, IH.
Qed.

Lemma insert_desc_sorted d l :
  StronglySorted newer_first l -> StronglySorted newer_first (insert_desc d l).
Proof.
  induction 1 as [|x rest Hsorted IH Hall]; cbn.
  - constructor; constructor.
  - destruct (Z.leb_spec (Upload.timestamp x) (Upload.timestamp d)) as [Hle|Hlt].
    + constructor; [by constructor|].
      constructor; [exact Hle|].
      eapply Forall_impl; [exact Hall|].
      intros y Hy. unfold newer_first in *. lia.
    + constructor; [exact IH|].
      rewrite insert_desc_perm. constructor; [|exact Hall].
      unfold newer_first. lia.
Qed.

Lemma sort_desc_sorted l : StronglySorted newer_first (sort_desc l).
Proof.
  induction l as [|x rest IH]; cbn; [constructor|].
  by apply insert_desc_sorted.
Qed.

Lemma elem_of_find_by_user d l uid :
  d ∈ find_by_user l uid <-> d ∈ l /\ Upload.userId d = uid.
Proof.
  unfold find_by_user. rewrite list_elem_of_filter.
  rewrite Is_true_true, String.eqb_eq. tauto.
Qed.

(** *** Upload.getUserStats *)

Lemma elem_of_distinct x l : x ∈ Upload.distinct l <-> x ∈ l.
Proof.
  induction l as [|y rest IH]; cbn; [reflexivity|].
  rewrite !elem_of_cons, list_elem_of_filter, IH.
  destruct (String.eqb_spec y x) as [->|Hne]; cbn.
  - tauto.
  - split; [tauto|]. intros [->|H]; [contradiction|tauto].
Qed.

Lemma NoDup_distinct l : NoDup (Upload.distinct l).
Proof.
  induction l as [|y rest IH]; cbn; constructor.
  - rewrite list_elem_of_filter. intros [Hne _].
    by rewrite String.eqb_refl in Hne.
  - by apply NoDup_filter.
Qed.

Lemma hits_once (x : string) (ls : list string) :
  NoDup ls -> x ∈ ls ->
  sum_list (map (fun l => if String.eqb x l then 1 else 0) ls) = 1.
Proof.
  induction 1 as [|y rest Hnotin Hnodup IH]; [by intros ?%elem_of_nil|].
  rewrite elem_of_cons. cbn. intros Hin.
  destruct (String.eqb_spec x y) as [->|Hne].
  - f_equal. clear IH Hin. induction rest as [|z rest IH]; [reflexivity|].
    cbn. apply not_elem_of_cons in Hnotin as [Hyz Hrest].
    destruct (String.eqb_spec y z); [contradiction|].
    apply IH; [exact Hrest|by apply NoDup_cons in Hnodup as [_ ?]].
  - destruct Hin as [?|Hin]; [contradiction|]. by apply IH.
Qed.

Lemma label_counts_sum (docs : list Upload.t) (ls : list string) :
  NoDup ls -> (forall d, d ∈ docs -> Upload.label d ∈ ls) ->
  sum_list (map (label_count docs) ls) = length docs.
Proof.
  intros Hnodup. induction docs as [|d rest IH]; intros Hall.
  - clear Hnodup Hall. induction ls as [|l ls IHl]; [reflexivity|].
    cbn. exact IHl.
  - assert (Hsplit : forall l,
      label_count (d :: rest) l
      = (if String.eqb (Upload.label d) l then 1 else 0) + label_count rest l).
    { intros l. unfold label_count. cbn.
      by destruct (String.eqb (Upload.label d) l). }
    rewrite (map_ext _ _ Hsplit).
    assert (Hsum : forall (f g : string -> nat) xs,
      sum_list (map (fun l => f l + g l) xs)
      = sum_list (map f xs) + sum_list (map g xs)).
    { intros f g xs. induction xs as [|x xs IHx]; cbn; [reflexivity|].
      rewrite IHx. lia. }
    rewrite Hsum, hits_once, IH; [reflexivity| | exact Hnodup|].
    + intros d' Hd'. apply Hall. by right.
    + apply Hall. by left.
Qed.

(** X10. The rows of [getUserStats] partition the caller's records by
    label: the row labels are pairwise distinct and are exactly the labels
    occurring among the caller's records, every row counts at least one
    record, and the counts add up to the number of the caller's records. *)
Theorem stats_partition_callers_records (docs : list Upload.t) (uid : string) :
  let rows := Upload.getUserStats docs uid in
  NoDup (map Upload.s_id rows) /\
  (forall l, l ∈ map Upload.s_id rows <->
             exists d, d ∈ docs /\ Upload.userId d = uid /\ Upload.label d = l) /\
  (forall row, row ∈ rows -> 1 <= Upload.count row) /\
  sum_list (map Upload.count rows) = length (find_by_user docs uid).
Proof.
  unfold Upload.getUserStats. fold (find_by_user docs uid).
  set (mine := find_by_user docs uid).
  set (labels := Upload.distinct (map Upload.label mine)).
  cbn zeta. rewrite !map_map. cbn [Upload.s_id Upload.count].
  rewrite map_id.
  assert (Hlabels : forall l, l ∈ labels <->
            exists d, d ∈ docs /\ Upload.userId d = uid /\ Upload.label d = l).
  { intros l. unfold labels. rewrite elem_of_distinct, list_elem_of_fmap.
    split.
    - intros (d & -> & Hd). apply elem_of_find_by_user in Hd. exists d. tauto.
    - intros (d & Hd & Hu & <-). exists d. split; [reflexivity|].
      by apply elem_of_find_by_user. }
  split; [apply NoDup_distinct|]. split; [exact Hlabels|]. split.
  - intros row (l & -> & Hl)%list_elem_of_fmap. cbn.
    apply Hlabels in Hl as (d & Hd & Hu & <-).
    assert (Hin : d ∈ filter (fun d0 => String.eqb (Upload.label d0)
                                          (Upload.label d)) mine).
    { apply list_elem_of_filter. split; [by rewrite String.eqb_refl|].
      by apply elem_of_find_by_user. }
    destruct (filter _ mine); [by apply elem_of_nil in Hin|cbn; lia].
  - apply (label_counts_sum mine labels); [apply NoDup_distinct|].
    intros d Hd. unfold labels. rewrite elem_of_distinct.
    apply list_elem_of_fmap. by exists d.
Qed.


Lemma Qc_of_nat_succ n : Qc_of_nat (S n) = (1 + Qc_of_nat n)%Qc.
Proof.
  unfold Qc_of_nat. apply Qc_is_canon. unfold Qcplus. cbn [this Q2Qc].
  rewrite !Qred_correct, Nat2Z.inj_succ. unfold Z.succ.
  rewrite inject_Z_plus. ring.
Qed.

Lemma Qc_of_nat_nonneg n : (0 <= Qc_of_nat n)%Qc.
Proof.
  induction n as [|n IH]; [by vm_compute|].
  rewrite Qc_of_nat_succ. apply Qcplus_nonneg_nonneg; [by vm_compute|exact IH].
Qed.

Lemma Qc_of_nat_pos n : (0 < Qc_of_nat (S n))%Qc.
Proof.
  rewrite Qc_of_nat_succ.
  apply Qcplus_pos_nonneg; [by vm_compute|apply Qc_of_nat_nonneg].
Qed.

Lemma sum_conf_bounds (l : list Upload.t) :
  (forall d, d ∈ l -> exists c, Upload.confidence d = Some c /\ unit_interval c) ->
  (0 <= Upload.sum_conf l)%Qc /\ (Upload.sum_conf l <= Qc_of_nat (length l))%Qc.
Proof.
  induction l as [|d rest IH]; intros Hall.
  - split; by vm_compute.
  - destruct IH as [Hlo Hhi]; [intros d' Hd'; apply Hall; by right|].
    destruct (Hall d) as (c & Hc & Hc0 & Hc1); [by left|].
    cbn [Upload.sum_conf fold_right length]. unfold Upload.conf.
    rewrite Hc. cbn [default]. fold (Upload.sum_conf rest).
    split.
    + by apply Qcplus_nonneg_nonneg.
    + rewrite Qc_of_nat_succ. by apply Qcplus_le_compat.
Qed.

Lemma mean_in_unit_interval (s : Qc) (n : nat) :
  (0 <= s)%Qc -> (s <= Qc_of_nat (S n))%Qc ->
  unit_interval (s / Qc_of_nat (S n))%Qc.
Proof.
  intros Hlo Hhi. pose proof (Qc_of_nat_pos n) as Hpos.
  pose proof (Qcinv_pos _ Hpos) as Hinv.
  unfold Qcdiv. split.
  - apply Qcmult_nonneg_nonneg; [exact Hlo|]. by apply Qclt_le_weak.
  - rewrite <- (Qcmult_inv_r (Qc_of_nat (S n))).
    + apply Qcmult_le_compat_r; [exact Hhi|]. by apply Qclt_le_weak.
    + intros Heq. rewrite Heq in Hpos. by apply Qclt_not_eq in Hpos.
Qed.

(** X11. When the stored records pass the schema, every average
    confidence reported by [getUserStats] lies in [0, 1]. *)
Theorem stats_average_in_unit_interval (docs : list Upload.t) (uid : string) :
  (forall d, d ∈ docs -> Upload.validate d = true) ->
  forall row, row ∈ Upload.getUserStats docs uid ->
  unit_interval (Upload.avgConfidence row).
Proof.
  intros Hvalid row. unfold Upload.getUserStats.
  intros (l & -> & Hl)%list_elem_of_fmap. cbn [Upload.avgConfidence].
  set (group := filter _ (filter _ docs)).
  assert (Hgroup : forall d, d ∈ group ->
            exists c, Upload.confidence d = Some c /\ unit_interval c).
  { intros d (_ & (_ & Hd)%list_elem_of_filter)%list_elem_of_filter.
    apply Hvalid, validate_inv in Hd as (_ & c & Hc & Hrange).
    exists c. split; [exact Hc|exact Hrange]. }
  assert (Hne : group <> []).
  { apply elem_of_distinct, list_elem_of_fmap in Hl as (d & -> & Hd).
    intros Hnil. assert (d ∈ group) as Hin.
    { apply list_elem_of_filter. split; [by rewrite String.eqb_refl|exact Hd]. }
    rewrite Hnil in Hin. by apply elem_of_nil in Hin. }
  destruct (sum_conf_bounds group Hgroup) as [Hlo Hhi].
  destruct group as [|d rest] eqn:Hg; [contradiction|].
  by apply mean_in_unit_interval.
Qed.

Lemma split_no_space (a b : string) :
  no_space a = true -> split " " (a +:+ " " +:+ b) = a :: split " " b.
Proof.
  induction a as [|c a IH]; intros H; [reflexivity|].
  cbn [no_space] in H. apply andb_true_iff in H as [Hc Ha].
  apply negb_true_iff in Hc.
  change (String c a +:+ " " +:+ b) with (String c (a +:+ " " +:+ b)).
  cbn [split]. by rewrite Hc, (IH Ha).
Qed.

Lemma split_single (a : string) : no_space a = true -> split " " a = [a].
Proof.
  induction a as [|c a IH]; intros H; [reflexivity|].
  cbn [no_space] in H. apply andb_true_iff in H as [Hc Ha].
  apply negb_true_iff in Hc. cbn [split]. by rewrite Hc, (IH Ha).
Qed.

Lemma scheme_header_token scheme rest req :
  no_space scheme = true ->
  header_token (with_authorization (scheme +:+ " " +:+ rest) req)
  = head (split " " rest).
Proof.
  intros Hs. unfold header_token, with_authorization.
  cbn [authorization mbind option_bind].
  rewrite (split_no_space _ _ Hs). by destruct (split " " rest).
Qed.

Lemma scheme_header_nonempty scheme rest : scheme +:+ " " +:+ rest <> "".
Proof. by destruct scheme. Qed.

(** *** Routing *)

(** X14. Requests are routed by method: the signup, login and upload
    handlers are reached only by POST; static files, /auth/me, the history,
    the root and the health endpoint only by GET or HEAD (Express runs a
    [get] handler for HEAD as well); so a PUT, PATCH or DELETE reaches no
    handler but the final 404, whatever the path. *)
Theorem dispatch_by_method (m : Method) (path : string) :
  match dispatch m path with
  | AuthSignup | AuthLogin | UploadPredict => m = POST
  | Static | AuthMe | UploadHistory | Root | Health => m = GET \/ m = HEAD
  | NotFound => True
  end /\
  (In m [PUT; PATCH; DELETE] -> dispatch m path = NotFound) /\
  dispatch HEAD path = dispatch GET path.
Proof.
  unfold dispatch, auth_router, upload_router.
  split; [|split; [|reflexivity]].
  - destruct m; cbn;
      destruct (mounted "/uploads" path);
      destruct (mounted "/auth" path); cbn;
      destruct (mounted "/upload" path); cbn;
      repeat (match goal with
              | |- context [if ?b then _ else _] => destruct b; cbn
              end); auto.
  - cbn [In]. intros [<- | [<- | [<- | []]]]; cbn;
      destruct (mounted "/auth" path); cbn;
      destruct (mounted "/upload" path); reflexivity.
Qed.

(** *** The two verifiers, GET /auth/me and GET /upload/history *)

Section Verifiers.

Variable jwt_verify : string -> string -> Result JwtPayload.
Variable castObjectId : string -> Result string.

Local Abbreviation findById := (findById castObjectId).
Local Abbreviation authMiddleware := (authMiddleware jwt_verify castObjectId).
Local Abbreviation get_history := (get_history jwt_verify castObjectId).
Local Abbreviation get_me := (get_me jwt_verify castObjectId).
Local Abbreviation authMiddleware_v1 := (authMiddleware_v1 jwt_verify).

Lemma authMiddleware_passed env w req user :
  authMiddleware env w req = AuthNext user ->
  exists tok decoded key,
    header_token req = Some tok /\ tok <> "" /\
    jwt_verify tok (or_else (process_env env !! "JWT_SECRET")
                            "your-secret-key-change-this") = Ok decoded /\
    castObjectId (p_userId decoded) = Ok key /\
    find_error env = None /\
    users w !! key = Some user.
Proof.
  unfold authMiddleware, header_token.
  destruct (authorization req) as [h|]; [|discriminate]. cbn.
  destruct (String.eqb h ""); [discriminate|].
  destruct (split " " h !! 1%nat) as [tok|]; [|discriminate]. cbn.
  destruct (String.eqb_spec tok "") as [|Hne]; [discriminate|]. cbn.
  destruct (jwt_verify _ _) as [decoded|err] eqn:Hv; [|discriminate].
  unfold findById, User.findById.
  destruct (castObjectId (p_userId decoded)) as [key|err] eqn:Hc;
    [|discriminate].
  destruct (find_error env) eqn:Hf; [discriminate|].
  destruct (users w !! key) as [u|] eqn:Hu; [|discriminate].
  intros [= <-]. exists tok, decoded, key. auto 10.
Qed.

Lemma authMiddleware_users env w w' req :
  users w' = users w -> authMiddleware env w' req = authMiddleware env w req.
Proof.
  intros Hu. unfold authMiddleware, findById. by rewrite Hu.
Qed.

Lemma authMiddleware_by_token env w req h :
  authorization req = Some h -> h <> "" ->
  authMiddleware env w req =
    if negb (truthy (header_token req)) then
      AuthRespond (mkResponse 401 (fail_body "Invalid token format"))
    else
      match jwt_verify (default "" (header_token req))
              (or_else (process_env env !! "JWT_SECRET")
                       "your-secret-key-change-this") with
      | Throw _ =>
          AuthRespond (mkResponse 403 (fail_body "Token invalid or expired"))
      | Ok decoded =>
          match findById env w (p_userId decoded) with
          | Throw _ =>
              AuthRespond
                (mkResponse 403 (fail_body "Token invalid or expired"))
          | Ok None => AuthRespond (mkResponse 404 (fail_body "User not found"))
          | Ok (Some user) => AuthNext user
          end
      end.
Proof.
  intros Hh Hne. unfold authMiddleware, header_token. rewrite Hh. cbn.
  by destruct (String.eqb_spec h "").
Qed.

(** X7. When GET /upload/history answers with documents, they are
    exactly the caller's records (each as often as it is stored, and no
    record of another user), ordered from the most recent timestamp to the
    oldest. *)
Theorem history_is_callers_records_newest_first qe env w req found :
  get_history qe env w req = HistoryOk found ->
  exists user,
    authMiddleware env w req = AuthNext user /\
    found ≡ₚ find_by_user (uploads w) (User._id user) /\
    (forall d, d ∈ found <->
               d ∈ uploads w /\ Upload.userId d = User._id user) /\
    StronglySorted newer_first found.
Proof.
  unfold get_history.
  destruct (authMiddleware env w req) as [r|user]; [discriminate|].
  destruct qe as [err|]; [discriminate|]. intros [= <-].
  exists user. split; [reflexivity|]. split; [apply sort_desc_perm|].
  split; [|apply sort_desc_sorted].
  intros d. rewrite sort_desc_perm. apply elem_of_find_by_user.
Qed.


(** X12. routes/auth.js verifies with the secret it fixed when it was
    loaded, the middleware with the one it reads from [process.env] on each
    request.  When the two are the same secret, GET /auth/me decides like
    the middleware of the protected routes: where the middleware passes a
    user on, /auth/me answers 200 with that user's JSON form; where the
    middleware answers 401 or 404, so does /auth/me; and where the
    middleware answers 403 (the token fails verification, or the lookup
    throws), /auth/me answers 401. *)
Theorem me_decides_like_middleware env w req :
  auth_JWT_SECRET env = request_secret env ->
  match authMiddleware env w req with
  | AuthNext user => get_me env w req = mkResponse 200 (me_body user)
  | AuthRespond r =>
      status (get_me env w req)
      = if (status r =? 403)%Z then 401%Z else status r
  end.
Proof.
  intros Hsecret. unfold authMiddleware, get_me, header_token.
  rewrite Hsecret. unfold request_secret.
  destruct (authorization req) as [h|]; cbn; [|reflexivity].
  destruct (String.eqb_spec h "") as [->|Hne]; [reflexivity|].
  destruct (negb (truthy (split " " h !! 1%nat))); [reflexivity|].
  destruct (jwt_verify _ _) as [decoded|err]; [|reflexivity].
  destruct (findById env w _) as [[user|]|err]; reflexivity.
Qed.

(** X13. The middleware never looks at the scheme of the Authorization
    header nor at anything after the token: for a scheme and a token without
    spaces, "<scheme> <token>" and "<scheme> <token> <anything>" are treated
    exactly like "Bearer <token>". *)
Theorem scheme_and_trailer_ignored env w req scheme tok trailer :
  no_space scheme = true -> no_space tok = true ->
  authMiddleware env w (with_authorization (scheme +:+ " " +:+ tok) req)
  = authMiddleware env w (with_authorization ("Bearer " +:+ tok) req) /\
  authMiddleware env w
    (with_authorization (scheme +:+ " " +:+ tok +:+ " " +:+ trailer) req)
  = authMiddleware env w (with_authorization ("Bearer " +:+ tok) req).
Proof.
  intros Hs Ht.
  change ("Bearer " +:+ tok) with ("Bearer" +:+ " " +:+ tok).
  assert (Hbearer :
    header_token (with_authorization ("Bearer" +:+ " " +:+ tok) req)
    = Some tok).
  { rewrite (scheme_header_token "Bearer" tok req eq_refl).
    by rewrite (split_single _ Ht). }
  rewrite (authMiddleware_by_token env w
             (with_authorization ("Bearer" +:+ " " +:+ tok) req) _ eq_refl
             (scheme_header_nonempty "Bearer" tok)), Hbearer.
  split.
  - rewrite (authMiddleware_by_token env w
               (with_authorization (scheme +:+ " " +:+ tok) req) _ eq_refl
               (scheme_header_nonempty scheme tok)).
    rewrite (scheme_header_token scheme tok req Hs).
    by rewrite (split_single _ Ht).
  - rewrite (authMiddleware_by_token env w
               (with_authorization
                  (scheme +:+ " " +:+ tok +:+ " " +:+ trailer) req) _ eq_refl
               (scheme_header_nonempty scheme (tok +:+ " " +:+ trailer))).
    rewrite (scheme_header_token scheme _ req Hs).
    by rewrite (split_no_space _ _ Ht).
Qed.

(** X15. When JWT_SECRET is set, the first version of the middleware
    accepts every request the second accepts, and the payload it keeps
    names the user the second one loads. *)
Theorem v1_accepts_what_v2_accepts env w req user :
  truthy (process_env env !! "JWT_SECRET") = true ->
  authMiddleware env w req = AuthNext user ->
  exists decoded key,
    authMiddleware_v1 env req = Auth1Next decoded /\
    castObjectId (p_userId decoded) = Ok key /\
    users w !! key = Some user.
Proof.
  intros Hsecret Hauth.
  assert (Hsame : or_else (process_env env !! "JWT_SECRET") "secret123"
                  = or_else (process_env env !! "JWT_SECRET")
                            "your-secret-key-change-this").
  { destruct (process_env env !! "JWT_SECRET") as [s|]; [|discriminate].
    cbn in *. by destruct (String.eqb s ""). }
  revert Hauth. unfold authMiddleware, authMiddleware_v1.
  destruct (authorization req) as [h|]; [|discriminate].
  destruct (String.eqb h ""); [discriminate|].
  destruct (negb _); [discriminate|].
  rewrite Hsame.
  destruct (jwt_verify _ _) as [decoded|err]; [|discriminate].
  unfold findById, User.findById.
  destruct (castObjectId (p_userId decoded)) as [key|err] eqn:Hc;
    [|discriminate].
  destruct (find_error env); [discriminate|].
  destruct (users w !! key) as [u|] eqn:Hu; [|discriminate].
  intros [= <-]. by exists decoded, key.
Qed.

End Verifiers.

(** *** What one POST /upload does to disk and store *)

Section UploadFlow.

Variable jwt_verify : string -> string -> Result JwtPayload.
Variable castObjectId : string -> Result string.
Variable path_extname : string -> string.

Local Abbreviation findById := (findById castObjectId).
Local Abbreviation authMiddleware := (authMiddleware jwt_verify castObjectId).
Local Abbreviation upload_single := (upload_single path_extname).
Local Abbreviation stored_file :=
  (stored_file jwt_verify castObjectId path_extname).
Local Abbreviation post_upload :=
  (post_upload jwt_verify castObjectId path_extname).
Local Abbreviation flow_path := (flow_path path_extname).
Local Abbreviation get_history := (get_history jwt_verify castObjectId).


Lemma upload_single_world env w req :
  match upload_single env w req with
  | MulterNext (Some f) w1 =>
      flow_path env req = Some (f_path f) /\
      f_path f = uploadDir +:+ "/" +:+ f_filename f /\
      fs w1 = fs w ∪ {[f_path f]} /\
      uploads w1 = uploads w /\ users w1 = users w /\
      exists part, file_part req = Some part /\
        f_size f = size part /\ f_mimetype f = mimetype part /\
        startsWith "image/" (mimetype part) = true /\
        (size part <= fileSize)%Z
  | MulterNext None w1 => w1 = w
  | MulterError e w1 =>
      uploads w1 = uploads w /\ users w1 = users w /\
      (fs w1 = fs w \/
       exists path, flow_path env req = Some path /\ fs w1 = fs w ∖ {[path]})
  end.
Proof.
  unfold upload_single, flow_path, fileFilter.
  destruct (file_part req) as [part|]; [|reflexivity].
  destruct (startsWith "image/" (mimetype part)) eqn:Hmime.
  - destruct (Z.ltb_spec fileSize (size part)) as [Hbig|Hok]; cbn.
    + split; [reflexivity|]. split; [reflexivity|]. right.
      eexists. split; [reflexivity|].
      apply set_eq. intros x.
      rewrite !elem_of_difference, elem_of_union. tauto.
    + repeat (split; [reflexivity|]).
      exists part. repeat (split; [reflexivity|]). auto.
  - cbn. auto.
Qed.

Lemma on_error_fs w f e :
  fs (on_error w (Some f) e).2 = fs w ∖ {[f_path f]}.
Proof.
  unfold on_error, existsSync, unlinkSync.
  destruct (bool_decide (code e = Some "ECONNREFUSED"));
    case_bool_decide as Hin; cbn; try reflexivity;
    apply set_eq; intros x; rewrite elem_of_difference, elem_of_singleton;
    (split; [intros Hx; split; [exact Hx|congruence]|tauto]).
Qed.

Lemma on_error_users w file e : users (on_error w file e).2 = users w.
Proof.
  unfold on_error, existsSync, unlinkSync.
  destruct (bool_decide (code e = Some "ECONNREFUSED"));
    destruct file as [f|]; try case_bool_decide; reflexivity.
Qed.

(** The world after the route, in full: either the flow is accepted and
    exactly one record and one file are added, or nothing is added and at
    most the flow's own path is removed. *)
Lemma post_upload_world env w req :
  let r := post_upload (error_handler env) env w req in
  users r.2 = users w /\
  ((exists user f p label,
      authMiddleware env w req = AuthNext user /\
      upload_single env w req
      = MulterNext (Some f) (set_fs (fs w ∪ {[f_path f]}) w) /\
      flow_path env req = Some (f_path f) /\
      classifier env = Ok p /\ p_label p = Some label /\
      let d := uploadRecord env user f p label (enrich env label) in
      Upload.validate d = true /\
      status r.1 = 200%Z /\
      uploads r.2 = uploads w ++ [d] /\
      fs r.2 = fs w ∪ {[f_path f]}) \/
   (status r.1 <> 200%Z /\ uploads r.2 = uploads w /\
    (fs r.2 = fs w \/
     exists path, flow_path env req = Some path /\ fs r.2 = fs w ∖ {[path]}))).
Proof.
  unfold post_upload. cbn zeta.
  destruct (authMiddleware env w req) as [resp|user] eqn:Hauth.
  { cbn. split; [reflexivity|]. right. split; [|auto].
    apply authMiddleware_failure_status in Hauth.
    destruct Hauth as [H|[H|H]]; rewrite H; discriminate. }
  pose proof (upload_single_world env w req) as Hw.
  destruct (upload_single env w req) as [err w1|[f|] w1] eqn:Hup.
  - destruct Hw as (Hu & Hus & Hfs). cbn [fst snd].
    split; [exact Hus|]. right.
    rewrite (error_handler_multer _ _ _ _ _ _ Hup).
    split; [discriminate|]. split; [exact Hu|exact Hfs].
  - destruct Hw as (Hflow & Hpath & Hfs & Hu & Hus & _).
    destruct (post_upload_handler_outcome env w1 user f)
      as [p label Hclass Hlabel Hins Hvalid ->|e -> Hwhy].
    + cbn. split; [exact Hus|]. left.
      exists user, f, p, label. rewrite Hu.
      assert (w1 = set_fs (fs w ∪ {[f_path f]}) w) as Hw1.
      { destruct w1. cbn in *. unfold set_fs. congruence. }
      rewrite <- Hw1. auto 12.
    + split; [by rewrite on_error_users|]. right.
      destruct (on_error_world w1 f e) as [Hsame _].
      split; [apply on_error_not_200|]. split; [congruence|].
      right. exists (f_path f). split; [exact Hflow|].
      rewrite on_error_fs, Hfs. apply set_eq. intros x.
      rewrite !elem_of_difference, elem_of_union. tauto.
  - subst w1. cbn. split; [reflexivity|]. right.
    split; [discriminate|]. auto.
Qed.


(** X1. POST /upload touches no path but the one multer writes to in
    this flow: every other path is on disk afterwards exactly when it was
    before. *)
Theorem upload_touches_only_its_path env w req path :
  flow_path env req <> Some path ->
  let r := post_upload (error_handler env) env w req in
  path ∈ fs r.2 <-> path ∈ fs w.
Proof.
  intros Hother r.
  destruct (post_upload_world env w req) as [_ [Hacc|(_ & _ & Hfs)]];
    fold r in Hacc || fold r in Hfs.
  - destruct Hacc as (user & f & p & label & _ & _ & Hflow & _ & _ & _ & _
                      & _ & ->).
    rewrite elem_of_union, elem_of_singleton.
    split; [intros [H|H]; [exact H|]|tauto]. congruence.
  - destruct Hfs as [-> | (q & Hflow & ->)]; [reflexivity|].
    rewrite elem_of_difference, elem_of_singleton.
    split; [tauto|]. intros H. split; [exact H|congruence].
Qed.

(** X2. POST /upload never changes the users collection, and it leaves
    the records already stored in place and in order: the uploads collection
    afterwards is the old one, or the old one followed by one new record
    whose [_id] and [timestamp] are the fresh values of this flow. *)
Theorem upload_store_append_only env w req :
  let r := post_upload (error_handler env) env w req in
  users r.2 = users w /\
  (uploads r.2 = uploads w \/
   exists d, uploads r.2 = uploads w ++ [d] /\
             Upload._id d = new_id env /\ Upload.timestamp d = new_date env).
Proof.
  intros r.
  destruct (post_upload_world env w req) as [Hus [Hacc|(_ & Hu & _)]];
    fold r in Hus; fold r in Hacc || fold r in Hu.
  - split; [exact Hus|]. right.
    destruct Hacc as (user & f & p & label & _ & _ & _ & _ & _ & _ & _
                      & Hup & _).
    eexists. split; [exact Hup|]. split; reflexivity.
  - split; [exact Hus|]. by left.
Qed.

(** X3. The record saved by an accepted upload belongs to the caller and
    describes the stored file: its [userId] is the [_id] of the user the
    token's subject resolves to, its [imageURL] is "/uploads/" followed by
    its [filename], the file of that name exists under the upload directory
    afterwards, and its size and MIME type are those of the part sent, an
    image of at most 10 MiB. *)
Theorem accepted_record_describes_upload env w req :
  status (post_upload (error_handler env) env w req).1 = 200%Z ->
  let r := post_upload (error_handler env) env w req in
  exists tok decoded key user part d,
    header_token req = Some tok /\
    jwt_verify tok (or_else (process_env env !! "JWT_SECRET")
                            "your-secret-key-change-this") = Ok decoded /\
    castObjectId (p_userId decoded) = Ok key /\
    users w !! key = Some user /\
    file_part req = Some part /\
    uploads r.2 = uploads w ++ [d] /\
    Upload.userId d = User._id user /\
    Upload.imageURL d = "/uploads/" +:+ Upload.filename d /\
    record_path d ∈ fs r.2 /\
    flow_path env req = Some (record_path d) /\
    Upload.imageSize d = size part /\
    Upload.mimeType d = mimetype part /\
    startsWith "image/" (Upload.mimeType d) = true /\
    (Upload.imageSize d <= 10485760)%Z.
Proof.
  intros H200 r.
  destruct (post_upload_world env w req) as [_ [Hacc|(Hne & _)]];
    [|contradiction].
  fold r in Hacc.
  destruct Hacc as (user & f & p & label & Hauth & Hup & Hflow & _ & _ & _
                    & _ & Hu & Hfs).
  destruct (authMiddleware_passed jwt_verify castObjectId env w req user Hauth)
    as (tok & decoded & key & Htok & _ & Hv & Hcast & _ & Huser).
  pose proof (upload_single_world env w req) as Hw. rewrite Hup in Hw.
  destruct Hw as (_ & Hpath & _ & _ & _ & part & Hpart & Hsize & Hmime
                  & Himg & Hle).
  exists tok, decoded, key, user, part,
    (uploadRecord env user f p label (enrich env label)).
  unfold record_path. cbn [uploadRecord Upload.userId Upload.imageURL
    Upload.filename Upload.imageSize Upload.mimeType].
  rewrite <- Hpath, Hfs, Hsize, Hmime.
  repeat (split; [done|]).
  split; [rewrite elem_of_union, elem_of_singleton; by right|].
  repeat (split; [done|]). exact Hle.
Qed.

(** X4. POST /upload creates no orphan: a file that is on disk without
    a record after the flow was on disk without a record before it. *)
Theorem upload_creates_no_orphan env w req path :
  let r := post_upload (error_handler env) env w req in
  orphan r.2 path -> orphan w path.
Proof.
  intros r [Hin Hnone].
  destruct (post_upload_world env w req) as [_ [Hacc|(_ & Hu & Hfs)]];
    fold r in Hacc || fold r in Hu, Hfs.
  - destruct Hacc as (user & f & p & label & _ & Hup & _ & _ & _ & _ & _
                      & Hrec & Hfs).
    pose proof (upload_single_world env w req) as Hw. rewrite Hup in Hw.
    destruct Hw as (_ & Hpath & _).
    rewrite Hfs, elem_of_union, elem_of_singleton in Hin.
    destruct Hin as [Hin | ->].
    + split; [exact Hin|]. intros (d & Hd & Hp). apply Hnone.
      exists d. split; [|exact Hp]. rewrite Hrec, elem_of_app. by left.
    + exfalso. apply Hnone. eexists. split.
      * rewrite Hrec, elem_of_app, list_elem_of_singleton. by right.
      * unfold record_path. by rewrite Hpath.
  - assert (path ∈ fs w) as Hw.
    { destruct Hfs as [Hfs|(q & _ & Hfs)]; rewrite Hfs in Hin; [exact Hin|].
      by apply elem_of_difference in Hin as [Hin _]. }
    split; [exact Hw|]. by rewrite <- Hu.
Qed.

(** X5. When the file name generated for the flow is not yet in use,
    POST /upload keeps the images of all records on disk: if every stored
    record's image exists before, every stored record's image exists
    after. *)
Theorem upload_keeps_images env w req :
  images_present w ->
  (forall path, flow_path env req = Some path -> path ∉ fs w) ->
  images_present (post_upload (error_handler env) env w req).2.
Proof.
  intros Himg Hfresh d Hd.
  destruct (post_upload_world env w req) as [_ [Hacc|(_ & Hu & Hfs)]].
  - destruct Hacc as (user & f & p & label & _ & Hup & _ & _ & _ & _ & _
                      & Hrec & Hfs).
    pose proof (upload_single_world env w req) as Hw. rewrite Hup in Hw.
    destruct Hw as (_ & Hpath & _).
    rewrite Hfs, elem_of_union, elem_of_singleton.
    rewrite Hrec, elem_of_app, list_elem_of_singleton in Hd.
    destruct Hd as [Hd| ->]; [left; by apply Himg|].
    right. unfold record_path. by rewrite Hpath.
  - rewrite Hu in Hd. apply Himg in Hd.
    destruct Hfs as [-> | (q & Hflow & ->)]; [exact Hd|].
    rewrite elem_of_difference, elem_of_singleton. split; [exact Hd|].
    intros Heq. apply (Hfresh _ Hflow). by rewrite <- Heq.
Qed.

(** X6. POST /upload keeps the uploads collection schema-valid: if
    every stored record passes the schema before, every stored record
    passes it after. *)
Theorem upload_keeps_records_valid env w req :
  all_valid w -> all_valid (post_upload (error_handler env) env w req).2.
Proof.
  intros Hvalid d Hd.
  destruct (post_upload_world env w req) as [_ [Hacc|(_ & Hu & _)]].
  - destruct Hacc as (user & f & p & label & _ & _ & _ & _ & _ & Hv & _
                      & Hrec & _).
    rewrite Hrec, elem_of_app, list_elem_of_singleton in Hd.
    destruct Hd as [Hd| ->]; [by apply Hvalid|exact Hv].
  - rewrite Hu in Hd. by apply Hvalid.
Qed.

(** X8. After an accepted upload, the record it saved is in the history
    the same caller gets next. *)
Theorem accepted_upload_appears_in_history env w req :
  status (post_upload (error_handler env) env w req).1 = 200%Z ->
  let w' := (post_upload (error_handler env) env w req).2 in
  exists d found,
    uploads w' = uploads w ++ [d] /\
    get_history None env w' req = HistoryOk found /\
    d ∈ found.
Proof.
  intros H200 w'.
  destruct (post_upload_world env w req) as [Hus [Hacc|(Hne & _)]];
    [|contradiction].
  fold w' in Hus, Hacc.
  destruct Hacc as (user & f & p & label & Hauth & _ & _ & _ & _ & _ & _
                    & Hrec & _).
  eexists _, _. split; [exact Hrec|].
  unfold get_history.
  rewrite (authMiddleware_users jwt_verify castObjectId env w w' req Hus),
    Hauth.
  split; [reflexivity|].
  rewrite sort_desc_perm. apply elem_of_find_by_user.
  split; [|reflexivity].
  rewrite Hrec, elem_of_app, list_elem_of_singleton. by right.
Qed.

(** X9. An upload shows up in no one else's history: whatever a POST
    /upload does, a history request that resolves (before the upload) to a
    user other than the uploader gets the same answer after it as before. *)
Theorem upload_leaves_other_histories env w req qe env2 req2 uploader other :
  authMiddleware env w req = AuthNext uploader ->
  authMiddleware env2 w req2 = AuthNext other ->
  User._id other <> User._id uploader ->
  let w' := (post_upload (error_handler env) env w req).2 in
  get_history qe env2 w' req2 = get_history qe env2 w req2.
Proof.
  intros Hup Hother Hne w'.
  destruct (post_upload_world env w req) as [Hus [Hacc|(_ & Hu & _)]];
    fold w' in Hus; fold w' in Hacc || fold w' in Hu.
  - destruct Hacc as (user & f & p & label & Hauth & _ & _ & _ & _ & _ & _
                      & Hrec & _).
    assert (user = uploader) as -> by congruence.
    unfold get_history.
    rewrite (authMiddleware_users jwt_verify castObjectId env2 w w' req2 Hus),
      Hother.
    destruct qe; [reflexivity|]. f_equal. f_equal.
    rewrite Hrec. unfold find_by_user. rewrite filter_app. cbn.
    destruct (String.eqb_spec (User._id uploader) (User._id other));
      [congruence|].
    by rewrite app_nil_r.
  - unfold get_history.
    rewrite (authMiddleware_users jwt_verify castObjectId env2 w w' req2 Hus).
    by rewrite Hu.
Qed.

End UploadFlow.


(** ** The patterns of the user schema *)

Section Patterns.
Import Re.

Lemma lang_empty_cat r1 r2 : lang (Cat r1 r2) "" -> lang r1 "" /\ lang r2 "".
Proof.
  inversion 1 as [| |? ? s1 s2 H1 H2 Heq| | | |]; subst.
  destruct s1; [|discriminate]. destruct s2; [|discriminate]. done.
Qed.

Lemma nullable_spec r : nullable r = true <-> lang r "".
Proof.
  induction r as [| |p|r1 IH1 r2 IH2|r1 IH1 r2 IH2|r IH]; cbn.
  - split; [discriminate|inversion 1].
  - split; [constructor|done].
  - split; [discriminate|inversion 1].
  - rewrite andb_true_iff, IH1, IH2. split.
    + intros [H1 H2]. by apply (lang_cat r1 r2 "" "").
    + apply lang_empty_cat.
  - rewrite orb_true_iff, IH1, IH2. split.
    + intros [H|H]; [by apply lang_alt_l|by apply lang_alt_r].
    + inversion 1; subst; auto.
  - split; [constructor|done].
Qed.

Lemma star_cons_inv r c s :
  lang (Star r) (String c s) ->
  exists s1 s2,
    s = s1 +:+ s2 /\ lang r (String c s1) /\ lang (Star r) s2.
Proof.
  intros H. remember (Star r) as r' eqn:Hr. remember (String c s) as t eqn:Ht.
  revert s Ht. induction H as [| | | | | |r0 s1 s2 H1 _ H2 IH2];
    try discriminate; intros s Ht.
  injection Hr as ->. destruct s1 as [|c1 s1].
  - cbn in Ht. by apply IH2.
  - cbn in Ht. injection Ht as -> <-. eauto.
Qed.

Lemma deriv_spec c r s : lang (deriv c r) s <-> lang r (String c s).
Proof.
  revert s. induction r as [| |p|r1 IH1 r2 IH2|r1 IH1 r2 IH2|r IH];
    intros s; cbn [deriv].
  - split; inversion 1.
  - split; inversion 1.
  - destruct (p c) eqn:Hp; split; inversion 1; subst.
    + by constructor.
    + constructor.
    + congruence.
  - assert (Hleft : forall s, lang (Cat (deriv c r1) r2) s ->
                              lang (Cat r1 r2) (String c s)).
    { intros s'. inversion 1 as [| |? ? s1 s2 H1 H2| | | |]; subst.
      apply IH1 in H1. by apply (lang_cat r1 r2 (String c s1) s2). }
    assert (Hback : forall s, lang (Cat r1 r2) (String c s) ->
              lang (Cat (deriv c r1) r2) s \/
              (lang r1 "" /\ lang (deriv c r2) s)).
    { intros s'. inversion 1 as [| |? ? s1 s2 H1 H2| | | |]; subst.
      destruct s1 as [|c1 s1].
      - match goal with
        | E : "" +:+ s2 = _ |- _ => change (s2 = String c s') in E; subst s2
        end.
        right. split; [exact H1|by apply IH2].
      - match goal with
        | E : String c1 s1 +:+ s2 = _ |- _ =>
            change (String c1 (s1 +:+ s2) = String c s') in E;
            injection E as -> <-
        end.
        left. constructor; [by apply IH1|exact H2]. }
    destruct (nullable r1) eqn:Hn.
    + split.
      * inversion 1; subst; [by apply Hleft|].
        apply (lang_cat r1 r2 "" (String c s)); [by apply nullable_spec|].
        by apply IH2.
      * intros H. destruct (Hback s H) as [H1|[_ H2]];
          [by apply lang_alt_l|by apply lang_alt_r].
    + split; [apply Hleft|].
      intros H. destruct (Hback s H) as [H1|[H1 _]]; [exact H1|].
      apply nullable_spec in H1. congruence.
  - split.
    + inversion 1; subst; [apply lang_alt_l|apply lang_alt_r];
        by (apply IH1 || apply IH2).
    + inversion 1; subst; [apply lang_alt_l|apply lang_alt_r];
        by (apply IH1 || apply IH2).
  - split.
    + inversion 1 as [| |? ? s1 s2 H1 H2| | | |]; subst.
      apply (lang_star_cons r (String c s1) s2); [by apply IH|exact H2].
    + intros (s1 & s2 & -> & H1 & H2)%star_cons_inv.
      constructor; [by apply IH|exact H2].
Qed.

(** The matcher decides membership in the pattern's language. *)
Lemma test_spec r s : test r s = true <-> lang r s.
Proof.
  revert r. induction s as [|c s IH]; intros r; cbn.
  - apply nullable_spec.
  - rewrite IH. apply deriv_spec.
Qed.


Lemma all_chars_app p s1 s2 :
  all_chars p (s1 +:+ s2) = all_chars p s1 && all_chars p s2.
Proof.
  induction s1 as [|c s1 IH]; [reflexivity|].
  change (String c s1 +:+ s2) with (String c (s1 +:+ s2)). cbn [all_chars].
  by rewrite IH, andb_assoc.
Qed.

Lemma all_chars_impl (p q : ascii -> bool) s :
  (forall c, p c = true -> q c = true) ->
  all_chars p s = true -> all_chars q s = true.
Proof.
  intros Hpq. induction s as [|c s IH]; [done|]. cbn.
  rewrite !andb_true_iff. intros [Hc Hs]. auto.
Qed.

Lemma length_app_string s1 s2 :
  String.length (s1 +:+ s2) = String.length s1 + String.length s2.
Proof.
  induction s1 as [|c s1 IH]; [reflexivity|].
  change (String c s1 +:+ s2) with (String c (s1 +:+ s2)). cbn. by rewrite IH.
Qed.

Lemma lang_alphabet r s : lang r s -> all_chars (alphabet r) s = true.
Proof.
  induction 1 as [|p c Hp|r1 r2 s1 s2 _ IH1 _ IH2|r1 r2 s _ IH|r1 r2 s _ IH
                 |r|r s1 s2 _ IH1 _ IH2]; cbn [alphabet].
  - reflexivity.
  - cbn. by rewrite Hp.
  - rewrite all_chars_app, andb_true_iff. split.
    + eapply all_chars_impl; [|exact IH1]. intros c ->. reflexivity.
    + eapply all_chars_impl; [|exact IH2]. intros c ->. apply orb_true_r.
  - eapply all_chars_impl; [|exact IH]. intros c ->. reflexivity.
  - eapply all_chars_impl; [|exact IH]. intros c ->. apply orb_true_r.
  - reflexivity.
  - rewrite all_chars_app, andb_true_iff. split; [exact IH1|exact IH2].
Qed.

Lemma lang_times p n s :
  lang (times n (Chr p)) s <-> String.length s = n /\ all_chars p s = true.
Proof.
  revert s. induction n as [|n IH]; intros s; cbn [times].
  - split.
    + inversion 1. done.
    + intros [Hlen _]. destruct s; [constructor|discriminate].
  - split.
    + inversion 1 as [| |? ? s1 s2 H1 H2| | | |]; subst.
      inversion H1 as [|? c Hc| | | | |]; subst.
      apply IH in H2 as [<- Hall].
      change (String c "" +:+ s2) with (String c s2).
      cbn [String.length all_chars]. by rewrite Hc, Hall.
    + destruct s as [|c s]; [intros [? _]; discriminate|].
      cbn. rewrite andb_true_iff. intros [[= Hlen] [Hc Hall]].
      apply (lang_cat (Chr p) _ (String c "") s); [by constructor|].
      by apply IH.
Qed.

(** The last round of a repetition. *)
Lemma star_last r s :
  lang (Star r) s ->
  s = "" \/ exists front last, s = front +:+ last /\ lang r last.
Proof.
  intros H. remember (Star r) as r' eqn:Hr.
  induction H as [| | | | | |r0 s1 s2 H1 _ H2 IH2]; try discriminate;
    [by left|].
  injection Hr as ->. right.
  destruct (IH2 eq_refl) as [->|(front & last & -> & Hlast)].
  - exists "", s1. split; [|exact H1].
    clear. induction s1 as [|c s1 IH]; [reflexivity|].
    change (String c s1 +:+ "") with (String c (s1 +:+ "")). by rewrite IH.
  - exists (s1 +:+ front), last. split; [|exact Hlast].
    clear. induction s1 as [|c s1 IH]; [reflexivity|].
    change (String c s1 +:+ front +:+ last)
      with (String c (s1 +:+ front +:+ last)).
    change ((String c s1 +:+ front) +:+ last)
      with (String c ((s1 +:+ front) +:+ last)).
    by rewrite IH.
Qed.

Lemma append_assoc (a b c : string) : (a +:+ b) +:+ c = a +:+ b +:+ c.
Proof.
  induction a as [|x a IH]; [reflexivity|].
  change ((String x a +:+ b) +:+ c) with (String x ((a +:+ b) +:+ c)).
  change (String x a +:+ b +:+ c) with (String x (a +:+ b +:+ c)).
  by rewrite IH.
Qed.

Lemma plus_last r s :
  lang (plus r) s -> exists front last, s = front +:+ last /\ lang r last.
Proof.
  unfold plus. inversion 1 as [| |? ? s1 s2 H1 H2| | | |]; subst.
  destruct (star_last r s2 H2) as [->|(front & last & -> & Hlast)].
  - exists "", s1. split; [|exact H1].
    clear. induction s1 as [|c s1 IH]; [reflexivity|].
    change (String c s1 +:+ "") with (String c (s1 +:+ "")). by rewrite IH.
  - exists (s1 +:+ front), last. split; [|exact Hlast].
    by rewrite append_assoc.
Qed.


Lemma plus_nonempty p s : lang (plus (Chr p)) s -> s <> "".
Proof.
  unfold plus. inversion 1 as [| |? ? s1 s2 H1 H2| | | |]; subst.
  inversion H1; subst. discriminate.
Qed.

Lemma append_nonempty_l (a b : string) : a <> "" -> a +:+ b <> "".
Proof. destruct a; [done|discriminate]. Qed.

Lemma lang_address (r : re) (s : string) :
  (forall c, alphabet r c = true -> is_address_char c = true) ->
  lang r s -> all_chars is_address_char s = true.
Proof.
  intros Hsub Hs. eapply all_chars_impl; [exact Hsub|]. by apply lang_alphabet.
Qed.

Lemma lang_tld s :
  lang (Cat word (Cat word (opt word))) s ->
  all_chars is_word s = true /\ 2 <= String.length s <= 3.
Proof.
  intros H. split.
  - eapply all_chars_impl; [|exact (lang_alphabet _ _ H)].
    intros c. cbn. by destruct (is_word c).
  - inversion H as [| |? ? s1 s2 Hw1 Hrest| | | |]; subst.
    inversion Hw1; subst.
    inversion Hrest as [| |? ? s3 s4 Hw2 Hopt| | | |]; subst.
    inversion Hw2; subst.
    inversion Hopt as [| | |? ? ? Hw3|? ? ? Hw3| |]; subst;
      inversion Hw3; subst; rewrite !length_app_string; cbn; lia.
Qed.

(** X16. The phone validator of the user schema accepts exactly the
    strings of ten decimal digits. *)
Theorem phone_valid_iff_ten_digits (u : User.t) :
  UserSchema.phone_valid u = true <->
  String.length (User.phone u) = 10 /\ all_chars is_digit (User.phone u) = true.
Proof.
  unfold UserSchema.phone_valid, UserSchema.required, UserSchema.matches.
  rewrite <- (lang_times is_digit 10), <- test_spec. fold phone.
  destruct (String.eqb_spec (User.phone u) "") as [->|Hne]; cbn.
  - split; [discriminate|]. by vm_compute.
  - reflexivity.
Qed.

(** X17. An address the email validator of the user schema accepts has
    the form local@domain.tld: the local part and the domain are not empty
    and consist of letters, digits, underscores, dots and dashes, and the
    last label has two or three letters, digits or underscores. *)
Theorem email_valid_shape (u : User.t) :
  UserSchema.email_valid u = true ->
  exists local domain tld,
    User.email u = local +:+ "@" +:+ domain +:+ "." +:+ tld /\
    local <> "" /\ domain <> "" /\
    all_chars is_address_char local = true /\
    all_chars is_address_char domain = true /\
    all_chars is_word tld = true /\
    2 <= String.length tld <= 3.
Proof.
  unfold UserSchema.email_valid, UserSchema.required, UserSchema.matches.
  destruct (String.eqb_spec (User.email u) "") as [->|Hne]; [discriminate|].
  cbn. rewrite test_spec. generalize (User.email u). clear. intros s.
  unfold email.
  inversion 1 as [| |? ? a s1 Ha H1| | | |]; subst.
  inversion H1 as [| |? ? b s2 Hb H2| | | |]; subst.
  inversion H2 as [| |? ? at_ s3 Hat H3| | | |]; subst.
  inversion H3 as [| |? ? c s4 Hc H4| | | |]; subst.
  inversion H4 as [| |? ? d e Hd He| | | |]; subst.
  inversion Hat as [|? x Hx| | | | |]; subst.
  apply Ascii.eqb_eq in Hx as ->.
  pose proof (lang_alphabet _ _ He) as Hfront.
  apply plus_last in He as (front & last & -> & Hlast).
  rewrite all_chars_app in Hfront. apply andb_true_iff in Hfront as [Hfront _].
  eapply all_chars_impl in Hfront; cycle 1.
  { instantiate (1 := is_address_char). intros x.
    unfold is_address_char, is_dot_or_dash. cbn. unfold is_char.
    by destruct (is_word x), (Ascii.eqb x "."), (Ascii.eqb x "-"). }
  inversion Hlast as [| |? ? dot tld Hdot Htld| | | |]; subst.
  inversion Hdot as [|? y Hy| | | | |]; subst.
  apply Ascii.eqb_eq in Hy as ->.
  apply lang_tld in Htld as [Hword Hlen].
  exists (a +:+ b), (c +:+ d +:+ front), tld.
  split; [by rewrite !append_assoc|].
  split; [by apply append_nonempty_l, (plus_nonempty _ _ Ha)|].
  split; [by apply append_nonempty_l, (plus_nonempty _ _ Hc)|].
  assert (Hplus : forall s, lang (plus word) s ->
                            all_chars is_address_char s = true).
  { intros s0 Hs0. apply (lang_address (plus word)); [|exact Hs0].
    intros x. unfold is_address_char. cbn. by destruct (is_word x). }
  assert (Hseg : forall s, lang segments s ->
                           all_chars is_address_char s = true).
  { intros s0 Hs0. apply (lang_address segments); [|exact Hs0].
    intros x. unfold is_address_char. cbn.
    by destruct (is_word x), (is_dot_or_dash x). }
  rewrite !all_chars_app, (Hplus _ Ha), (Hseg _ Hb), (Hplus _ Hc),
    (Hseg _ Hd), Hfront.
  done.
Qed.

End Patterns.

(** ** Accounts: signup and login *)

Section AccountProperties.

Variable bcrypt_hash : string -> string -> string.
Variable bcrypt_compare : string -> string -> bool.
Variable jwt_sign : Z -> JwtPayload -> string -> string.
Variable jwt_verify : string -> string -> Result JwtPayload.
Variable castObjectId : string -> Result string.

Local Abbreviation signup := (signup bcrypt_hash jwt_sign).
Local Abbreviation login := (login bcrypt_compare jwt_sign).
Local Abbreviation save_new := (save_new bcrypt_hash).
Local Abbreviation comparePassword := (comparePassword bcrypt_compare).
Local Abbreviation token_for := (token_for jwt_sign).
Local Abbreviation SignupOutcome := (SignupOutcome bcrypt_hash jwt_sign).
Local Abbreviation LoginOutcome := (LoginOutcome bcrypt_compare jwt_sign).

Lemma truthy_inv (o : option string) :
  truthy o = true -> exists s, o = Some s /\ s <> "".
Proof.
  destruct o as [s|]; [|discriminate]. cbn.
  destruct (String.eqb_spec s ""); [discriminate|]. eauto.
Qed.

Lemma findOne_found env w f key u :
  findOne env w f = Ok (Some (key, u)) ->
  users w !! key = Some u /\ f u = true.
Proof.
  unfold findOne. destruct (a_query_error env); [discriminate|].
  intros [= Hfind]. apply find_some in Hfind as [Hin Hf].
  apply list_elem_of_In, elem_of_map_to_list in Hin. done.
Qed.

Lemma findOne_none env w f :
  findOne env w f = Ok None ->
  forall key u, users w !! key = Some u -> f u = false.
Proof.
  unfold findOne. destruct (a_query_error env); [discriminate|].
  intros [= Hfind] key u Hu.
  apply (find_none _ _ Hfind (key, u)).
  by apply list_elem_of_In, elem_of_map_to_list.
Qed.

Lemma findOne_exists env w f key u :
  a_query_error env = None -> users w !! key = Some u -> f u = true ->
  exists found, findOne env w f = Ok (Some found).
Proof.
  intros Hq Hu Hf. unfold findOne. rewrite Hq.
  destruct (List.find _ _) as [found|] eqn:Hfind; [eauto|].
  pose proof (find_none _ _ Hfind (key, u)) as Hnone. cbn in Hnone.
  rewrite Hf in Hnone. discriminate Hnone.
  by apply list_elem_of_In, elem_of_map_to_list.
Qed.

Lemma index_conflict_false w u :
  index_conflict w u = false <->
  users w !! User._id u = None /\
  forall key u', users w !! key = Some u' ->
                 String.eqb (User.email u') (User.email u) = false.
Proof.
  unfold index_conflict. rewrite orb_false_iff, bool_decide_eq_false.
  rewrite <- eq_None_not_Some.
  split; intros [Hid Hemail]; (split; [exact Hid|]).
  - intros key u' Hu'.
    destruct (String.eqb (User.email u') (User.email u)) eqn:Heq; [|done].
    rewrite <- Hemail. symmetry. apply existsb_exists.
    exists (key, u'). split; [|exact Heq].
    by apply list_elem_of_In, elem_of_map_to_list.
  - destruct (existsb _ _) eqn:Hex; [|done].
    apply existsb_exists in Hex as ([key u'] & Hin & Heq).
    apply list_elem_of_In, elem_of_map_to_list in Hin.
    cbn in Heq. by rewrite (Hemail key u' Hin) in Heq.
Qed.

Local Ltac refused :=
  apply SignupRefused; [cbn; auto|reflexivity].

Lemma signup_outcome env w body :
  SignupOutcome env w body (signup env w body).
Proof.
  unfold signup.
  destruct (truthy (b_name body)) eqn:Hn; cbn [negb orb];
    [|refused].
  destruct (truthy (b_email body)) eqn:He; cbn [negb orb];
    [|refused].
  destruct (truthy (b_phone body)) eqn:Hp; cbn [negb orb];
    [|refused].
  destruct (truthy (b_password body)) eqn:Hw; cbn [negb orb];
    [|refused].
  apply truthy_inv in Hn as (name & Hn & Hn').
  apply truthy_inv in He as (email & He & He').
  apply truthy_inv in Hp as (phone & Hp & Hp').
  apply truthy_inv in Hw as (password & Hw & Hw').
  rewrite Hn, He, Hp, Hw. cbn [default from_option id].
  destruct (findOne env w (by_email email)) as [[found|]|e] eqn:Hfe;
    [refused| |refused].
  destruct (findOne env w (by_phone phone)) as [[found|]|e] eqn:Hfp;
    [refused| |refused].
  unfold save_new.
  destruct (UserSchema.validate _) eqn:Hvalid;
    [|refused].
  destruct (a_write_error env) as [e|] eqn:Hwrite;
    [refused|].
  destruct (index_conflict w _) eqn:Hconf;
    [refused|].
  apply index_conflict_false in Hconf as [Hfresh _].
  apply SignupCreated with (name := name) (email := email) (phone := phone)
                           (password := password); try done.
  - unfold findOne in Hfe. by destruct (a_query_error env).
  - exact (findOne_none env w _ Hfe).
  - exact (findOne_none env w _ Hfp).
Qed.


Lemma validate_parts (u : User.t) :
  UserSchema.validate u = true <->
  UserSchema.name_valid u = true /\ UserSchema.role_valid u = true /\
  UserSchema.email_valid u = true /\ UserSchema.phone_valid u = true /\
  UserSchema.password_valid u = true /\ UserSchema.village_valid u = true /\
  UserSchema.language_valid u = true.
Proof. unfold UserSchema.validate. rewrite !andb_true_iff. tauto. Qed.

Lemma truthy_json_inv (o : option Json) :
  truthy_json o = true ->
  exists v, o = Some v /\ forall s, v = JStr s -> s <> "".
Proof.
  destruct o as [v|]; [|discriminate]. intros H. exists v.
  split; [reflexivity|]. intros s ->. cbn in H.
  by destruct (String.eqb_spec s "").
Qed.

Lemma comparePassword_inv candidate u :
  match comparePassword candidate u with
  | Ok b =>
      exists s, candidate = JStr s /\
                bcrypt_compare s (User.passwordHash u) = b
  | Throw _ => forall s, candidate <> JStr s
  end.
Proof. destruct candidate; cbn; eauto; discriminate. Qed.

Lemma login_outcome env w body :
  LoginOutcome env w body (login env w body).
Proof.
  unfold login.
  destruct (truthy_json (l_mobile body)) eqn:Hm; cbn [negb orb];
    [|by apply LoginIncomplete; [left|]].
  destruct (truthy_json (l_password body)) eqn:Hp; cbn [negb orb];
    [|by apply LoginIncomplete; [right|]].
  apply truthy_json_inv in Hm as (mobile & Hm & _).
  apply truthy_json_inv in Hp as (password & Hp & Hp').
  rewrite Hm, Hp. cbn [default from_option id].
  destruct (phone_filter env mobile) as [filter|e] eqn:Hfilter; cycle 1.
  { eapply LoginFailed; [|reflexivity]. left. by exists mobile. }
  destruct (findOne env w filter) as [[[key user]|]|e] eqn:Hf.
  - apply findOne_found in Hf as [Hu Hmatch].
    pose proof (comparePassword_inv password user) as Hc.
    destruct (comparePassword password user) as [[|]|e].
    + destruct Hc as (s & -> & Hc). unfold save_login.
      destruct (UserSchema.validate _) eqn:Hvalid.
      * destruct (a_write_error env) eqn:Hwrite.
        -- eapply LoginFailed; [|reflexivity]. auto.
        -- apply LoginOk with (mobile := mobile) (filter := filter)
                              (password := s) (key := key) (user := user);
             try done.
           by apply Hp'.
      * eapply LoginFailed; [|reflexivity]. do 4 right.
        by exists mobile, filter, key, user.
    + destruct Hc as (s & -> & Hc).
      apply LoginDenied with (mobile := mobile) (password := JStr s)
                             (filter := filter); try done.
      right. by exists key, user, s.
    + eapply LoginFailed; [|reflexivity]. right. right. left.
      by exists password.
  - apply LoginDenied with (mobile := mobile) (password := password)
                           (filter := filter); try done.
    left. exact (findOne_none env w _ Hf).
  - eapply LoginFailed; [|reflexivity]. right. left.
    unfold findOne in Hf. destruct (a_query_error env); by inversion Hf.
Qed.

(** *** Signup *)

(** X18. A signup that is answered 201 adds exactly one user and changes
    nothing else: the id of the new document was not in use, the new user
    is stored under it, every user stored before is still stored unchanged
    and no other is stored, and files and uploads are as before.  The
    stored [passwordHash] is the bcrypt hash of the submitted password,
    which has at least six characters; the stored name, email and phone are
    the submitted ones after trimming (and lower-casing the email), and
    they pass the schema. *)
Theorem signup_creates_one_user env w body :
  status (signup env w body).1 = 201%Z ->
  let r := signup env w body in
  exists name email phone password u,
    b_name body = Some name /\ b_email body = Some email /\
    b_phone body = Some phone /\ b_password body = Some password /\
    users w !! a_new_id env = None /\
    users r.2 = <[a_new_id env := u]> (users w) /\
    users r.2 !! a_new_id env = Some u /\
    (forall key, key <> a_new_id env -> users r.2 !! key = users w !! key) /\
    base.size (users r.2) = S (base.size (users w)) /\
    fs r.2 = fs w /\ uploads r.2 = uploads w /\
    User._id u = a_new_id env /\
    User.passwordHash u = bcrypt_hash password (a_salt env) /\
    6 <= String.length password /\
    User.name u = UserSchema.trim name /\
    User.email u = UserSchema.trim (toLowerCase email) /\
    User.phone u = UserSchema.trim phone /\
    UserSchema.name_valid u = true /\ UserSchema.email_valid u = true /\
    UserSchema.phone_valid u = true.
Proof.
  intros H201 r. subst r.
  destruct (signup_outcome env w body)
    as [name email phone password Hn _ He _ Hp _ Hw _ _ _ Hfresh _ _ Hvalid Hres
       |[H|H] _]; [|rewrite H in H201; discriminate..].
  rewrite Hres. cbn [snd users fs uploads set_users].
  apply validate_parts in Hvalid as (Hname & _ & Hemail & Hphone & Hpw & _).
  unfold UserSchema.password_valid in Hpw.
  apply andb_true_iff in Hpw as [_ Hlen]. apply Nat.leb_le in Hlen.
  exists name, email, phone, password,
    (with_hash (bcrypt_hash password (a_salt env))
               (new_user env name email phone password body)).
  split_and!; try done.
  - apply lookup_insert_eq.
  - intros key Hne. by apply lookup_insert_ne.
  - by apply map_size_insert_None.
Qed.

Lemma findOne_none_intro env w f :
  a_query_error env = None ->
  (forall key u, users w !! key = Some u -> f u = false) ->
  findOne env w f = Ok None.
Proof.
  intros Hq Hnone. unfold findOne. rewrite Hq.
  destruct (List.find _ _) as [[key u]|] eqn:Hfind; [|reflexivity].
  apply find_some in Hfind as [Hin Hf]. cbn in Hf.
  apply list_elem_of_In, elem_of_map_to_list in Hin.
  rewrite (Hnone key u Hin) in Hf. discriminate.
Qed.

Lemma truthy_some (s : string) : s <> "" -> truthy (Some s) = true.
Proof. intros Hne. cbn. by destruct (String.eqb_spec s ""). Qed.

Lemma signup_accepts env w body name email phone password :
  b_name body = Some name -> name <> "" ->
  b_email body = Some email -> email <> "" ->
  b_phone body = Some phone -> phone <> "" ->
  b_password body = Some password -> password <> "" ->
  a_query_error env = None -> a_write_error env = None ->
  users w !! a_new_id env = None ->
  (forall key u, users w !! key = Some u -> by_email email u = false) ->
  (forall key u, users w !! key = Some u -> by_phone phone u = false) ->
  UserSchema.validate (new_user env name email phone password body) = true ->
  let u := new_user env name email phone password body in
  let stored := with_hash (bcrypt_hash password (a_salt env)) u in
  signup env w body
  = (mkResponse 201
       (ok_body "User registered successfully" (token_for env stored)
                (signup_user_json stored)),
     set_users (<[a_new_id env := stored]> (users w)) w).
Proof.
  intros Hn Hn' He He' Hp Hp' Hw Hw' Hq Hwr Hfresh Hne Hnp Hvalid.
  unfold signup. rewrite Hn, He, Hp, Hw.
  rewrite !truthy_some by done. cbn [negb orb default from_option id].
  rewrite (findOne_none_intro env w _ Hq Hne).
  rewrite (findOne_none_intro env w _ Hq Hnp).
  unfold save_new. rewrite Hvalid, Hwr.
  assert (index_conflict w
            (with_hash (bcrypt_hash password (a_salt env))
                       (new_user env name email phone password body)) = false)
    as Hconf.
  { apply index_conflict_false. split; [exact Hfresh|]. exact Hne. }
  cbn [new_user User.passwordHash] in *. by rewrite Hconf.
Qed.

(** X19. Signup grants whatever role the request names: a request
    that is accepted is also accepted when it asks for the role "admin",
    and the user it then stores is an admin. *)
Theorem signup_grants_requested_admin env w body :
  status (signup env w body).1 = 201%Z ->
  let r := signup env w (with_role "admin" body) in
  status r.1 = 201%Z /\
  exists u, users r.2 !! a_new_id env = Some u /\ User.role u = "admin".
Proof.
  intros H201.
  destruct (signup_outcome env w body)
    as [name email phone password Hn Hn' He He' Hp Hp' Hw Hw' Hq Hwr Hfresh
          Hne Hnp Hvalid _|[H|H] _]; [|rewrite H in H201; discriminate..].
  assert (Hvalid' : UserSchema.validate
            (new_user env name email phone password (with_role "admin" body))
            = true).
  { apply validate_parts in Hvalid as (? & _ & ? & ? & ? & ? & ?).
    apply validate_parts. by split_and!. }
  cbn zeta.
  rewrite (signup_accepts env w (with_role "admin" body) name email phone
             password Hn Hn' He He' Hp Hp' Hw Hw' Hq Hwr Hfresh Hne Hnp
             Hvalid').
  split; [reflexivity|]. eexists. split; [apply lookup_insert_eq|reflexivity].
Qed.

(** X20. A signup that is not answered 201 is answered 400 or 500 and
    changes nothing; and a request in which the name, the email, the phone
    or the password is missing or empty is answered 400 whatever the state
    of the store. *)
Theorem signup_refusal_changes_nothing env w body :
  let r := signup env w body in
  (status r.1 <> 201%Z ->
     r.2 = w /\ (status r.1 = 400%Z \/ status r.1 = 500%Z)) /\
  (truthy (b_name body) = false \/ truthy (b_email body) = false \/
   truthy (b_phone body) = false \/ truthy (b_password body) = false ->
   status r.1 = 400%Z).
Proof.
  cbn zeta. split.
  - intros Hne.
    destruct (signup_outcome env w body)
      as [? ? ? ? _ _ _ _ _ _ _ _ _ _ _ _ _ _ Hres|Hst Hw]; [|done].
    rewrite Hres in Hne. done.
  - unfold signup. intros [-> | [-> | [-> | ->]]]; cbn [negb orb];
      rewrite ?orb_true_r; reflexivity.
Qed.

(** X21. While the store answers, a signup whose email (trimmed and
    lower-cased) or whose phone number (trimmed) is that of a stored user
    is answered 400 and changes nothing. *)
Theorem signup_rejects_duplicates env w body name email phone password key u :
  b_name body = Some name -> name <> "" ->
  b_email body = Some email -> email <> "" ->
  b_phone body = Some phone -> phone <> "" ->
  b_password body = Some password -> password <> "" ->
  a_query_error env = None ->
  users w !! key = Some u ->
  User.email u = UserSchema.trim (toLowerCase email) \/
  User.phone u = UserSchema.trim phone ->
  let r := signup env w body in
  status r.1 = 400%Z /\ r.2 = w.
Proof.
  intros Hn Hn' He He' Hp Hp' Hw Hw' Hq Hu Hdup. cbn zeta.
  unfold signup. rewrite Hn, He, Hp, Hw.
  rewrite !truthy_some by done. cbn [negb orb default from_option id].
  destruct (findOne env w (by_email email)) as [[found|]|e] eqn:Hfe.
  - done.
  - destruct Hdup as [Hemail|Hphone].
    + pose proof (findOne_none env w _ Hfe key u Hu) as Hno.
      unfold by_email, UserSchema.set_email in Hno.
      rewrite Hemail, String.eqb_refl in Hno. discriminate.
    + destruct (findOne_exists env w (by_phone phone) key u Hq Hu)
        as [found ->]; [|done].
      unfold by_phone. rewrite Hphone. apply String.eqb_refl.
  - unfold findOne in Hfe. rewrite Hq in Hfe. discriminate.
Qed.


(** *** Login *)

(** X23. Neither signup nor login ever puts a key [passwordHash] into a
    response, whatever they answer. *)
Theorem account_responses_without_hash env w sbody lbody :
  has_key "passwordHash" (body (signup env w sbody).1) = false /\
  has_key "passwordHash" (body (login env w lbody).1) = false.
Proof.
  split.
  - unfold signup, save_new.
    destruct (_ || _); [reflexivity|].
    destruct (findOne _ _ _) as [[?|]|?]; try reflexivity.
    destruct (findOne _ _ _) as [[?|]|?]; try reflexivity.
    destruct (UserSchema.validate _); [|reflexivity].
    destruct (a_write_error env); [reflexivity|].
    destruct (index_conflict _ _); reflexivity.
  - unfold login, save_login.
    destruct (_ || _); [reflexivity|].
    destruct (phone_filter _ _) as [filter|?]; [|reflexivity].
    destruct (findOne _ _ _) as [[[key user]|]|?]; try reflexivity.
    destruct (comparePassword _ _) as [[|]|?]; try reflexivity.
    destruct (UserSchema.validate _); [|reflexivity].
    destruct (a_write_error env); [reflexivity|].
    destruct user as [? ? ? ? ? ? [?|] ? ? ? ? ?]; reflexivity.
Qed.


(** X25. A login answered 200 found a stored user who passes the filter
    [{ phone: mobile }] as the store reads the submitted [mobile]: when
    [mobile] is a string, a user whose phone is that string trimmed; when it
    is anything else (such as an object of query operators), whichever user
    the store matches.  The password submitted is a string, and the hash of
    the user found matches it.  The login changes only that user's
    [lastLogin] and [updatedAt]: the hash and every other field, every
    other user, the uploads and the files stay as they were. *)
Theorem login_updates_only_lastLogin env w body :
  status (login env w body).1 = 200%Z ->
  let r := login env w body in
  exists mobile filter password key user user',
    l_mobile body = Some mobile /\ l_password body = Some (JStr password) /\
    phone_filter env mobile = Ok filter /\
    users w !! key = Some user /\ filter user = true /\
    (forall s, mobile = JStr s -> User.phone user = UserSchema.trim s) /\
    bcrypt_compare password (User.passwordHash user) = true /\
    users r.2 = <[key := user']> (users w) /\
    (forall k, k <> key -> users r.2 !! k = users w !! k) /\
    fs r.2 = fs w /\ uploads r.2 = uploads w /\
    User.lastLogin user' = Some (a_now env) /\
    User.updatedAt user' = a_now env /\
    User.passwordHash user' = User.passwordHash user /\
    User._id user' = User._id user /\ User.name user' = User.name user /\
    User.role user' = User.role user /\ User.email user' = User.email user /\
    User.phone user' = User.phone user /\
    User.village user' = User.village user /\
    User.language user' = User.language user /\
    User.createdAt user' = User.createdAt user.
Proof.
  intros H200 r. subst r.
  destruct (login_outcome env w body)
    as [mobile filter password key user Hm Hp _ Hfilter Hu Hmatch Hc _ _ Hres
       |? ? ? _ _ _ _ Hres|_ Hres|? _ Hres];
    try (rewrite Hres in H200; discriminate).
  rewrite Hres. cbn [snd users fs uploads set_users].
  exists mobile, filter, password, key, user,
    (with_lastLogin (a_now env) user).
  split_and!; try done.
  - intros s ->. cbn in Hfilter. injection Hfilter as <-.
    by apply String.eqb_eq in Hmatch.
  - intros k Hne. by apply lookup_insert_ne.
Qed.

(** *** Signup, then the other routes *)

Lemma stored_user_found env w body phone key u :
  status (signup env w body).1 = 201%Z ->
  b_phone body = Some phone ->
  users (signup env w body).2 !! key = Some u ->
  by_phone phone u = true ->
  key = a_new_id env /\
  exists password,
    b_password body = Some password /\ password <> "" /\ phone <> "" /\
    User.passwordHash u = bcrypt_hash password (a_salt env) /\
    forall t, 6 <= String.length (User.passwordHash u) ->
              UserSchema.validate (with_lastLogin t u) = true.
Proof.
  intros H201 Hphone.
  destruct (signup_outcome env w body)
    as [name email phone' password _ _ _ _ Hp Hp' Hw Hw' _ _ _ _ Hnp Hvalid
          Hres
       |[H|H] _]; [|rewrite H in H201; discriminate..].
  assert (phone' = phone) as -> by congruence.
  rewrite Hres. cbn [snd users set_users]. rewrite lookup_insert.
  destruct (decide (a_new_id env = key)) as [<-|Hne].
  - intros [= <-] _. split; [reflexivity|].
    exists password. split_and!; try done.
    intros t Hlen. apply validate_parts in Hvalid as (? & ? & ? & ? & _ & ? & ?).
    apply validate_parts. split_and!; try done.
    unfold UserSchema.password_valid, UserSchema.required.
    cbn [with_lastLogin User.passwordHash with_hash User.with_passwordHash]
      in *.
    apply andb_true_iff. split; [|by apply Nat.leb_le].
    destruct (bcrypt_hash password (a_salt env)); [cbn in Hlen; lia|done].
  - intros Hu Hby. rewrite (Hnp _ _ Hu) in Hby. discriminate.
Qed.

(** X26. Who has just signed up can log in: when the hash stored by an
    accepted signup compares equal to the submitted password and has at
    least six characters (as bcrypt's have), and the store answers, a login
    with the same phone number and password is answered 200. *)
Theorem login_after_signup env w body env2 phone password :
  status (signup env w body).1 = 201%Z ->
  b_phone body = Some phone -> b_password body = Some password ->
  bcrypt_compare password (bcrypt_hash password (a_salt env)) = true ->
  6 <= String.length (bcrypt_hash password (a_salt env)) ->
  a_query_error env2 = None -> a_write_error env2 = None ->
  status (login env2 (signup env w body).2
                (mkLogin (Some (JStr phone)) (Some (JStr password)))).1
  = 200%Z.
Proof.
  intros H201 Hphone Hpw Hcmp Hlen Hq Hwr.
  set (w1 := (signup env w body).2).
  assert (Hfound : forall key u, users w1 !! key = Some u ->
            by_phone phone u = true ->
            bcrypt_compare password (User.passwordHash u) = true /\
            UserSchema.validate (with_lastLogin (a_now env2) u) = true).
  { intros key u Hu Hby.
    destruct (stored_user_found env w body phone key u H201 Hphone Hu Hby)
      as (_ & password' & Hpw' & _ & _ & Hhash & Hvalid).
    assert (password' = password) as -> by congruence.
    rewrite Hhash. split; [exact Hcmp|]. apply Hvalid. by rewrite Hhash. }
  assert (Hstored : phone <> "" /\ password <> "" /\
            exists u, users w1 !! a_new_id env = Some u /\
                      by_phone phone u = true).
  { unfold w1.
    destruct (signup_outcome env w body)
      as [? ? phone' password' _ _ _ _ Hp Hp' Hw Hw' _ _ _ _ _ _ Hres|[H|H] _];
      [|rewrite H in H201; discriminate..].
    assert (phone' = phone) as -> by congruence.
    assert (password' = password) as -> by congruence.
    split; [exact Hp'|]. split; [exact Hw'|].
    rewrite Hres. cbn [snd users set_users]. rewrite lookup_insert_eq.
    eexists. split; [reflexivity|]. apply String.eqb_refl. }
  destruct Hstored as (Hphone' & Hpw' & Hstored).
  destruct (login_outcome env2 w1
              (mkLogin (Some (JStr phone)) (Some (JStr password))))
    as [? ? ? ? ? _ _ _ _ _ _ _ _ _ Hres
       |mobile pw filter [= <-] [= <-] [= <-] Hwhy _
       |[Hm|Hm] _
       |e Hwhy _].
  - by rewrite Hres.
  - exfalso. destruct Hwhy as [Hnone|(key & u & s & Hu & Hby & [= <-] & Hno)].
    + destruct Hstored as (u & Hu & Hby). by rewrite (Hnone _ _ Hu) in Hby.
    + destruct (Hfound key u Hu Hby) as [Hyes _]. congruence.
  - exfalso. cbn [l_mobile truthy_json] in Hm.
    by destruct (String.eqb_spec phone "").
  - exfalso. cbn [l_password truthy_json] in Hm.
    by destruct (String.eqb_spec password "").
  - exfalso.
    destruct Hwhy
      as [(mobile & [= <-] & Hthrow)
         |[H
         |[(pw & [= <-] & Hnot)
         |[H
         |(mobile & filter & key & u & [= <-] & [= <-] & Hu & Hby & Hv)]]]].
    + discriminate Hthrow.
    + congruence.
    + by apply (Hnot password).
    + congruence.
    + destruct (Hfound key u Hu Hby) as [_ Hyes]. congruence.
Qed.

(** X27. The token a signup returns is signed with the secret
    routes/auth.js fixed when it was loaded.  It opens the protected routes
    as the new user when that is also the secret the middleware reads from
    [process.env] at the time of the request: if then [jwt.verify] decodes
    the token back to its payload, the token has no space in it, the id of
    the new user is an ObjectId in its hexadecimal form, and the store
    answers, the middleware passes the user just stored on as [req.user]. *)
Theorem signup_token_authenticates env w body env2 req u :
  status (signup env w body).1 = 201%Z ->
  users (signup env w body).2 !! a_new_id env = Some u ->
  request_secret env2 = JWT_SECRET env ->
  jwt_verify (token_for env u) (JWT_SECRET env)
  = Ok (mkPayload (User._id u) (User.email u) (User.role u)) ->
  no_space (token_for env u) = true -> token_for env u <> "" ->
  castObjectId (a_new_id env) = Ok (a_new_id env) ->
  find_error env2 = None ->
  response_token (signup env w body).1 = Some (token_for env u) /\
  authMiddleware jwt_verify castObjectId env2 (signup env w body).2
    (with_authorization ("Bearer " +:+ token_for env u) req)
  = AuthNext u.
Proof.
  intros H201.
  destruct (signup_outcome env w body)
    as [name email phone password _ _ _ _ _ _ _ _ _ _ _ _ _ _ Hres|[H|H] _];
    [|rewrite H in H201; discriminate..].
  rewrite Hres. cbn [fst snd users set_users]. rewrite lookup_insert_eq.
  intros [= <-] Henv Hverify Hns Hne Hcast Hfind.
  split; [reflexivity|].
  set (stored := with_hash _ _) in *.
  set (tok := token_for env stored) in *.
  change ("Bearer " +:+ tok) with ("Bearer" +:+ " " +:+ tok).
  rewrite (authMiddleware_by_token jwt_verify castObjectId env2 _
             (with_authorization ("Bearer" +:+ " " +:+ tok) req) _ eq_refl
             (scheme_header_nonempty "Bearer" tok)).
  rewrite (scheme_header_token "Bearer" tok req eq_refl).
  rewrite (split_single _ Hns). cbn [head truthy default from_option id].
  destruct (String.eqb_spec tok ""); [contradiction|]. cbn [negb].
  fold (request_secret env2). rewrite Henv, Hverify.
  unfold findById, User.findById. cbn [p_userId]. unfold stored at 1.
  cbn [with_hash User.with_passwordHash User._id new_user].
  rewrite Hcast, Hfind. cbn [users set_users].
  by rewrite lookup_insert_eq.
Qed.

End AccountProperties.

(** ** The account routes on concrete requests *)

(** With JWT_SECRET only in .env, routes/auth.js signs and verifies with
    its built-in default while the middleware verifies with the secret of
    .env: the token of a signup is accepted by GET /auth/me and refused by
    the middleware. *)
Example secret_only_in_dotenv :
  let r := signup Accounts.hash Accounts.sign Accounts.env Sample.world
                  Accounts.meena in
  let token := token_for Accounts.sign Accounts.env Accounts.meena_stored in
  let req := mkRequest GET "/auth/me" (Some ("Bearer " +:+ token)) None in
  response_token r.1 = Some token /\
  auth_JWT_SECRET Fixture.env_dotenv <> request_secret Fixture.env_dotenv /\
  status (get_me Accounts.verify Sample.cast Fixture.env_dotenv r.2 req)
  = 200%Z /\
  authMiddleware Accounts.verify Sample.cast Fixture.env_dotenv r.2 req
  = AuthRespond (mkResponse 403 (fail_body "Token invalid or expired")).
Proof.
  split; [by vm_compute|]. split; [by vm_compute|].
  split; by vm_compute.
Qed.

(** A signup for which the generated id is in use is answered 500 and
    stores nothing. *)
Example signup_with_id_in_use :
  let r := signup Accounts.hash Accounts.sign Accounts.env_clash Sample.world
                  Accounts.meena in
  status r.1 = 500%Z /\ r.2 = Sample.world.
Proof. split; by vm_compute. Qed.

(** A login whose [mobile] is an object of query operators is answered
    200 for a user whose phone number the request does not contain; one
    whose password is a number is answered 500. *)
Example login_with_operator :
  let r := login Accounts.compare Accounts.sign Accounts.env_later
                 Accounts.world1 Accounts.operator_login in
  let r' := login Accounts.compare Accounts.sign Accounts.env_later
                  Accounts.world1
                  (mkLogin (Some (JStr "9000000001")) (Some (num_of_Z 123456)))
  in
  status r.1 = 200%Z /\
  (User.lastLogin <$> users r.2 !! Accounts.meena_id)
  = Some (Some (a_now Accounts.env_later)) /\
  (User.phone <$> users r.2 !! Accounts.meena_id) = Some "9000000001" /\
  status r'.1 = 500%Z /\ r'.2 = Accounts.world1.
Proof.
  split; [by vm_compute|]. split; [by vm_compute|].
  split; [by vm_compute|]. split; by vm_compute.
Qed.

(** ** The further theorems with hypotheses, applied to concrete inputs *)

(** A refused classifier call on a disk that holds three images. *)
Lemma upload_touches_only_its_path_witness :
  let env := Sample.env_with (Throw Sample.refused) None in
  let req := Sample.post (Some "Bearer good") (Some Sample.jpeg) in
  let r := post_upload Fixture.verify Sample.cast Sample.extname
             (error_handler env) env Fixture.world req in
  flow_path Sample.extname env req <> Some "uploads/silkworm-1-1.jpg" /\
  ("uploads/silkworm-1-1.jpg" ∈ fs r.2 <->
   "uploads/silkworm-1-1.jpg" ∈ fs Fixture.world).
Proof.
  intros env req r.
  assert (H : flow_path Sample.extname env req
              <> Some "uploads/silkworm-1-1.jpg") by (by vm_compute).
  split; [exact H|].
  exact (upload_touches_only_its_path
           Fixture.verify Sample.cast Sample.extname env
           Fixture.world req _ H).
Defined.

(** An accepted upload of a JPEG by the sample user. *)
Lemma accepted_record_describes_upload_witness :
  let env := Sample.env_with (Ok Sample.healthy) None in
  let req := Sample.post (Some "Bearer good") (Some Sample.jpeg) in
  let r := post_upload Sample.verify Sample.cast Sample.extname
             (error_handler env) env Sample.world req in
  status r.1 = 200%Z /\
  exists tok decoded key user part d,
    header_token req = Some tok /\
    Sample.verify tok (or_else (process_env env !! "JWT_SECRET")
                               "your-secret-key-change-this") = Ok decoded /\
    Sample.cast (p_userId decoded) = Ok key /\
    users Sample.world !! key = Some user /\
    file_part req = Some part /\
    uploads r.2 = uploads Sample.world ++ [d] /\
    Upload.userId d = User._id user /\
    Upload.imageURL d = "/uploads/" +:+ Upload.filename d /\
    record_path d ∈ fs r.2 /\
    flow_path Sample.extname env req = Some (record_path d) /\
    Upload.imageSize d = size part /\
    Upload.mimeType d = mimetype part /\
    startsWith "image/" (Upload.mimeType d) = true /\
    (Upload.imageSize d <= 10485760)%Z.
Proof.
  intros env req r.
  assert (H : status r.1 = 200%Z) by (vm_compute; reflexivity).
  split; [exact H|].
  exact (accepted_record_describes_upload
           Sample.verify Sample.cast Sample.extname env
           Sample.world req H).
Defined.

(** A stray file stays the only orphan after a failed upload. *)
Lemma upload_creates_no_orphan_witness :
  let env := Sample.env_with (Throw Sample.refused) None in
  let req := Sample.post (Some "Bearer good") (Some Sample.jpeg) in
  let r := post_upload Sample.verify Sample.cast Sample.extname
             (error_handler env) env Fixture.stray_world req in
  orphan r.2 "uploads/stray.jpg" /\
  orphan Fixture.stray_world "uploads/stray.jpg".
Proof.
  intros env req r.
  assert (H : orphan r.2 "uploads/stray.jpg").
  { split; [by vm_compute|].
    assert (Hnone : uploads r.2 = []) by (vm_compute; reflexivity).
    intros (d & Hd & _). rewrite Hnone in Hd. by apply elem_of_nil in Hd. }
  split; [exact H|].
  exact (upload_creates_no_orphan Sample.verify Sample.cast Sample.extname env
           Fixture.stray_world req _ H).
Defined.

Lemma fixture_images_present : images_present Fixture.world.
Proof.
  intros d Hd. unfold Fixture.world in Hd. cbn [uploads] in Hd.
  repeat (apply elem_of_cons in Hd as [->|Hd]); [by vm_compute..|].
  by apply elem_of_nil in Hd.
Defined.

Lemma fixture_all_valid : all_valid Fixture.world.
Proof.
  intros d Hd. unfold Fixture.world in Hd. cbn [uploads] in Hd.
  repeat (apply elem_of_cons in Hd as [->|Hd]); [by vm_compute..|].
  by apply elem_of_nil in Hd.
Defined.

(** An accepted upload into a store of three records. *)
Lemma upload_keeps_images_witness :
  let env := Sample.env_with (Ok Sample.healthy) None in
  let req := Sample.post (Some "Bearer good") (Some Sample.jpeg) in
  images_present Fixture.world /\
  (forall path, flow_path Sample.extname env req = Some path ->
                path ∉ fs Fixture.world) /\
  images_present
    (post_upload Fixture.verify Sample.cast Sample.extname
                 (error_handler env) env Fixture.world req).2.
Proof.
  intros env req.
  assert (Hfresh : forall path, flow_path Sample.extname env req = Some path ->
                                path ∉ fs Fixture.world).
  { intros path [= <-]. by vm_compute. }
  split; [exact fixture_images_present|]. split; [exact Hfresh|].
  exact (upload_keeps_images
           Fixture.verify Sample.cast Sample.extname env Fixture.world
           req fixture_images_present Hfresh).
Defined.

(** An accepted upload into a store of three valid records. *)
Lemma upload_keeps_records_valid_witness :
  let env := Sample.env_with (Ok Sample.healthy) None in
  let req := Sample.post (Some "Bearer good") (Some Sample.jpeg) in
  all_valid Fixture.world /\
  all_valid
    (post_upload Fixture.verify Sample.cast Sample.extname
                 (error_handler env) env Fixture.world req).2.
Proof.
  intros env req. split; [exact fixture_all_valid|].
  exact (upload_keeps_records_valid
           Fixture.verify Sample.cast Sample.extname env
           Fixture.world req fixture_all_valid).
Defined.

(** The history of the first user: two of the three records, newest first. *)
Lemma history_is_callers_records_newest_first_witness :
  let env := Sample.env_with (Ok Sample.healthy) None in
  let req := Fixture.get "Bearer good" in
  let found := [Fixture.r3; Fixture.r1] in
  get_history Fixture.verify Sample.cast None env Fixture.world req
  = HistoryOk found /\
  exists user,
    authMiddleware Fixture.verify Sample.cast env Fixture.world req
    = AuthNext user /\
    found ≡ₚ find_by_user (uploads Fixture.world) (User._id user) /\
    (forall d, d ∈ found <->
               d ∈ uploads Fixture.world /\ Upload.userId d = User._id user) /\
    StronglySorted newer_first found.
Proof.
  intros env req found.
  assert (H : get_history Fixture.verify Sample.cast None env Fixture.world req
              = HistoryOk found) by (vm_compute; reflexivity).
  split; [exact H|].
  exact (history_is_callers_records_newest_first
           Fixture.verify Sample.cast None env
           Fixture.world req found H).
Defined.

(** An accepted upload, then the history of the same caller. *)
Lemma accepted_upload_appears_in_history_witness :
  let env := Sample.env_with (Ok Sample.healthy) None in
  let req := Sample.post (Some "Bearer good") (Some Sample.jpeg) in
  let r := post_upload Fixture.verify Sample.cast Sample.extname
             (error_handler env) env Fixture.world req in
  status r.1 = 200%Z /\
  exists d found,
    uploads r.2 = uploads Fixture.world ++ [d] /\
    get_history Fixture.verify Sample.cast None env r.2 req = HistoryOk found /\
    d ∈ found.
Proof.
  intros env req r.
  assert (H : status r.1 = 200%Z) by (vm_compute; reflexivity).
  split; [exact H|].
  exact (accepted_upload_appears_in_history
           Fixture.verify Sample.cast Sample.extname env
           Fixture.world req H).
Defined.

(** The first user uploads; the history of the second is as before. *)
Lemma upload_leaves_other_histories_witness :
  let env := Sample.env_with (Ok Sample.healthy) None in
  let req := Sample.post (Some "Bearer good") (Some Sample.jpeg) in
  let req2 := Fixture.get "Bearer asha" in
  let w' := (post_upload Fixture.verify Sample.cast Sample.extname
               (error_handler env) env Fixture.world req).2 in
  authMiddleware Fixture.verify Sample.cast env Fixture.world req
  = AuthNext Sample.ravi /\
  authMiddleware Fixture.verify Sample.cast env Fixture.world req2
  = AuthNext Fixture.asha /\
  User._id Fixture.asha <> User._id Sample.ravi /\
  get_history Fixture.verify Sample.cast None env w' req2
  = get_history Fixture.verify Sample.cast None env Fixture.world req2.
Proof.
  intros env req req2 w'.
  assert (H1 : authMiddleware Fixture.verify Sample.cast env Fixture.world req
               = AuthNext Sample.ravi) by (vm_compute; reflexivity).
  assert (H2 : authMiddleware Fixture.verify Sample.cast env Fixture.world req2
               = AuthNext Fixture.asha) by (vm_compute; reflexivity).
  assert (H3 : User._id Fixture.asha <> User._id Sample.ravi) by discriminate.
  split; [exact H1|]. split; [exact H2|]. split; [exact H3|].
  exact (upload_leaves_other_histories
           Fixture.verify Sample.cast Sample.extname env
           Fixture.world req None env req2 Sample.ravi Fixture.asha H1 H2 H3).
Defined.

(** The row of the label healthy among the records of the first user. *)
Lemma stats_average_in_unit_interval_witness :
  let docs := uploads Fixture.world in
  let row := Upload.mkStat "healthy" 2
               (Upload.sum_conf [Fixture.r1; Fixture.r3] / Qc_of_nat 2)%Qc in
  (forall d, d ∈ docs -> Upload.validate d = true) /\
  row ∈ Upload.getUserStats docs Sample.ravi_id /\
  unit_interval (Upload.avgConfidence row).
Proof.
  intros docs row.
  assert (Hin : row ∈ Upload.getUserStats docs Sample.ravi_id).
  { apply list_elem_of_In. left. reflexivity. }
  split; [exact fixture_all_valid|]. split; [exact Hin|].
  exact (stats_average_in_unit_interval
           docs Sample.ravi_id fixture_all_valid row Hin).
Defined.

(** The scheme Basic, with and without a trailer. *)
Lemma scheme_and_trailer_ignored_witness :
  let env := Sample.env_with (Ok Sample.healthy) None in
  let req := Sample.post None (Some Sample.jpeg) in
  no_space "Basic" = true /\ no_space "good" = true /\
  authMiddleware Sample.verify Sample.cast env Sample.world
    (with_authorization ("Basic" +:+ " " +:+ "good") req)
  = authMiddleware Sample.verify Sample.cast env Sample.world
      (with_authorization ("Bearer " +:+ "good") req) /\
  authMiddleware Sample.verify Sample.cast env Sample.world
    (with_authorization ("Basic" +:+ " " +:+ "good" +:+ " " +:+ "x y") req)
  = authMiddleware Sample.verify Sample.cast env Sample.world
      (with_authorization ("Bearer " +:+ "good") req).
Proof.
  intros env req. split; [reflexivity|]. split; [reflexivity|].
  exact (scheme_and_trailer_ignored
           Sample.verify Sample.cast env Sample.world req
           "Basic" "good" "x y" eq_refl eq_refl).
Defined.

(** GET /auth/me and the middleware with no JWT_SECRET set anywhere. *)
Lemma me_decides_like_middleware_witness :
  let env := Sample.env_with (Ok Sample.healthy) None in
  let req := mkRequest GET "/auth/me" (Some "Bearer good") None in
  auth_JWT_SECRET env = request_secret env /\
  match authMiddleware Sample.verify Sample.cast env Sample.world req with
  | AuthNext user =>
      get_me Sample.verify Sample.cast env Sample.world req
      = mkResponse 200 (me_body user)
  | AuthRespond r =>
      status (get_me Sample.verify Sample.cast env Sample.world req)
      = if (status r =? 403)%Z then 401%Z else status r
  end.
Proof.
  intros env req. split; [reflexivity|].
  exact (me_decides_like_middleware Sample.verify Sample.cast env Sample.world
           req eq_refl).
Defined.

(** Both versions of the middleware with JWT_SECRET set. *)
Lemma v1_accepts_what_v2_accepts_witness :
  let req := Sample.post (Some "Bearer good") None in
  truthy (process_env Fixture.env_secret !! "JWT_SECRET") = true /\
  authMiddleware Sample.verify Sample.cast Fixture.env_secret Sample.world req
  = AuthNext Sample.ravi /\
  exists decoded key,
    authMiddleware_v1 Sample.verify Fixture.env_secret req
    = Auth1Next decoded /\
    Sample.cast (p_userId decoded) = Ok key /\
    users Sample.world !! key = Some Sample.ravi.
Proof.
  intros req.
  assert (H1 : truthy (process_env Fixture.env_secret !! "JWT_SECRET") = true)
    by (vm_compute; reflexivity).
  assert (H2 : authMiddleware Sample.verify Sample.cast Fixture.env_secret
                 Sample.world req
               = AuthNext Sample.ravi) by (vm_compute; reflexivity).
  split; [exact H1|]. split; [exact H2|].
  exact (v1_accepts_what_v2_accepts Sample.verify Sample.cast Fixture.env_secret
           Sample.world req Sample.ravi H1 H2).
Defined.

(** The address of the sample user. *)
Lemma email_valid_shape_witness :
  UserSchema.email_valid Sample.ravi = true /\
  exists local domain tld,
    User.email Sample.ravi = local +:+ "@" +:+ domain +:+ "." +:+ tld /\
    local <> "" /\ domain <> "" /\
    Re.all_chars Re.is_address_char local = true /\
    Re.all_chars Re.is_address_char domain = true /\
    Re.all_chars Re.is_word tld = true /\
    2 <= String.length tld <= 3.
Proof.
  assert (H : UserSchema.email_valid Sample.ravi = true)
    by (vm_compute; reflexivity).
  split; [exact H|]. exact (email_valid_shape Sample.ravi H).
Defined.

(** A signup with a padded name and a mixed-case address. *)
Lemma signup_creates_one_user_witness :
  let r := signup Accounts.hash Accounts.sign Accounts.env Sample.world
                  Accounts.meena in
  status r.1 = 201%Z /\
  exists name email phone password u,
    b_name Accounts.meena = Some name /\ b_email Accounts.meena = Some email /\
    b_phone Accounts.meena = Some phone /\
    b_password Accounts.meena = Some password /\
    users Sample.world !! a_new_id Accounts.env = None /\
    users r.2 = <[a_new_id Accounts.env := u]> (users Sample.world) /\
    users r.2 !! a_new_id Accounts.env = Some u /\
    (forall key, key <> a_new_id Accounts.env ->
                 users r.2 !! key = users Sample.world !! key) /\
    base.size (users r.2) = S (base.size (users Sample.world)) /\
    fs r.2 = fs Sample.world /\ uploads r.2 = uploads Sample.world /\
    User._id u = a_new_id Accounts.env /\
    User.passwordHash u = Accounts.hash password (a_salt Accounts.env) /\
    6 <= String.length password /\
    User.name u = UserSchema.trim name /\
    User.email u = UserSchema.trim (toLowerCase email) /\
    User.phone u = UserSchema.trim phone /\
    UserSchema.name_valid u = true /\ UserSchema.email_valid u = true /\
    UserSchema.phone_valid u = true.
Proof.
  intros r.
  assert (H : status r.1 = 201%Z) by (vm_compute; reflexivity).
  split; [exact H|].
  exact (signup_creates_one_user Accounts.hash Accounts.sign Accounts.env
           Sample.world Accounts.meena H).
Defined.

(** The same signup asking for the role admin. *)
Lemma signup_grants_requested_admin_witness :
  let r := signup Accounts.hash Accounts.sign Accounts.env Sample.world
                  (with_role "admin" Accounts.meena) in
  status (signup Accounts.hash Accounts.sign Accounts.env Sample.world
                 Accounts.meena).1 = 201%Z /\
  status r.1 = 201%Z /\
  exists u, users r.2 !! a_new_id Accounts.env = Some u /\
            User.role u = "admin".
Proof.
  intros r.
  assert (H : status (signup Accounts.hash Accounts.sign Accounts.env
                             Sample.world Accounts.meena).1 = 201%Z)
    by (vm_compute; reflexivity).
  split; [exact H|].
  exact (signup_grants_requested_admin Accounts.hash Accounts.sign Accounts.env
           Sample.world Accounts.meena H).
Defined.

(** A signup that reuses a stored address in another case. *)
Lemma signup_rejects_duplicates_witness :
  let r := signup Accounts.hash Accounts.sign Accounts.env Sample.world
                  Accounts.copycat in
  users Sample.world !! Sample.ravi_id = Some Sample.ravi /\
  (User.email Sample.ravi
   = UserSchema.trim (toLowerCase " RAVI.test@example.com") \/
   User.phone Sample.ravi = UserSchema.trim "9000000002") /\
  status r.1 = 400%Z /\ r.2 = Sample.world.
Proof.
  intros r.
  assert (Hu : users Sample.world !! Sample.ravi_id = Some Sample.ravi)
    by (vm_compute; reflexivity).
  assert (Hdup : User.email Sample.ravi
                 = UserSchema.trim (toLowerCase " RAVI.test@example.com") \/
                 User.phone Sample.ravi = UserSchema.trim "9000000002")
    by (left; vm_compute; reflexivity).
  split; [exact Hu|]. split; [exact Hdup|].
  refine (signup_rejects_duplicates Accounts.hash Accounts.sign Accounts.env
            Sample.world Accounts.copycat "Copy" " RAVI.test@example.com"
            "9000000002" "secret2" Sample.ravi_id Sample.ravi eq_refl _ eq_refl _
            eq_refl _ eq_refl _ eq_refl Hu Hdup); discriminate.
Defined.




(** A login of the user who signed up before. *)
Lemma login_updates_only_lastLogin_witness :
  let env := Accounts.env_later in
  let w := Accounts.world1 in
  let body := Accounts.right_login in
  let r := login Accounts.compare Accounts.sign env w body in
  status r.1 = 200%Z /\
  exists mobile filter password key user user',
    l_mobile body = Some mobile /\ l_password body = Some (JStr password) /\
    phone_filter env mobile = Ok filter /\
    users w !! key = Some user /\ filter user = true /\
    (forall s, mobile = JStr s -> User.phone user = UserSchema.trim s) /\
    Accounts.compare password (User.passwordHash user) = true /\
    users r.2 = <[key := user']> (users w) /\
    (forall k, k <> key -> users r.2 !! k = users w !! k) /\
    fs r.2 = fs w /\ uploads r.2 = uploads w /\
    User.lastLogin user' = Some (a_now env) /\
    User.updatedAt user' = a_now env /\
    User.passwordHash user' = User.passwordHash user /\
    User._id user' = User._id user /\ User.name user' = User.name user /\
    User.role user' = User.role user /\ User.email user' = User.email user /\
    User.phone user' = User.phone user /\
    User.village user' = User.village user /\
    User.language user' = User.language user /\
    User.createdAt user' = User.createdAt user.
Proof.
  intros env w body r.
  assert (H : status r.1 = 200%Z) by (vm_compute; reflexivity).
  split; [exact H|].
  exact (login_updates_only_lastLogin Accounts.compare Accounts.sign env w
           body H).
Defined.

(** A signup followed by a login with the same phone number and password. *)
Lemma login_after_signup_witness :
  let r := signup Accounts.hash Accounts.sign Accounts.env Sample.world
                  Accounts.meena in
  status r.1 = 201%Z /\
  b_phone Accounts.meena = Some "9000000001" /\
  b_password Accounts.meena = Some "secret1" /\
  Accounts.compare "secret1" (Accounts.hash "secret1" (a_salt Accounts.env))
  = true /\
  6 <= String.length (Accounts.hash "secret1" (a_salt Accounts.env)) /\
  a_query_error Accounts.env_later = None /\
  a_write_error Accounts.env_later = None /\
  status (login Accounts.compare Accounts.sign Accounts.env_later r.2
                (mkLogin (Some (JStr "9000000001"))
                         (Some (JStr "secret1")))).1 = 200%Z.
Proof.
  intros r.
  assert (H : status r.1 = 201%Z) by (vm_compute; reflexivity).
  assert (Hc : Accounts.compare "secret1"
                 (Accounts.hash "secret1" (a_salt Accounts.env)) = true)
    by (vm_compute; reflexivity).
  assert (Hl : 6 <= String.length
                      (Accounts.hash "secret1" (a_salt Accounts.env)))
    by (vm_compute; lia).
  split; [exact H|]. do 2 (split; [reflexivity|]).
  split; [exact Hc|]. split; [exact Hl|]. do 2 (split; [reflexivity|]).
  exact (login_after_signup Accounts.hash Accounts.compare Accounts.sign
           Accounts.env Sample.world Accounts.meena Accounts.env_later
           "9000000001" "secret1" H eq_refl eq_refl Hc Hl eq_refl eq_refl).
Defined.

(** The token of a signup presented to the middleware. *)
Lemma signup_token_authenticates_witness :
  let r := signup Accounts.hash Accounts.sign Accounts.env Sample.world
                  Accounts.meena in
  let env2 := Sample.env_with (Ok Sample.healthy) None in
  let req := Sample.post None (Some Sample.jpeg) in
  let u := Accounts.meena_stored in
  let token := token_for Accounts.sign Accounts.env u in
  status r.1 = 201%Z /\
  users r.2 !! a_new_id Accounts.env = Some u /\
  request_secret env2 = JWT_SECRET Accounts.env /\
  Accounts.verify token (JWT_SECRET Accounts.env)
  = Ok (mkPayload (User._id u) (User.email u) (User.role u)) /\
  no_space token = true /\ token <> "" /\
  Sample.cast (a_new_id Accounts.env) = Ok (a_new_id Accounts.env) /\
  find_error env2 = None /\
  response_token r.1 = Some token /\
  authMiddleware Accounts.verify Sample.cast env2 r.2
    (with_authorization ("Bearer " +:+ token) req)
  = AuthNext u.
Proof.
  intros r env2 req u token.
  assert (H : status r.1 = 201%Z) by (vm_compute; reflexivity).
  assert (Hu : users r.2 !! a_new_id Accounts.env = Some u)
    by (vm_compute; reflexivity).
  assert (Hv : Accounts.verify token (JWT_SECRET Accounts.env)
               = Ok (mkPayload (User._id u) (User.email u) (User.role u)))
    by (vm_compute; reflexivity).
  assert (Hs : no_space token = true) by (vm_compute; reflexivity).
  assert (Hne : token <> "") by (vm_compute; discriminate).
  assert (Hc : Sample.cast (a_new_id Accounts.env)
               = Ok (a_new_id Accounts.env)) by (vm_compute; reflexivity).
  split; [exact H|]. split; [exact Hu|]. split; [reflexivity|].
  split; [exact Hv|]. split; [exact Hs|]. split; [exact Hne|].
  split; [exact Hc|]. split; [reflexivity|].
  exact (signup_token_authenticates Accounts.hash Accounts.sign Accounts.verify
           Sample.cast Accounts.env Sample.world Accounts.meena env2 req u H Hu
           eq_refl Hv Hs Hne Hc eq_refl).
Defined.
